(** * Support chat core: the end-user widget and the operator console

    A shallow embedding of the chat handlers of the platform:
    - [SupportManagement] (operator console, [src/geminiService.ts]):
      [handleSelectChat], [handleSendReply], [handleDeleteChat];
    - [SupportWidget] (end-user widget, [src/unnamed/part_002]):
      the three effects, [handleSubmit], [handleSupportIconClick].

    React state is a record per component; a handler is a computation over
    the pair (component state, world), where the world holds the document
    store, the toasts shown so far and the log of store requests.  A
    handler runs to completion without another event interleaving with it
    (the event loop is single-threaded; the [await] points of a handler are
    not modelled as preemption points).  Output to the console is left
    out. *)

From Stdlib Require Import ZArith NArith Lia Decimal.
From stdpp Require Import base option list gmap strings sorting.

Local Open Scope Z_scope.

(** ** JavaScript strings

    A JS string is a sequence of UTF-16 code units. *)

Abbreviation jsstring := (list N).

Definition lit (s : string) : jsstring :=
  Ascii.N_of_ascii <$> String.list_ascii_of_string s.
Global Arguments lit : simpl never.

(** [WhiteSpace] and [LineTerminator] code points of ECMAScript, the ones
    [String.prototype.trim] strips: TAB, LF, VT, FF, CR, SP, NBSP, the
    Unicode space separators, LS, PS and the byte order mark. *)
Definition isWhiteSpace (c : N) : bool :=
  (((9 <=? c) && (c <=? 13))
   || (c =? 32) || (c =? 160) || (c =? 5760)
   || ((8192 <=? c) && (c <=? 8202))
   || (c =? 8232) || (c =? 8233) || (c =? 8239) || (c =? 8287)
   || (c =? 12288) || (c =? 65279))%N.

Fixpoint trimStart (s : jsstring) : jsstring :=
  match s with
  | c :: s' => if isWhiteSpace c then trimStart s' else s
  | [] => []
  end.

Definition trimEnd (s : jsstring) : jsstring := rev (trimStart (rev s)).

Definition trim (s : jsstring) : jsstring := trimEnd (trimStart s).

(** Truthiness of a string: only the empty string is falsy. *)
Definition truthy (s : jsstring) : bool :=
  match s with [] => false | _ => true end.

(** Truthiness of [string | null]. *)
Definition truthy_opt (o : option jsstring) : bool :=
  match o with Some s => truthy s | None => false end.

Definition whitespace_only (s : jsstring) : Prop :=
  Forall (λ c, isWhiteSpace c = true) s.

(** Decimal rendering of an integer, as a template literal prints it. *)
Fixpoint uint_units (d : Decimal.uint) : jsstring :=
  match d with
  | Nil => []
  | D0 d => 48%N :: uint_units d
  | D1 d => 49%N :: uint_units d
  | D2 d => 50%N :: uint_units d
  | D3 d => 51%N :: uint_units d
  | D4 d => 52%N :: uint_units d
  | D5 d => 53%N :: uint_units d
  | D6 d => 54%N :: uint_units d
  | D7 d => 55%N :: uint_units d
  | D8 d => 56%N :: uint_units d
  | D9 d => 57%N :: uint_units d
  end.

Definition decimal (z : Z) : jsstring :=
  match Z.to_int z with
  | Pos d => uint_units d
  | Neg d => 45%N :: uint_units d
  end.

(** ** Data model ([src/types.ts]) *)

(** ['user' | 'admin' | 'system'] *)
Module Sender.
Inductive t := user | admin | system.
End Sender.

(** ['new' | 'read'] *)
Module Status.
Inductive t := new | read.
End Status.

Global Instance Sender_eq_dec : EqDecision Sender.t.
Proof. solve_decision. Defined.
Global Instance Status_eq_dec : EqDecision Status.t.
Proof. solve_decision. Defined.

(** [!x] for a value of type [T | null] whose non-null values are objects. *)
Definition isNull {A} (o : option A) : bool :=
  match o with Some _ => false | None => true end.

(** [interface ChatMessage]; the timestamp is in milliseconds. *)
Module ChatMessage.
Record t := mk { id : jsstring; text : jsstring; sender : Sender.t; timestamp : Z }.
End ChatMessage.

(** [interface SupportChat]. *)
Module SupportChat.
Record t := mk {
  id : jsstring;
  userId : jsstring;
  userEmail : jsstring;
  lastMessage : jsstring;
  timestamp : Z;
  status : Status.t
}.
End SupportChat.

(** The part of [FirebaseUser] the widget reads. *)
Record FirebaseUser := { uid : jsstring; email : option jsstring }.

(** ** The document store

    Documents are stored without their id; the id is the key.  The
    messages of a conversation live in the subcollection
    [supportChats/{chat}/messages], which exists independently of the
    conversation document. *)

Record ChatDoc := {
  d_userId : jsstring;
  d_userEmail : jsstring;
  d_lastMessage : jsstring;
  d_timestamp : Z;
  d_status : Status.t
}.

Record MessageDoc := { m_text : jsstring; m_sender : Sender.t; m_timestamp : Z }.

Record Firestore := {
  supportChats : gmap jsstring ChatDoc;
  messagesCol : gmap jsstring (gmap jsstring MessageDoc)
}.

Definition messages_of (db : Firestore) (chat : jsstring) : gmap jsstring MessageDoc :=
  default ∅ (messagesCol db !! chat).

(** The fields an [updateDoc] call on a conversation names; a field left
    out is not written.  The timestamp, when named, is [serverTimestamp()]. *)
Record ChatPatch := {
  p_lastMessage : option jsstring;
  p_timestamp : bool;
  p_status : option Status.t
}.

Definition apply_patch (ts : Z) (p : ChatPatch) (d : ChatDoc) : ChatDoc :=
  {| d_userId := d_userId d;
     d_userEmail := d_userEmail d;
     d_lastMessage := default (d_lastMessage d) (p_lastMessage p);
     d_timestamp := if p_timestamp p then ts else d_timestamp d;
     d_status := default (d_status d) (p_status p) |}.

(** Requests sent to the store, in the order the code issues them. *)
Inductive Request :=
| ReqAddChat (userId userEmail lastMessage : jsstring) (st : Status.t)
| ReqAddMessage (chat text : jsstring) (from : Sender.t)
| ReqUpdateChat (chat : jsstring) (p : ChatPatch)
| ReqGetMessages (chat : jsstring)
| ReqBatchDeleteMessages (chat : jsstring) (ids : list jsstring)
| ReqDeleteChat (chat : jsstring).

Inductive Toast :=
| ToastError (msg : jsstring)
| ToastSuccess (msg : jsstring)
| ToastPlain (msg : jsstring).

(** Everything outside the component.  [faults] is the failure script of
    the store: each request consumes its head, and [true] makes that
    request reject without effect ([[]] means no injected failure).
    [now] is the reading of [Date.now()] and of [new Date()], the same
    during one handler. *)
Record World := {
  db : Firestore;
  serverClock : Z;
  faults : list bool;
  requests : list Request;
  toasts : list Toast;
  now : Z
}.

(** An id the store assigns to a new document: not empty and not in use. *)
Definition autoId (taken : gset jsstring) : jsstring := fresh ({[ [] ]} ∪ taken).

(** ** Asynchronous computations

    A computation over a component state [S] and the world; it resolves
    with a value or rejects (a thrown error or a failed store request). *)

Inductive Outcome (A : Type) :=
| Resolved (a : A)
| Rejected.
Arguments Resolved {A} a.
Arguments Rejected {A}.

Section Async.
Context {S : Type}.

Definition Async (A : Type) : Type := S * World → Outcome A * (S * World).

Definition ret {A} (a : A) : Async A := λ σ, (Resolved a, σ).

Definition bind {A B} (m : Async A) (k : A → Async B) : Async B :=
  λ σ, match m σ with
       | (Resolved a, σ') => k a σ'
       | (Rejected, σ') => (Rejected, σ')
       end.

Definition throw {A} : Async A := λ σ, (Rejected, σ).

(** [try { body } catch (error) { handler }] *)
Definition try_catch (body handler : Async unit) : Async unit :=
  λ σ, match body σ with
       | (Resolved a, σ') => (Resolved a, σ')
       | (Rejected, σ') => handler σ'
       end.

Definition getState : Async S := λ σ, (Resolved σ.1, σ).

(** A state setter, [setX(prev => f prev)]. *)
Definition setState (f : S → S) : Async unit := λ σ, (Resolved (), (f σ.1, σ.2)).

Definition setWorld (f : World → World) : Async unit :=
  λ σ, (Resolved (), (σ.1, f σ.2)).

(** [await Promise.all(promises)]: every promise in the array was
    started when it was pushed, so every request is issued whatever
    happens to the others; the result rejects when one of them does. *)
Fixpoint promise_all (promises : list (Async unit)) : Async unit :=
  match promises with
  | [] => ret ()
  | p :: ps =>
      λ σ, match p σ with
           | (Resolved _, σ') => promise_all ps σ'
           | (Rejected, σ') => (Rejected, (promise_all ps σ').2)
           end
  end.

Definition DateNow : Async Z := λ σ, (Resolved (now σ.2), σ).

Definition toast (t : Toast) : Async unit :=
  setWorld (λ w, {| db := db w; serverClock := serverClock w; faults := faults w;
                    requests := requests w; toasts := toasts w ++ [t]; now := now w |}).

(** One request to the store.  It is logged, consumes the head of the
    failure script, and unless that injects a failure it commits:
    [commit] gives the answer and the new store from the store and the
    server time, or [None] when the store itself refuses the request. *)
Definition send {A} (r : Request) (commit : Firestore → Z → option (A * Firestore))
  : Async A :=
  λ σ, let w := σ.2 in
       let logged d c :=
         {| db := d; serverClock := c; faults := tail (faults w);
            requests := requests w ++ [r]; toasts := toasts w; now := now w |} in
       match head (faults w) with
       | Some true => (Rejected, (σ.1, logged (db w) (serverClock w)))
       | _ =>
           match commit (db w) (serverClock w) with
           | Some (a, d') => (Resolved a, (σ.1, logged d' (serverClock w + 1)))
           | None => (Rejected, (σ.1, logged (db w) (serverClock w)))
           end
       end.

(** [addDoc(collection(db, 'supportChats'), data)] with
    [timestamp: serverTimestamp()]. *)
Definition addChat (userId userEmail lastMessage : jsstring) (st : Status.t)
  : Async jsstring :=
  send (ReqAddChat userId userEmail lastMessage st)
    (λ d ts,
       let id := autoId (dom (supportChats d) ∪ dom (messagesCol d)) in
       let doc := {| d_userId := userId; d_userEmail := userEmail;
                     d_lastMessage := lastMessage; d_timestamp := ts;
                     d_status := st |} in
       Some (id, {| supportChats := <[id := doc]> (supportChats d);
                    messagesCol := messagesCol d |})).

(** [addDoc(collection(db, 'supportChats', chat, 'messages'), data)]. *)
Definition addMessage (chat text : jsstring) (from : Sender.t) : Async jsstring :=
  send (ReqAddMessage chat text from)
    (λ d ts,
       let id := autoId (dom (messages_of d chat)) in
       let doc := {| m_text := text; m_sender := from; m_timestamp := ts |} in
       Some (id, {| supportChats := supportChats d;
                    messagesCol := <[chat := <[id := doc]> (messages_of d chat)]>
                                     (messagesCol d) |})).

(** [updateDoc(doc(db, 'supportChats', chat), fields)]; the store
    refuses to update a document that does not exist. *)
Definition updateChat (chat : jsstring) (p : ChatPatch) : Async unit :=
  send (ReqUpdateChat chat p)
    (λ d ts,
       match supportChats d !! chat with
       | Some doc => Some ((), {| supportChats := <[chat := apply_patch ts p doc]>
                                                    (supportChats d);
                                  messagesCol := messagesCol d |})
       | None => None
       end).

(** [getDocs(collection(db, 'supportChats', chat, 'messages'))]: the
    references of the documents found. *)
Definition getMessages (chat : jsstring) : Async (list jsstring) :=
  send (ReqGetMessages chat)
    (λ d _, Some (elements (dom (messages_of d chat)), d)).

(** A write batch of [batch.delete(ref)] operations on the messages of
    [chat], committed atomically.  A batch without operations resolves
    without contacting the store. *)
Definition commitDeleteBatch (chat : jsstring) (ids : list jsstring) : Async unit :=
  match ids with
  | [] => ret ()
  | _ =>
      send (ReqBatchDeleteMessages chat ids)
        (λ d _, Some ((), {| supportChats := supportChats d;
                             messagesCol := <[chat := foldr delete (messages_of d chat) ids]>
                                              (messagesCol d) |}))
  end.

(** [deleteDoc(doc(db, 'supportChats', chat))]; the subcollection is
    not touched. *)
Definition deleteChat (chat : jsstring) : Async unit :=
  send (ReqDeleteChat chat)
    (λ d _, Some ((), {| supportChats := delete chat (supportChats d);
                         messagesCol := messagesCol d |})).
End Async.

Arguments Async : clear implicits.

Declare Scope async_scope.
Delimit Scope async_scope with async.
Notation "'let*' x ':=' m 'in' k" := (bind m (λ x, k))
  (at level 10, x name, m at level 100, k at level 200) : async_scope.
Notation "m ';;;' k" := (bind m (λ _, k))
  (at level 100, k at level 200, right associativity) : async_scope.

(** A computation keeps an observation [f] of the component state and
    the world when running it never changes [f]. *)
Definition keeps {S B A} (f : S * World → B) (m : Async S A) : Prop :=
  ∀ σ, f (m σ).2 = f σ.

(** An observation that does not look at the store, its clock, its
    failure script or the request log. *)
Definition store_blind {S B} (f : S * World → B) : Prop :=
  ∀ s w d c fs rs,
    f (s, {| db := d; serverClock := c; faults := fs; requests := rs;
             toasts := toasts w; now := now w |}) = f (s, w).

(** ** Suspension

    An [await] suspends the handler until the awaited request has
    settled; the component and the other clients of the store go on in
    between, and the handler resumes with what it closed over.
    [suspended meanwhile request] is the request followed, whatever its
    outcome, by what happened meanwhile; it settles as the request did. *)
Definition suspended {S A} (meanwhile : Async S unit) (request : Async S A) : Async S A :=
  λ σ, let r := request σ in (r.1, (meanwhile r.2).2).

(** Another client stores the message [m] under the id [mid] in the
    conversation [chat]. *)
Definition messageArrives {S} (chat mid : jsstring) (m : MessageDoc) : Async S unit :=
  setWorld (λ w, {| db := {| supportChats := supportChats (db w);
                             messagesCol := <[chat := <[mid := m]> (messages_of (db w) chat)]>
                                              (messagesCol (db w)) |};
                    serverClock := serverClock w; faults := faults w;
                    requests := requests w; toasts := toasts w; now := now w |}).

(** ** The operator console ([SupportManagement], [src/geminiService.ts]) *)

Module SupportManagement.
Record State := {
  chats : list SupportChat.t;
  selectedChat : option SupportChat.t;
  messages : list ChatMessage.t;
  reply : jsstring;
  isDeleteModalOpen : bool
}.

Definition setSelectedChat (c : option SupportChat.t) : Async State unit :=
  setState (λ s, {| chats := chats s; selectedChat := c; messages := messages s;
                    reply := reply s; isDeleteModalOpen := isDeleteModalOpen s |}).

Definition setReply (r : jsstring) : Async State unit :=
  setState (λ s, {| chats := chats s; selectedChat := selectedChat s;
                    messages := messages s; reply := r;
                    isDeleteModalOpen := isDeleteModalOpen s |}).

Definition handleSelectChat (chat : SupportChat.t) : Async State unit :=
  (setSelectedChat (Some chat) ;;;
   if decide (SupportChat.status chat = Status.new)
   then updateChat (SupportChat.id chat)
          {| p_lastMessage := None; p_timestamp := false; p_status := Some Status.read |}
   else ret ())%async.

Definition handleSendReply : Async State unit :=
  (let* s := getState in
   if negb (truthy (trim (reply s))) || isNull (selectedChat s) then ret ()
   else
     match selectedChat s with
     | Some chat =>
         let replyText := trim (reply s) in
         setReply [] ;;;
         try_catch
           (let* _ := addMessage (SupportChat.id chat) replyText Sender.admin in
            updateChat (SupportChat.id chat)
              {| p_lastMessage := Some (lit "Admin: " ++ replyText);
                 p_timestamp := true; p_status := None |})
           (toast (ToastError (lit "Failed to send reply.")))
     | None => ret ()
     end)%async.

Definition handleDeleteChat : Async State unit :=
  (let* s := getState in
   match selectedChat s with
   | None => ret ()
   | Some chat =>
       try_catch
         (let* messagesSnapshot := getMessages (SupportChat.id chat) in
          commitDeleteBatch (SupportChat.id chat) messagesSnapshot ;;;
          deleteChat (SupportChat.id chat) ;;;
          toast (ToastSuccess (lit "Chat deleted successfully.")) ;;;
          setSelectedChat None)
         (toast (ToastError (lit "Failed to delete chat.")))
   end)%async.
(** [handleDeleteChat] with what happens while it is suspended at each
    of its three [await]s. *)
Definition handleDeleteChat_among (meanwhile1 meanwhile2 meanwhile3 : Async State unit)
  : Async State unit :=
  (let* s := getState in
   match selectedChat s with
   | None => ret ()
   | Some chat =>
       try_catch
         (let* messagesSnapshot :=
            suspended meanwhile1 (getMessages (SupportChat.id chat)) in
          suspended meanwhile2
            (commitDeleteBatch (SupportChat.id chat) messagesSnapshot) ;;;
          suspended meanwhile3 (deleteChat (SupportChat.id chat)) ;;;
          toast (ToastSuccess (lit "Chat deleted successfully.")) ;;;
          setSelectedChat None)
         (toast (ToastError (lit "Failed to delete chat.")))
   end)%async.
End SupportManagement.

(** ** The end-user widget ([SupportWidget], [src/unnamed/part_002]) *)

Module SupportWidget.
(** The [useState] cells, the [lastCheckedTimestamp] ref and the [user]
    of the auth context. *)
Record State := {
  isOpen : bool;
  newMessage : jsstring;
  user : option FirebaseUser;
  isLoginPromptOpen : bool;
  chatId : option jsstring;
  messages : list ChatMessage.t;
  unreadCount : Z;
  lastCheckedTimestamp : Z
}.

Definition setIsOpen (b : bool) : Async State unit :=
  setState (λ s, {| isOpen := b; newMessage := newMessage s; user := user s;
                    isLoginPromptOpen := isLoginPromptOpen s; chatId := chatId s;
                    messages := messages s; unreadCount := unreadCount s;
                    lastCheckedTimestamp := lastCheckedTimestamp s |}).

Definition setNewMessage (v : jsstring) : Async State unit :=
  setState (λ s, {| isOpen := isOpen s; newMessage := v; user := user s;
                    isLoginPromptOpen := isLoginPromptOpen s; chatId := chatId s;
                    messages := messages s; unreadCount := unreadCount s;
                    lastCheckedTimestamp := lastCheckedTimestamp s |}).

Definition setIsLoginPromptOpen (b : bool) : Async State unit :=
  setState (λ s, {| isOpen := isOpen s; newMessage := newMessage s; user := user s;
                    isLoginPromptOpen := b; chatId := chatId s;
                    messages := messages s; unreadCount := unreadCount s;
                    lastCheckedTimestamp := lastCheckedTimestamp s |}).

Definition setChatId (c : option jsstring) : Async State unit :=
  setState (λ s, {| isOpen := isOpen s; newMessage := newMessage s; user := user s;
                    isLoginPromptOpen := isLoginPromptOpen s; chatId := c;
                    messages := messages s; unreadCount := unreadCount s;
                    lastCheckedTimestamp := lastCheckedTimestamp s |}).

Definition setMessages (f : list ChatMessage.t → list ChatMessage.t) : Async State unit :=
  setState (λ s, {| isOpen := isOpen s; newMessage := newMessage s; user := user s;
                    isLoginPromptOpen := isLoginPromptOpen s; chatId := chatId s;
                    messages := f (messages s); unreadCount := unreadCount s;
                    lastCheckedTimestamp := lastCheckedTimestamp s |}).

Definition setUnreadCount (f : Z → Z) : Async State unit :=
  setState (λ s, {| isOpen := isOpen s; newMessage := newMessage s; user := user s;
                    isLoginPromptOpen := isLoginPromptOpen s; chatId := chatId s;
                    messages := messages s; unreadCount := f (unreadCount s);
                    lastCheckedTimestamp := lastCheckedTimestamp s |}).

(** [lastCheckedTimestamp.current = t] *)
Definition setLastCheckedTimestamp (t : Z) : Async State unit :=
  setState (λ s, {| isOpen := isOpen s; newMessage := newMessage s; user := user s;
                    isLoginPromptOpen := isLoginPromptOpen s; chatId := chatId s;
                    messages := messages s; unreadCount := unreadCount s;
                    lastCheckedTimestamp := t |}).

(** The auth context delivers a new [user]. *)
Definition setUser (u : option FirebaseUser) : Async State unit :=
  setState (λ s, {| isOpen := isOpen s; newMessage := newMessage s; user := u;
                    isLoginPromptOpen := isLoginPromptOpen s; chatId := chatId s;
                    messages := messages s; unreadCount := unreadCount s;
                    lastCheckedTimestamp := lastCheckedTimestamp s |}).

(** The state at mount. *)
Definition initial (u : option FirebaseUser) (t : Z) : State :=
  {| isOpen := false; newMessage := []; user := u; isLoginPromptOpen := false;
     chatId := None; messages := []; unreadCount := 0; lastCheckedTimestamp := t |}.

(** *** Effect 1: the chat locator, re-run when [user] changes *)

Definition welcomeMsg (t : Z) : ChatMessage.t :=
  ChatMessage.mk (lit "welcome-msg")
    (lit "Hello! Welcome to APNA ADDA Support. How can we assist you today?")
    Sender.system t.

(** The body of the effect up to the subscription. *)
Definition effect1 : Async State unit :=
  (let* s := getState in
   if isNull (user s) then
     setChatId None ;;;
     setMessages (λ _, [])
   else ret ())%async.

(** The snapshot callback of the query [userId == user.uid]; [docs] are
    the ids in the snapshot.  [captured] is the [messages] of the render
    in which the effect ran: the callback closes over it. *)
Definition onChatsSnapshot (captured : list ChatMessage.t) (docs : list jsstring)
  : Async State unit :=
  (match docs with
   | first :: _ => setChatId (Some first)
   | [] =>
       setChatId None ;;;
       if decide (length captured = 0%nat)
       then let* t := DateNow in setMessages (λ _, [welcomeMsg t])
       else ret ()
   end)%async.

(** *** Effect 2: the message stream, while the widget is open *)

Definition effect2_active (s : State) : bool :=
  if negb (truthy_opt (chatId s)) then false
  else if negb (isOpen s) then false
  else true.

Definition welcomeBackMsg (t : Z) : ChatMessage.t :=
  ChatMessage.mk (lit "welcome-back-msg")
    (lit "Welcome back! Let us know how we can help.") Sender.system t.

Definition onMessagesSnapshot (docs : list (jsstring * MessageDoc)) : Async State unit :=
  (let msgs := (λ d, ChatMessage.mk d.1 (m_text d.2) (m_sender d.2) (m_timestamp d.2))
                 <$> docs in
   if decide (docs = [])
   then let* t := DateNow in setMessages (λ _, [welcomeBackMsg t])
   else setMessages (λ _, msgs))%async.

(** *** Effect 3: the notification watcher, while the widget is closed *)

Inductive ChangeType := added | modified | removed.

Record DocumentChange := { change_type : ChangeType; change_doc : MessageDoc }.

(** The query of the subscription: the messages of [sub_chat] with
    [timestamp > sub_after]. *)
Record Subscription := { sub_chat : jsstring; sub_after : Z }.

Definition effect3 (s : State) : option Subscription :=
  if isOpen s || negb (truthy_opt (chatId s)) then None
  else match chatId s with
       | Some c => Some {| sub_chat := c; sub_after := lastCheckedTimestamp s |}
       | None => None
       end.

Definition in_query (sub : Subscription) (m : MessageDoc) : bool :=
  sub_after sub <? m_timestamp m.

Definition agentReplied : Toast := ToastPlain (lit "Agent has replied to your message.").

Definition onChange (change : DocumentChange) : Async State unit :=
  (match change_type change with
   | added =>
       let newMessage := change_doc change in
       if decide (m_sender newMessage = Sender.admin) then
         toast agentReplied ;;;
         setUnreadCount (λ prev, prev + 1)
       else ret ()
   | _ => ret ()
   end)%async.

(** [snapshot.docChanges().forEach(...)] *)
Fixpoint onNotificationSnapshot (changes : list DocumentChange) : Async State unit :=
  (match changes with
   | [] => ret ()
   | change :: rest => onChange change ;;; onNotificationSnapshot rest
   end)%async.

(** The changes the watcher counts: added messages sent by the operator. *)
Definition is_agent_reply (change : DocumentChange) : bool :=
  match change_type change with
  | added => bool_decide (m_sender (change_doc change) = Sender.admin)
  | _ => false
  end.

(** *** The send pipeline *)

Definition autoReplyText : jsstring := lit "Our agent will shortly assists you...".

(** The revert in the [catch] block. *)
Definition revert (tempUserMessage : ChatMessage.t)
    (tempSystemMessage : option ChatMessage.t) (prev : list ChatMessage.t)
  : list ChatMessage.t :=
  List.filter
    (λ m,
       if decide (ChatMessage.id m = ChatMessage.id tempUserMessage) then false
       else match tempSystemMessage with
            | Some sys =>
                if decide (ChatMessage.id m = ChatMessage.id sys) then false
                else true
            | None => true
            end) prev.

(** The [try] block. [chatId] is the value the handler closed over. *)
Definition durableSend (u : FirebaseUser) (chatId : option jsstring)
    (userMessageText : jsstring) (isNewChat : bool) : Async State unit :=
  (let* currentChatId :=
     if negb (truthy_opt chatId) then
       let* newChatRef :=
         addChat (uid u)
           (match email u with
            | Some e => if truthy e then e else lit "anonymous"
            | None => lit "anonymous"
            end)
           userMessageText Status.new in
       setChatId (Some newChatRef) ;;;
       ret (Some newChatRef)
     else ret chatId in
   if negb (truthy_opt currentChatId) then throw
   else
     match currentChatId with
     | Some currentChatId =>
         promise_all
           ([ (let* _ := addMessage currentChatId userMessageText Sender.user in ret ());
              updateChat currentChatId
                {| p_lastMessage := Some userMessageText; p_timestamp := true;
                   p_status := Some Status.new |} ]
            ++ (if isNewChat
                then [ let* _ := addMessage currentChatId autoReplyText Sender.system in
                       ret () ]
                else []))
     | None => throw
     end)%async.

Definition handleSubmit : Async State unit :=
  (let* s := getState in
   if negb (truthy (trim (newMessage s))) || isNull (user s) then ret ()
   else
     match user s with
     | None => ret ()
     | Some u =>
         let userMessageText := trim (newMessage s) in
         setNewMessage [] ;;;
         let isNewChat := negb (truthy_opt (chatId s)) in
         let* idStamp := DateNow in
         let* created := DateNow in
         let tempUserMessage :=
           ChatMessage.mk (lit "temp-" ++ decimal idStamp) userMessageText
             Sender.user created in
         let* tempSystemMessage :=
           if isNewChat then
             let* idStamp' := DateNow in
             let* created' := DateNow in
             let sys := ChatMessage.mk (lit "temp-" ++ decimal (idStamp' + 1))
                          autoReplyText Sender.system created' in
             setMessages (λ _, [tempUserMessage; sys]) ;;;
             ret (Some sys)
           else
             setMessages (λ prev, prev ++ [tempUserMessage]) ;;;
             ret None in
         try_catch
           (durableSend u (chatId s) userMessageText isNewChat)
           (toast (ToastError (lit "Failed to send message.")) ;;;
            setMessages (revert tempUserMessage tempSystemMessage))
     end)%async.

(** *** The toggle button *)

Definition handleSupportIconClick : Async State unit :=
  (let* s := getState in
   if isNull (user s) then setIsLoginPromptOpen true
   else
     (if negb (isOpen s) then
        setUnreadCount (λ _, 0) ;;;
        let* t := DateNow in
        setLastCheckedTimestamp t
      else ret ()) ;;;
     setIsOpen (negb (isOpen s)))%async.

(** *** The widget as a transition system

    One step is one event: a handler, a snapshot callback of an active
    subscription, a change of the signed-in user, or a change of the
    world made by somebody else (another client of the store, the
    clock).  Every event runs to completion: what the component goes
    through while a handler is suspended at an [await] is not a step
    here, see the suspended send pipeline below. *)
Inductive step : State * World → State * World → Prop :=
| step_icon σ : step σ (handleSupportIconClick σ).2
| step_close σ : step σ (setIsOpen false σ).2
| step_typing v σ : step σ (setNewMessage v σ).2
| step_submit σ : step σ (handleSubmit σ).2
| step_prompt_closed σ : step σ (setIsLoginPromptOpen false σ).2
| step_auth u σ : step σ ((setUser u ;;; effect1)%async σ).2
| step_chats captured docs σ :
    isNull (user σ.1) = false → step σ (onChatsSnapshot captured docs σ).2
| step_stream docs σ :
    effect2_active σ.1 = true → step σ (onMessagesSnapshot docs σ).2
| step_notify sub changes σ :
    effect3 σ.1 = Some sub →
    Forall (λ c, in_query sub (change_doc c) = true) changes →
    step σ (onNotificationSnapshot changes σ).2
| step_world σ w' : step σ (σ.1, w').

Definition reachable (σ : State * World) : Prop :=
  ∃ u w, rtc step (initial u (now w), w) σ.
End SupportWidget.

(** ** The send pipeline, suspended

    [handleSubmit] with what happens to the component while it is
    suspended: [meanwhile1] at [await addDoc(...)] of the new
    conversation, [meanwhile2] at [await Promise.all(promises)].  The
    handler goes on with the [user] and the [chatId] of the render it was
    called in. *)

Section Suspended.
Import SupportWidget.

Definition durableSend_among (meanwhile1 meanwhile2 : Async State unit)
    (u : FirebaseUser) (chatId : option jsstring)
    (userMessageText : jsstring) (isNewChat : bool) : Async State unit :=
  (let* currentChatId :=
     if negb (truthy_opt chatId) then
       let* newChatRef :=
         suspended meanwhile1
           (addChat (uid u)
              (match email u with
               | Some e => if truthy e then e else lit "anonymous"
               | None => lit "anonymous"
               end)
              userMessageText Status.new) in
       setChatId (Some newChatRef) ;;;
       ret (Some newChatRef)
     else ret chatId in
   if negb (truthy_opt currentChatId) then throw
   else
     match currentChatId with
     | Some currentChatId =>
         suspended meanwhile2
           (promise_all
              ([ (let* _ := addMessage currentChatId userMessageText Sender.user in ret ());
                 updateChat currentChatId
                   {| p_lastMessage := Some userMessageText; p_timestamp := true;
                      p_status := Some Status.new |} ]
               ++ (if isNewChat
                   then [ let* _ := addMessage currentChatId autoReplyText Sender.system in
                          ret () ]
                   else [])))
     | None => throw
     end)%async.

Definition handleSubmit_among (meanwhile1 meanwhile2 : Async State unit)
  : Async State unit :=
  (let* s := getState in
   if negb (truthy (trim (newMessage s))) || isNull (user s) then ret ()
   else
     match user s with
     | None => ret ()
     | Some u =>
         let userMessageText := trim (newMessage s) in
         setNewMessage [] ;;;
         let isNewChat := negb (truthy_opt (chatId s)) in
         let* idStamp := DateNow in
         let* created := DateNow in
         let tempUserMessage :=
           ChatMessage.mk (lit "temp-" ++ decimal idStamp) userMessageText
             Sender.user created in
         let* tempSystemMessage :=
           if isNewChat then
             let* idStamp' := DateNow in
             let* created' := DateNow in
             let sys := ChatMessage.mk (lit "temp-" ++ decimal (idStamp' + 1))
                          autoReplyText Sender.system created' in
             setMessages (λ _, [tempUserMessage; sys]) ;;;
             ret (Some sys)
           else
             setMessages (λ prev, prev ++ [tempUserMessage]) ;;;
             ret None in
         try_catch
           (durableSend_among meanwhile1 meanwhile2 u (chatId s) userMessageText isNewChat)
           (toast (ToastError (lit "Failed to send message.")) ;;;
            setMessages (revert tempUserMessage tempSystemMessage))
     end)%async.
End Suspended.

(** ** Strings, continued *)

(** [s.startsWith(t)] *)
Fixpoint startsWith (s t : jsstring) : bool :=
  match t, s with
  | [], _ => true
  | c :: t', d :: s' => (c =? d)%N && startsWith s' t'
  | _ :: _, [] => false
  end.

(** [s.includes(t)]: [t] occurs in [s] at some position. *)
Fixpoint includes (s t : jsstring) : bool :=
  match s with
  | [] => startsWith [] t
  | _ :: s' => startsWith s t || includes s' t
  end.

(** ** The other collections of the store

    [courses] and [siteContent] are read and written by the admin
    dashboard and the static pages.  Their handlers are computations over
    the component state paired with these collections; the world supplies
    the failure script, the server clock and the toasts as before. *)

Record CourseDoc := {
  c_title : jsstring;
  c_category : jsstring;
  c_videoUrl : jsstring;
  c_notesUrl : jsstring;
  c_createdAt : Z
}.

Record Backend := {
  coursesCol : gmap jsstring CourseDoc;
  siteContent : gmap jsstring jsstring
}.

Section StoreCall.
Context {S B : Type}.

Definition getUI : Async (S * B) S := λ σ, (Resolved σ.1.1, σ).

Definition setUI (f : S → S) : Async (S * B) unit :=
  setState (λ sb, (f sb.1, sb.2)).

(** One request to the collections [B]: it consumes the head of the
    failure script and, unless that injects a failure or the store
    refuses, commits. *)
Definition call {A} (commit : B → Z → option (A * B)) : Async (S * B) A :=
  λ σ, let w := σ.2 in
       let used c :=
         {| db := db w; serverClock := c; faults := tail (faults w);
            requests := requests w; toasts := toasts w; now := now w |} in
       match head (faults w) with
       | Some true => (Rejected, (σ.1, used (serverClock w)))
       | _ =>
           match commit σ.1.2 (serverClock w) with
           | Some (a, b') => (Resolved a, ((σ.1.1, b'), used (serverClock w + 1)))
           | None => (Rejected, (σ.1, used (serverClock w)))
           end
       end.
End StoreCall.

Section BackendOps.
Context {S : Type}.

(** [addDoc(collection(db, 'courses'), { ...courseData, createdAt: serverTimestamp() })] *)
Definition addCourse (title category videoUrl notesUrl : jsstring)
  : Async (S * Backend) jsstring :=
  call (λ b ts,
          let id := autoId (dom (coursesCol b)) in
          Some (id, {| coursesCol :=
                         <[id := {| c_title := title; c_category := category;
                                    c_videoUrl := videoUrl; c_notesUrl := notesUrl;
                                    c_createdAt := ts |}]> (coursesCol b);
                       siteContent := siteContent b |})).

(** [updateDoc(doc(db, 'courses', id), courseData)]: the four fields of
    [courseData] are written, the others are kept; a course that does
    not exist is not updated. *)
Definition updateCourse (id title category videoUrl notesUrl : jsstring)
  : Async (S * Backend) unit :=
  call (λ b _,
          match coursesCol b !! id with
          | Some old =>
              Some ((), {| coursesCol :=
                             <[id := {| c_title := title; c_category := category;
                                        c_videoUrl := videoUrl; c_notesUrl := notesUrl;
                                        c_createdAt := c_createdAt old |}]> (coursesCol b);
                           siteContent := siteContent b |})
          | None => None
          end).

(** [deleteDoc(doc(db, 'courses', id))] *)
Definition deleteCourse (id : jsstring) : Async (S * Backend) unit :=
  call (λ b _, Some ((), {| coursesCol := delete id (coursesCol b);
                            siteContent := siteContent b |})).

(** [setDoc(doc(db, 'siteContent', page), { content })] *)
Definition setSiteContent (page content : jsstring) : Async (S * Backend) unit :=
  call (λ b _, Some ((), {| coursesCol := coursesCol b;
                            siteContent := <[page := content]> (siteContent b) |})).
End BackendOps.

(** [interface Course] *)
Module Course.
Record t := mk {
  id : jsstring;
  title : jsstring;
  category : jsstring;
  videoUrl : jsstring;
  notesUrl : jsstring;
  createdAt : Z
}.
End Course.

(** A course as a snapshot lists it: [{ ...doc.data(), id: doc.id }]. *)
Definition listedCourse (id : jsstring) (d : CourseDoc) : Course.t :=
  Course.mk id (c_title d) (c_category d) (c_videoUrl d) (c_notesUrl d) (c_createdAt d).

(** ** Course management ([CourseManagement], [src/geminiService.ts])

    The confirmation dialog that sits between the buttons and
    [handleSaveCourse] or the delete action is left out. *)

Module CourseManagement.
Record FormData := {
  title : jsstring;
  category : jsstring;
  videoUrl : jsstring;
  notesUrl : jsstring
}.

Record State := {
  courses : list Course.t;
  formData : FormData;
  editingCourse : option Course.t
}.

(** The [name] attributes of the form's inputs. *)
Inductive FieldName := name_title | name_category | name_videoUrl | name_notesUrl.

Definition emptyForm : FormData :=
  {| title := []; category := lit "12th Board"; videoUrl := []; notesUrl := [] |}.

Definition setFormData (f : FormData) : Async (State * Backend) unit :=
  setUI (λ s, {| courses := courses s; formData := f; editingCourse := editingCourse s |}).

Definition setEditingCourse (c : option Course.t) : Async (State * Backend) unit :=
  setUI (λ s, {| courses := courses s; formData := formData s; editingCourse := c |}).

(** [setFormData({ ...formData, [e.target.name]: e.target.value })] *)
Definition handleChange (name : FieldName) (value : jsstring) : Async (State * Backend) unit :=
  (let* s := getUI in
   let f := formData s in
   setFormData
     match name with
     | name_title =>
         {| title := value; category := category f; videoUrl := videoUrl f;
            notesUrl := notesUrl f |}
     | name_category =>
         {| title := title f; category := value; videoUrl := videoUrl f;
            notesUrl := notesUrl f |}
     | name_videoUrl =>
         {| title := title f; category := category f; videoUrl := value;
            notesUrl := notesUrl f |}
     | name_notesUrl =>
         {| title := title f; category := category f; videoUrl := videoUrl f;
            notesUrl := value |}
     end)%async.

Definition resetForm : Async (State * Backend) unit :=
  (setEditingCourse None ;;;
   setFormData emptyForm)%async.

Definition handleSaveCourse : Async (State * Backend) unit :=
  (let* s := getUI in
   let formData := formData s in
   if negb (truthy (trim (videoUrl formData))) || negb (truthy (trim (title formData)))
   then toast (ToastError (lit "Course Title and YouTube Video URL are required."))
   else
     try_catch
       ((match editingCourse s with
         | Some editing =>
             updateCourse (Course.id editing) (trim (title formData)) (category formData)
               (trim (videoUrl formData)) (trim (notesUrl formData)) ;;;
             toast (ToastSuccess (lit "Course updated successfully"))
         | None =>
             (let* _ := addCourse (trim (title formData)) (category formData)
                          (trim (videoUrl formData)) (trim (notesUrl formData)) in
              toast (ToastSuccess (lit "Course added successfully")))
         end) ;;;
        resetForm)
       (toast (ToastError (lit "Failed to save course data."))))%async.

Definition handleEdit (course : Course.t) : Async (State * Backend) unit :=
  (setEditingCourse (Some course) ;;;
   setFormData
     {| title := Course.title course; category := Course.category course;
        videoUrl := Course.videoUrl course;
        notesUrl := if truthy (Course.notesUrl course) then Course.notesUrl course
                    else [] |})%async.

(** The [action] that [handleDelete] hands to the confirmation dialog. *)
Definition deleteAction (id : jsstring) : Async (State * Backend) unit :=
  try_catch
    (deleteCourse id ;;; toast (ToastSuccess (lit "Course deleted")))%async
    (toast (ToastError (lit "Failed to delete course"))).
End CourseManagement.

(** ** Site content ([ContentManagement], [src/geminiService.ts]) *)

(** ['about' | 'terms' | 'support'] *)
Module Page.
Inductive t := about | terms | support.

Definition id (p : t) : jsstring :=
  match p with
  | about => lit "about"
  | terms => lit "terms"
  | support => lit "support"
  end.
End Page.

Module ContentManagement.
Record State := { about : jsstring; terms : jsstring; support : jsstring }.

Definition setAbout (v : jsstring) : Async (State * Backend) unit :=
  setUI (λ s, {| about := v; terms := terms s; support := support s |}).
Definition setTerms (v : jsstring) : Async (State * Backend) unit :=
  setUI (λ s, {| about := about s; terms := v; support := support s |}).
Definition setSupport (v : jsstring) : Async (State * Backend) unit :=
  setUI (λ s, {| about := about s; terms := terms s; support := v |}).

Definition handleSave (page : Page.t) : Async (State * Backend) unit :=
  (let* s := getUI in
   let content := match page with
                  | Page.about => about s
                  | Page.terms => terms s
                  | Page.support => support s
                  end in
   let pageTitle := match page with
                    | Page.about => lit "About Us"
                    | Page.terms => lit "Terms of Service"
                    | Page.support => lit "Customer Support"
                    end in
   try_catch
     (setSiteContent (Page.id page) content ;;;
      toast (ToastSuccess (pageTitle ++ lit " page updated!")))
     (toast (ToastError (lit "Failed to update " ++ pageTitle ++ lit "."))))%async.

(** The snapshot callback of the [siteContent] collection; [docs] are the
    documents of the snapshot with their [content]. *)
Fixpoint onContentSnapshot (docs : list (jsstring * jsstring)) : Async (State * Backend) unit :=
  (match docs with
   | [] => ret ()
   | doc :: rest =>
       (if decide (doc.1 = lit "about") then setAbout doc.2 else ret ()) ;;;
       (if decide (doc.1 = lit "terms") then setTerms doc.2 else ret ()) ;;;
       (if decide (doc.1 = lit "support") then setSupport doc.2 else ret ()) ;;;
       onContentSnapshot rest
   end)%async.
End ContentManagement.

(** ** Static pages ([StaticPage], [src/unnamed/part_001])

    [fetchContent] reads one document at most; what [getDoc] answers for
    a document id is an argument.  [toLowerCase] is the string method. *)

Module StaticPage.
Record State := { title : jsstring; content : jsstring; loading : bool }.

(** What [await getDoc(docRef)] gives: a snapshot that exists with its
    [content], one that does not exist, or an exception with its [code]
    and what [String(error)] makes of it. *)
Inductive GetDoc :=
| Exists (content : jsstring)
| NotExists
| Threw (code : option jsstring) (text : jsstring).

Definition notFoundText : jsstring := lit "The page you are looking for does not exist.".

Definition fetchContent (toLowerCase : jsstring → jsstring) (pageName : option jsstring)
    (getDoc : jsstring → GetDoc) (s : State) : State :=
  (* setLoading(true) *)
  let s := {| title := title s; content := content s; loading := true |} in
  if negb (truthy_opt pageName) then
    {| title := lit "Page Not Found"; content := notFoundText; loading := false |}
  else
    let name := default [] pageName in
    let '(docId, pageTitle, s) :=
      if decide (name = lit "about") then (lit "about", lit "About Us", s)
      else if decide (name = lit "terms") then (lit "terms", lit "Terms of Service", s)
      else if decide (name = lit "support") then (lit "support", lit "Customer Support", s)
      else ([], lit "Page Not Found",
            {| title := title s; content := notFoundText; loading := loading s |}) in
    (* setTitle(pageTitle) *)
    let s := {| title := pageTitle; content := content s; loading := loading s |} in
    if truthy docId then
      let s :=
        match getDoc docId with
        | Exists c => {| title := title s; content := c; loading := loading s |}
        | NotExists =>
            if decide (name = lit "support") then
              {| title := title s;
                 content := lit "For any support queries, please use the support widget on the bottom right of the page or email us at support@apnaadda.com.";
                 loading := loading s |}
            else
              {| title := title s;
                 content := lit "Content for this page has not been set up yet.";
                 loading := loading s |}
        | Threw code text =>
            if bool_decide (code = Some (lit "unavailable"))
               || includes (toLowerCase text) (lit "client is offline")
            then
              {| title := title s;
                 content := lit "You appear to be offline. This page was not saved for offline viewing. Please connect to the internet and visit this page again to save it for later.";
                 loading := loading s |}
            else
              {| title := title s;
                 content := lit "Could not load content due to a network or permission error.";
                 loading := loading s |}
        end in
      (* finally *)
      {| title := title s; content := content s; loading := false |}
    else
      {| title := title s; content := content s; loading := false |}.

(** The answer of a store that is reachable. *)
Definition answer (b : Backend) (docId : jsstring) : GetDoc :=
  match siteContent b !! docId with
  | Some c => Exists c
  | None => NotExists
  end.
End StaticPage.

(** ** Users and the auth context ([src/types.ts]) *)

(** ['admin' | 'user'] *)
Module Role.
Inductive t := admin | user.
End Role.

Global Instance Role_eq_dec : EqDecision Role.t.
Proof. solve_decision. Defined.

(** [interface AppUser]; an optional field that is absent is [None]. *)
Module AppUser.
Record t := mk {
  uid : jsstring;
  email : option jsstring;
  role : Role.t;
  nickname : option jsstring;
  emoji : option jsstring;
  createdAt : option Z;
  completedCourses : option (list jsstring)
}.
End AppUser.

(** [interface AuthContextType] *)
Module AuthContext.
Record t := mk {
  user : option FirebaseUser;
  appUser : option AppUser.t;
  loading : bool
}.
End AuthContext.

(** ** Guarded routes and the header ([src/unnamed/part_002]) *)

(** What a guarded route renders: the placeholder or its children. *)
Inductive View := Authenticating | Children.

(** What the effect of a guarded route does, if anything: an error toast
    and a navigation. *)
Record Redirect := { notice : Toast; target : jsstring }.

Module ProtectedRoute.
Definition effect (ctx : AuthContext.t) : option Redirect :=
  if negb (AuthContext.loading ctx) && isNull (AuthContext.user ctx)
  then Some {| notice := ToastError (lit "You must be logged in to view this page.");
               target := lit "/auth" |}
  else None.

Definition render (ctx : AuthContext.t) : View :=
  if AuthContext.loading ctx || isNull (AuthContext.user ctx) then Authenticating
  else Children.
End ProtectedRoute.

(** [!appUser || appUser.role !== 'admin'] *)
Definition notAdmin (appUser : option AppUser.t) : bool :=
  isNull appUser
  || match appUser with
     | Some a => negb (bool_decide (AppUser.role a = Role.admin))
     | None => false
     end.

Module AdminRoute.
Definition effect (ctx : AuthContext.t) : option Redirect :=
  if negb (AuthContext.loading ctx) && notAdmin (AuthContext.appUser ctx)
  then Some {| notice := ToastError (lit "Access Denied. Admins only.");
               target := lit "/" |}
  else None.

Definition render (ctx : AuthContext.t) : View :=
  if AuthContext.loading ctx || notAdmin (AuthContext.appUser ctx) then Authenticating
  else Children.
End AdminRoute.

Module Header.
Record NavLink := { name : jsstring; path : jsstring }.

Definition baseNavLinks : list NavLink :=
  [ {| name := lit "Home"; path := lit "/" |};
    {| name := lit "12th Board"; path := lit "/?category=12th%20Board" |};
    {| name := lit "JEE"; path := lit "/?category=JEE" |};
    {| name := lit "11th"; path := lit "/?category=11th" |};
    {| name := lit "AI"; path := lit "/?category=AI" |};
    {| name := lit "Development"; path := lit "/?category=Development" |} ].

(** [appUser?.role === 'admin'] decides the extra link. *)
Definition navLinks (ctx : AuthContext.t) : list NavLink :=
  if match AuthContext.appUser ctx with
     | Some a => bool_decide (AppUser.role a = Role.admin)
     | None => false
     end
  then baseNavLinks ++ [ {| name := lit "Admin Panel"; path := lit "/admin" |} ]
  else baseNavLinks.
End Header.

(** ** The Telegram prompt ([TelegramModalManager], [src/unnamed/part_002])

    [localStorage] is a map from keys to strings. *)

Module TelegramModalManager.
Record State := { isTelegramModalOpen : bool }.

Definition promptKey : jsstring := lit "hasSeenTelegramPrompt".

(** The effect, re-run when [user] or [loading] changes. *)
Definition effect (user : option FirebaseUser) (loading : bool)
    (localStorage : gmap jsstring jsstring) (s : State) : State :=
  if loading then s
  else if negb (isNull user) then {| isTelegramModalOpen := false |}
  else
    let hasSeenPrompt := localStorage !! promptKey in
    if negb (truthy_opt hasSeenPrompt) then {| isTelegramModalOpen := true |}
    else s.

Definition handleTelegramModalClose (localStorage : gmap jsstring jsstring) (s : State)
  : gmap jsstring jsstring * State :=
  (<[promptKey := lit "true"]> localStorage, {| isTelegramModalOpen := false |}).

(** What happens to the manager: the auth state changes, or the prompt is
    closed. *)
Inductive Event :=
| AuthChanged (user : option FirebaseUser) (loading : bool)
| Closed.

Definition fire (e : Event) (σ : gmap jsstring jsstring * State)
  : gmap jsstring jsstring * State :=
  match e with
  | AuthChanged user loading => (σ.1, effect user loading σ.1 σ.2)
  | Closed => handleTelegramModalClose σ.1 σ.2
  end.
End TelegramModalManager.

(** ** The platform overview ([DashboardOverview], [src/geminiService.ts]) *)

Module DashboardOverview.
Record Stats := { users : Z; courses : Z; newChats : Z }.

(** The three subscriptions, each reporting [snapshot.size]. *)
Inductive Snapshot :=
| UsersSnapshot (size : Z)
| CoursesSnapshot (size : Z)
| NewChatsSnapshot (size : Z).

(** [setStats(prev => ({ ...prev, field: snapshot.size }))] *)
Definition onSnapshot (e : Snapshot) (prev : Stats) : Stats :=
  match e with
  | UsersSnapshot n => {| users := n; courses := courses prev; newChats := newChats prev |}
  | CoursesSnapshot n => {| users := users prev; courses := n; newChats := newChats prev |}
  | NewChatsSnapshot n => {| users := users prev; courses := courses prev; newChats := n |}
  end.

(** The snapshots in the order they arrive. *)
Definition run (events : list Snapshot) (s : Stats) : Stats :=
  foldl (λ s e, onSnapshot e s) s events.

Definition usersSizes (events : list Snapshot) : list Z :=
  omap (λ e, match e with UsersSnapshot n => Some n | _ => None end) events.
Definition coursesSizes (events : list Snapshot) : list Z :=
  omap (λ e, match e with CoursesSnapshot n => Some n | _ => None end) events.
Definition newChatsSizes (events : list Snapshot) : list Z :=
  omap (λ e, match e with NewChatsSnapshot n => Some n | _ => None end) events.
End DashboardOverview.

(** ** The user list ([UserManagement], [src/geminiService.ts]) *)

Module UserManagement.
(** [a.createdAt && typeof a.createdAt.toDate === 'function'
     ? a.createdAt.toDate().getTime() : 0] *)
Definition createdTime (a : AppUser.t) : Z :=
  match AppUser.createdAt a with
  | Some t => t
  | None => 0
  end.

(** [usersData.sort((a, b) => timeB - timeA)]: the sort is stable, and
    with this comparator it is the stable sort by descending time, here
    by insertion from the right: an element goes before the first one
    that is not newer than it. *)
Fixpoint insertUser (a : AppUser.t) (l : list AppUser.t) : list AppUser.t :=
  match l with
  | [] => [a]
  | b :: l' =>
      if createdTime b - createdTime a <=? 0 then a :: l
      else b :: insertUser a l'
  end.

Definition sortUsers (usersData : list AppUser.t) : list AppUser.t :=
  foldr insertUser [] usersData.

(** [user.email?.toLowerCase().includes(searchTerm.toLowerCase()) ||
     user.nickname?.toLowerCase().includes(searchTerm.toLowerCase())] *)
Definition matchesSearch (toLowerCase : jsstring → jsstring) (searchTerm : jsstring)
    (user : AppUser.t) : bool :=
  match AppUser.email user with
  | Some e => includes (toLowerCase e) (toLowerCase searchTerm)
  | None => false
  end
  || match AppUser.nickname user with
     | Some n => includes (toLowerCase n) (toLowerCase searchTerm)
     | None => false
     end.

Definition filteredUsers (toLowerCase : jsstring → jsstring) (users : list AppUser.t)
    (searchTerm : jsstring) : list AppUser.t :=
  List.filter (matchesSearch toLowerCase searchTerm) users.
End UserManagement.

(** ** The [users] collection

    A user document holds the fields of [AppUser] other than the id. *)

Record UserDoc := {
  ud_email : option jsstring;
  ud_role : Role.t;
  ud_nickname : option jsstring;
  ud_emoji : option jsstring;
  ud_createdAt : option Z;
  ud_completedCourses : option (list jsstring)
}.

(** The profile the auth context builds from a user document:
    [{ uid: firebaseUser.uid, ...userData }]. *)
Definition profileOf (uid : jsstring) (d : UserDoc) : AppUser.t :=
  AppUser.mk uid (ud_email d) (ud_role d) (ud_nickname d) (ud_emoji d)
    (ud_createdAt d) (ud_completedCourses d).

(** [arrayUnion(x)] on a field: [x] is appended unless it is there; a
    field that is not an array becomes [[x]]. *)
Definition arrayUnion (x : jsstring) (field : option (list jsstring)) : list jsstring :=
  match field with
  | Some l => if bool_decide (x ∈ l) then l else l ++ [x]
  | None => [x]
  end.

(** [arrayRemove(x)] on a field: every [x] is removed; a field that is
    not an array becomes [[]]. *)
Definition arrayRemove (x : jsstring) (field : option (list jsstring)) : list jsstring :=
  match field with
  | Some l => List.filter (λ y, negb (bool_decide (y = x))) l
  | None => []
  end.

Section UsersOps.
Context {S : Type}.

(** [updateDoc(doc(db, 'users', uid), fields)], refused when the
    document does not exist. *)
Definition updateUser (uid : jsstring) (f : UserDoc → UserDoc)
  : Async (S * gmap jsstring UserDoc) unit :=
  call (λ users _,
          match users !! uid with
          | Some d => Some ((), <[uid := f d]> users)
          | None => None
          end).

(** [setDoc(doc(db, 'users', uid), data)] with [createdAt: serverTimestamp()]. *)
Definition setUser (uid : jsstring) (data : Z → UserDoc)
  : Async (S * gmap jsstring UserDoc) unit :=
  call (λ users ts, Some ((), <[uid := data ts]> users)).
End UsersOps.

(** ** The course catalogue ([Home], [src/unnamed/part_000]) *)

Module Home.
Record Video := { url : jsstring; title : jsstring }.

(** The state cells, the [coursesCache] ref, and the URLs handed to
    [window.open] so far. *)
Record State := {
  courses : list Course.t;
  coursesCache : list Course.t;
  loading : bool;
  selectedVideo : option Video;
  isLoginPromptOpen : bool;
  opened : list jsstring
}.

(** The snapshot callback of the [courses] query. *)
Definition onCoursesSnapshot (coursesData : list Course.t) (s : State) : State :=
  let s :=
    if negb (bool_decide (coursesData = [])) then
      {| courses := coursesData; coursesCache := coursesData; loading := loading s;
         selectedVideo := selectedVideo s; isLoginPromptOpen := isLoginPromptOpen s;
         opened := opened s |}
    else if decide (length (coursesCache s) = 0%nat) then
      {| courses := []; coursesCache := coursesCache s; loading := loading s;
         selectedVideo := selectedVideo s; isLoginPromptOpen := isLoginPromptOpen s;
         opened := opened s |}
    else s in
  {| courses := courses s; coursesCache := coursesCache s; loading := false;
     selectedVideo := selectedVideo s; isLoginPromptOpen := isLoginPromptOpen s;
     opened := opened s |}.

(** The error callback of the same subscription. *)
Definition onCoursesError (s : State) : State :=
  {| courses := coursesCache s; coursesCache := coursesCache s; loading := false;
     selectedVideo := selectedVideo s; isLoginPromptOpen := isLoginPromptOpen s;
     opened := opened s |}.

Inductive Event :=
| CoursesSnapshot (coursesData : list Course.t)
| CoursesError.

Definition fire (e : Event) (s : State) : State :=
  match e with
  | CoursesSnapshot coursesData => onCoursesSnapshot coursesData s
  | CoursesError => onCoursesError s
  end.

Definition nonEmptySnapshots (events : list Event) : list (list Course.t) :=
  omap (λ e, match e with
             | CoursesSnapshot (c :: cs) => Some (c :: cs)
             | _ => None
             end) events.

Definition setIsLoginPromptOpen {B} (v : bool) : Async (State * B) unit :=
  setUI (λ s, {| courses := courses s; coursesCache := coursesCache s;
                 loading := loading s; selectedVideo := selectedVideo s;
                 isLoginPromptOpen := v; opened := opened s |}).

Definition handleWatchClick {B} (ctx : AuthContext.t) (url title : jsstring)
  : Async (State * B) unit :=
  if isNull (AuthContext.user ctx) then setIsLoginPromptOpen true
  else
    setUI (λ s, {| courses := courses s; coursesCache := coursesCache s;
                   loading := loading s;
                   selectedVideo := Some {| url := url; title := title |};
                   isLoginPromptOpen := isLoginPromptOpen s; opened := opened s |}).

Definition handleNotesClick {B} (ctx : AuthContext.t) (notesUrl : jsstring)
  : Async (State * B) unit :=
  if isNull (AuthContext.user ctx) then setIsLoginPromptOpen true
  else if truthy notesUrl && truthy (trim notesUrl) then
    (* window.open(notesUrl, '_blank', 'noopener,noreferrer') *)
    setUI (λ s, {| courses := courses s; coursesCache := coursesCache s;
                   loading := loading s; selectedVideo := selectedVideo s;
                   isLoginPromptOpen := isLoginPromptOpen s;
                   opened := opened s ++ [notesUrl] |})
  else toast (ToastError (lit "Notes are not available for this video.")).

Definition handleCompleteClick (ctx : AuthContext.t) (courseId : jsstring)
  : Async (State * gmap jsstring UserDoc) unit :=
  if isNull (AuthContext.user ctx) || isNull (AuthContext.appUser ctx)
  then setIsLoginPromptOpen true
  else
    match AuthContext.user ctx, AuthContext.appUser ctx with
    | Some user, Some appUser =>
        let isAlreadyCompleted :=
          match AppUser.completedCourses appUser with
          | Some l => bool_decide (courseId ∈ l)
          | None => false
          end in
        try_catch
          (if isAlreadyCompleted then
             updateUser (uid user)
               (λ d, {| ud_email := ud_email d; ud_role := ud_role d;
                        ud_nickname := ud_nickname d; ud_emoji := ud_emoji d;
                        ud_createdAt := ud_createdAt d;
                        ud_completedCourses :=
                          Some (arrayRemove courseId (ud_completedCourses d)) |}) ;;;
             toast (ToastSuccess (lit "Course marked as incomplete."))
           else
             updateUser (uid user)
               (λ d, {| ud_email := ud_email d; ud_role := ud_role d;
                        ud_nickname := ud_nickname d; ud_emoji := ud_emoji d;
                        ud_createdAt := ud_createdAt d;
                        ud_completedCourses :=
                          Some (arrayUnion courseId (ud_completedCourses d)) |}) ;;;
             toast (ToastSuccess (lit "Course marked as complete!")))%async
          (toast (ToastError (lit "Could not update course status.")))
    | _, _ => ret ()
    end.
End Home.

(** ** Sign-in and sign-up ([AuthPage], [src/AuthPage.tsx])

    What the auth service answers is an argument of the handler, and so
    is the [code] of the error of a rejected store write. *)

(** [user.email] of a [FirebaseUser], for where a state cell is named
    [email] too. *)
Definition emailOf (user : FirebaseUser) : option jsstring := email user.

Module AuthPage.
(** The state cells and the paths handed to [navigate] so far. *)
Record State := {
  isLogin : bool;
  email : jsstring;
  password : jsstring;
  isLoading : bool;
  navigated : list jsstring
}.

Inductive AuthAnswer :=
| Granted (user : FirebaseUser)
| Refused (code : option jsstring).

Definition adminEmail : jsstring := lit "thepremanshu@gmail.com".

(** [s.split('@')[0]] *)
Fixpoint beforeAt (s : jsstring) : jsstring :=
  match s with
  | [] => []
  | c :: s' => if (c =? 64)%N then [] else c :: beforeAt s'
  end.

(** The waving hand, U+1F44B, as its two code units. *)
Definition wavingHand : jsstring := [55357%N; 56395%N].

Definition errorMessage (code : option jsstring) : jsstring :=
  if bool_decide (code = Some (lit "auth/invalid-credential")) then
    lit "Invalid email or password. Please check your credentials and try again."
  else if bool_decide (code = Some (lit "auth/email-already-in-use")) then
    lit "This email is already in use. Please log in or use a different email."
  else if bool_decide (code = Some (lit "auth/weak-password")) then
    lit "Your password is too weak. Please use at least 6 characters."
  else if bool_decide (code = Some (lit "auth/invalid-email")) then
    lit "Please enter a valid email address."
  else if bool_decide (code = Some (lit "auth/visibility-check-was-unavailable")) then
    lit "A temporary issue occurred. Please try again. If the problem persists, refreshing the page might help."
  else lit "An authentication error occurred. Please try again later.".

Definition setIsLoading (v : bool) : Async (State * gmap jsstring UserDoc) unit :=
  setUI (λ s, {| isLogin := isLogin s; email := email s; password := password s;
                 isLoading := v; navigated := navigated s |}).

Definition setPassword (v : jsstring) : Async (State * gmap jsstring UserDoc) unit :=
  setUI (λ s, {| isLogin := isLogin s; email := email s; password := v;
                 isLoading := isLoading s; navigated := navigated s |}).

Definition navigate (to : jsstring) : Async (State * gmap jsstring UserDoc) unit :=
  setUI (λ s, {| isLogin := isLogin s; email := email s; password := password s;
                 isLoading := isLoading s; navigated := navigated s ++ [to] |}).

(** The [catch] block. *)
Definition onError (code : option jsstring) : Async (State * gmap jsstring UserDoc) unit :=
  ((if bool_decide (code = Some (lit "auth/invalid-credential"))
    then setPassword [] else ret ()) ;;;
   toast (ToastError (errorMessage code)) ;;;
   setIsLoading false)%async.

Definition handleSubmit (toLowerCase : jsstring → jsstring) (answer : AuthAnswer)
    (storeErrorCode : option jsstring) : Async (State * gmap jsstring UserDoc) unit :=
  (setIsLoading true ;;;
   let* s := getUI in
   match answer with
   | Refused code => onError code
   | Granted user =>
       if isLogin s then
         toast (ToastSuccess (lit "Logged in successfully!")) ;;;
         navigate (lit "/")
       else
         let role := if bool_decide (toLowerCase (email s) = adminEmail)
                     then Role.admin else Role.user in
         try_catch
           (setUser (uid user)
              (λ ts, {| ud_email := emailOf user; ud_role := role;
                        ud_nickname :=
                          Some (match emailOf user with
                                | Some e => if truthy (beforeAt e) then beforeAt e
                                            else lit "New User"
                                | None => lit "New User"
                                end);
                        ud_emoji := Some wavingHand;
                        ud_createdAt := Some ts;
                        ud_completedCourses := None |}) ;;;
            toast (ToastSuccess (lit "Account created successfully!")) ;;;
            navigate (lit "/"))
           (onError storeErrorCode)
   end)%async.
End AuthPage.

(** ** The profile page ([ProfilePage], [src/firebase.ts]) *)

Module ProfilePage.
Inductive SaveState := idle | saving | saved.

(** The state cells, and whether the timer set after a save is pending. *)
Record State := {
  nickname : jsstring;
  emoji : jsstring;
  isEditing : bool;
  saveState : SaveState;
  timerPending : bool
}.

Definition setSaveState (v : SaveState) : Async (State * gmap jsstring UserDoc) unit :=
  setUI (λ s, {| nickname := nickname s; emoji := emoji s; isEditing := isEditing s;
                 saveState := v; timerPending := timerPending s |}).

(** [setTimeout(callback, 1500)] *)
Definition setTimer : Async (State * gmap jsstring UserDoc) unit :=
  setUI (λ s, {| nickname := nickname s; emoji := emoji s; isEditing := isEditing s;
                 saveState := saveState s; timerPending := true |}).

(** The callback of the timer. *)
Definition onTimer (s : State) : State :=
  {| nickname := nickname s; emoji := emoji s; isEditing := false;
     saveState := idle; timerPending := false |}.

Definition handleSubmit (user : option FirebaseUser)
  : Async (State * gmap jsstring UserDoc) unit :=
  (let* s := getUI in
   match user with
   | None => ret ()
   | Some user =>
       if (length (trim (emoji s)) =? 0)%nat || (length (trim (nickname s)) =? 0)%nat
       then toast (ToastError (lit "Nickname and Emoji cannot be empty."))
       else
         setSaveState saving ;;;
         try_catch
           (updateUser (uid user)
              (λ d, {| ud_email := ud_email d; ud_role := ud_role d;
                       ud_nickname := Some (trim (nickname s));
                       ud_emoji := Some (emoji s);
                       ud_createdAt := ud_createdAt d;
                       ud_completedCourses := ud_completedCourses d |}) ;;;
            setSaveState saved ;;;
            toast (ToastSuccess (lit "Profile updated successfully!")) ;;;
            setTimer)
           (toast (ToastError (lit "Failed to update profile.")) ;;;
            setSaveState idle)
   end)%async.
End ProfilePage.

(** ** Sample states

    A store with one conversation, already read, that holds one message;
    the operator has it selected, and its owner is signed in. *)

Definition chat1 : SupportChat.t :=
  SupportChat.mk (lit "c1") (lit "u1") (lit "ann@example.org") (lit "Hi") 10 Status.read.

Definition chatdoc1 : ChatDoc :=
  {| d_userId := lit "u1"; d_userEmail := lit "ann@example.org";
     d_lastMessage := lit "Hi"; d_timestamp := 10; d_status := Status.read |}.

Definition store1 : Firestore :=
  {| supportChats := {[ lit "c1" := chatdoc1 ]};
     messagesCol :=
       {[ lit "c1" := {[ lit "m1" := {| m_text := lit "Hi"; m_sender := Sender.user;
                                        m_timestamp := 10 |} ]} ]} |}.

Definition world1 (fs : list bool) : World :=
  {| db := store1; serverClock := 11; faults := fs; requests := []; toasts := [];
     now := 1000 |}.

Definition console1 (r : jsstring) : SupportManagement.State :=
  {| SupportManagement.chats := [chat1];
     SupportManagement.selectedChat := Some chat1;
     SupportManagement.messages := [];
     SupportManagement.reply := r;
     SupportManagement.isDeleteModalOpen := false |}.

Definition ann : FirebaseUser := {| uid := lit "u1"; email := Some (lit "ann@example.org") |}.

(** The widget of a signed-in user with no conversation yet: open, the
    greeting on display, [typed] in the input. *)
Definition widget0 (typed : jsstring) : SupportWidget.State :=
  {| SupportWidget.isOpen := true;
     SupportWidget.newMessage := typed;
     SupportWidget.user := Some ann;
     SupportWidget.isLoginPromptOpen := false;
     SupportWidget.chatId := None;
     SupportWidget.messages := [SupportWidget.welcomeMsg 900];
     SupportWidget.unreadCount := 0;
     SupportWidget.lastCheckedTimestamp := 900 |}.

(** The widget of the owner of the sample conversation: closed, two
    unread replies. *)
Definition widget1 (typed : jsstring) : SupportWidget.State :=
  {| SupportWidget.isOpen := false;
     SupportWidget.newMessage := typed;
     SupportWidget.user := Some ann;
     SupportWidget.isLoginPromptOpen := false;
     SupportWidget.chatId := Some (lit "c1");
     SupportWidget.messages :=
       [ChatMessage.mk (lit "m1") (lit "Hi") Sender.user 10];
     SupportWidget.unreadCount := 2;
     SupportWidget.lastCheckedTimestamp := 900 |}.

(** A closed widget with nobody signed in. *)
Definition widget_signed_out : SupportWidget.State :=
  {| SupportWidget.isOpen := false;
     SupportWidget.newMessage := [];
     SupportWidget.user := None;
     SupportWidget.isLoginPromptOpen := false;
     SupportWidget.chatId := None;
     SupportWidget.messages := [];
     SupportWidget.unreadCount := 2;
     SupportWidget.lastCheckedTimestamp := 900 |}.

(** A widget left open by a user who then signed out, with [Hi] typed. *)
Definition widget_open_signed_out : SupportWidget.State :=
  {| SupportWidget.isOpen := true;
     SupportWidget.newMessage := lit "Hi";
     SupportWidget.user := None;
     SupportWidget.isLoginPromptOpen := false;
     SupportWidget.chatId := None;
     SupportWidget.messages := [];
     SupportWidget.unreadCount := 0;
     SupportWidget.lastCheckedTimestamp := 900 |}.

Definition empty_store : Firestore := {| supportChats := ∅; messagesCol := ∅ |}.

Definition world0 (fs : list bool) : World :=
  {| db := empty_store; serverClock := 1; faults := fs; requests := []; toasts := [];
     now := 1000 |}.

(** A conversation as the directory lists it while still unread. *)
Definition chat_unread : SupportChat.t :=
  SupportChat.mk (lit "c1") (lit "u1") (lit "ann@example.org") (lit "Hi") 10 Status.new.

Definition own_message : MessageDoc :=
  {| m_text := lit "Anyone there?"; m_sender := Sender.user; m_timestamp := 940 |}.

Definition agent_reply : MessageDoc :=
  {| m_text := lit "Hello, how can I help?"; m_sender := Sender.admin;
     m_timestamp := 950 |}.

(** [toLowerCase] on strings of ASCII characters. *)
Definition asciiLower (s : jsstring) : jsstring :=
  map (λ c, if (65 <=? c)%N && (c <=? 90)%N then (c + 32)%N else c) s.

(** A catalogue with one course and no site content yet. *)
Definition coursedoc1 : CourseDoc :=
  {| c_title := lit "Vectors"; c_category := lit "JEE";
     c_videoUrl := lit "https://youtu.be/abc"; c_notesUrl := []; c_createdAt := 5 |}.

Definition backend1 : Backend :=
  {| coursesCol := {[ lit "k1" := coursedoc1 ]}; siteContent := ∅ |}.

(** The course form with [t] typed as title and [v] as video URL. *)
Definition courseForm (t v : jsstring) (editing : option Course.t) : CourseManagement.State :=
  {| CourseManagement.courses := [listedCourse (lit "k1") coursedoc1];
     CourseManagement.formData :=
       {| CourseManagement.title := t; CourseManagement.category := lit "JEE";
          CourseManagement.videoUrl := v; CourseManagement.notesUrl := lit " " |};
     CourseManagement.editingCourse := editing |}.

Definition editor1 : ContentManagement.State :=
  {| ContentManagement.about := lit "We teach."; ContentManagement.terms := [];
     ContentManagement.support := [] |}.

Definition page_loading : StaticPage.State :=
  {| StaticPage.title := []; StaticPage.content := []; StaticPage.loading := true |}.

(** The stored profile of the sample user, who has completed one course. *)
Definition userdoc_ann : UserDoc :=
  {| ud_email := Some (lit "ann@example.org"); ud_role := Role.user;
     ud_nickname := Some (lit "ann"); ud_emoji := Some (lit ":)");
     ud_createdAt := Some 7; ud_completedCourses := Some [lit "k1"] |}.

Definition users1 : gmap jsstring UserDoc := {[ lit "u1" := userdoc_ann ]}.

Definition ctx_ann : AuthContext.t :=
  AuthContext.mk (Some ann) (Some (profileOf (lit "u1") userdoc_ann)) false.

Definition ctx_signed_out : AuthContext.t := AuthContext.mk None None false.

(** A user document that holds neither an email nor a nickname. *)
Definition nameless : AppUser.t :=
  AppUser.mk (lit "u2") None Role.user None None None None.

Definition home0 : Home.State :=
  {| Home.courses := []; Home.coursesCache := []; Home.loading := true;
     Home.selectedVideo := None; Home.isLoginPromptOpen := false; Home.opened := [] |}.

(** The sign-up form as a new user fills it in. *)
Definition authForm (login : bool) (pw : jsstring) : AuthPage.State :=
  {| AuthPage.isLogin := login; AuthPage.email := lit "Ann@Example.org";
     AuthPage.password := pw; AuthPage.isLoading := false; AuthPage.navigated := [] |}.

Definition profileForm (n e : jsstring) : ProfilePage.State :=
  {| ProfilePage.nickname := n; ProfilePage.emoji := e; ProfilePage.isEditing := true;
     ProfilePage.saveState := ProfilePage.idle; ProfilePage.timerPending := false |}.

(** * Properties *)

(** ** Strings *)

Lemma trimStart_nil_iff (s : jsstring) : trimStart s = [] ↔ whitespace_only s.
Proof.
  unfold whitespace_only. induction s as [|c s IH]; simpl.
  - split; [constructor | done].
  - destruct (isWhiteSpace c) eqn:Hc.
    + rewrite IH. split; [by constructor | by inversion 1].
    + split; [done | inversion 1; congruence].
Qed.

Lemma trimStart_head (s : jsstring) c r : trimStart s = c :: r → isWhiteSpace c = false.
Proof.
  induction s as [|a s IH]; simpl; [done |].
  destruct (isWhiteSpace a) eqn:Ha; [done | congruence].
Qed.

Lemma whitespace_only_rev (s : jsstring) : whitespace_only (rev s) ↔ whitespace_only s.
Proof.
  unfold whitespace_only. rewrite !Forall_forall.
  split; intros H c Hc; apply H; apply list_elem_of_In;
    apply list_elem_of_In in Hc; [by apply in_rev in Hc | by apply in_rev].
Qed.

(** [trim] leaves nothing exactly when the text is empty or made of
    white space only. *)
Lemma trim_nil_iff (s : jsstring) : trim s = [] ↔ whitespace_only s.
Proof.
  unfold trim, trimEnd. split.
  - intros H. apply (f_equal (@rev N)) in H. rewrite rev_involutive in H. simpl in H.
    apply (proj1 (trimStart_nil_iff _)) in H.
    apply (proj1 (whitespace_only_rev _)) in H.
    destruct (trimStart s) as [|c r] eqn:E; [by apply trimStart_nil_iff |].
    apply trimStart_head in E. apply Forall_cons in H as [Hc _]. congruence.
  - intros H. apply trimStart_nil_iff in H. by rewrite H.
Qed.

Lemma truthy_trim_false (s : jsstring) : truthy (trim s) = false ↔ whitespace_only s.
Proof. rewrite <- trim_nil_iff. by destruct (trim s). Qed.

(** ** The store *)

Lemma autoId_fresh (taken : gset jsstring) : autoId taken ∉ taken.
Proof. unfold autoId. pose proof (is_fresh ({[ [] ]} ∪ taken)). set_solver. Qed.

Lemma autoId_nonempty (taken : gset jsstring) : autoId taken ≠ [].
Proof. unfold autoId. pose proof (is_fresh ({[ [] ]} ∪ taken)). set_solver. Qed.

Lemma autoId_truthy (taken : gset jsstring) : truthy (autoId taken) = true.
Proof. pose proof (autoId_nonempty taken). by destruct (autoId taken). Qed.

Lemma lookup_foldr_delete {V} (m : gmap jsstring V) (ids : list jsstring) k :
  foldr delete m ids !! k = if decide (k ∈ ids) then None else m !! k.
Proof.
  induction ids as [|i ids IH]; cbn [foldr].
  - destruct (decide (k ∈ [])) as [Hy|Hn]; [by apply elem_of_nil in Hy | done].
  - destruct (decide (i = k)) as [->|Hne].
    + rewrite lookup_delete_eq.
      destruct (decide (k ∈ k :: ids)) as [Hy|Hn]; [done |].
      destruct Hn. apply elem_of_cons. by left.
    + rewrite lookup_delete_ne by done. rewrite IH.
      destruct (decide (k ∈ ids)) as [Hin|Hin].
      * destruct (decide (k ∈ i :: ids)) as [Hy|Hn]; [done |].
        destruct Hn. apply elem_of_cons. by right.
      * destruct (decide (k ∈ i :: ids)) as [Hy|Hn]; [| done].
        apply elem_of_cons in Hy as [->|Hy]; done.
Qed.

(** Deleting every document a [getDocs] found empties the subcollection. *)
Lemma delete_all_found {V} (m : gmap jsstring V) :
  foldr delete m (elements (dom m)) = ∅.
Proof.
  apply map_eq; intros k. rewrite lookup_foldr_delete, lookup_empty.
  destruct (decide (k ∈ elements (dom m))) as [|Hn]; [done |].
  rewrite elem_of_elements, elem_of_dom in Hn.
  by apply eq_None_not_Some.
Qed.

Lemma messages_of_insert (d : Firestore) (supp : gmap jsstring ChatDoc) (c c' : jsstring)
    (m : gmap jsstring MessageDoc) :
  messages_of {| supportChats := supp; messagesCol := <[c := m]> (messagesCol d) |} c'
  = if decide (c = c') then m else messages_of d c'.
Proof.
  unfold messages_of; simpl. rewrite lookup_insert. by destruct (decide (c = c')).
Qed.

(** ** The operator console *)

Section Console.
Import SupportManagement.

(** C6. Selecting a conversation sends one status update to the store
    exactly when the selected record has status new, and that update
    writes read (so the stored record is read afterwards when the store
    accepts it); selecting a record that is already read leaves the store
    and the request log as they were; and no selection turns a stored
    status into new. *)
Theorem handleSelectChat_marks_read (chat : SupportChat.t) (s : State) (w : World) :
  let σ' := (handleSelectChat chat (s, w)).2 in
  selectedChat σ'.1 = Some chat
  ∧ (SupportChat.status chat = Status.new →
     requests σ'.2 = requests w ++
       [ReqUpdateChat (SupportChat.id chat)
          {| p_lastMessage := None; p_timestamp := false;
             p_status := Some Status.read |}])
  ∧ (SupportChat.status chat = Status.new → faults w = [] →
     is_Some (supportChats (db w) !! SupportChat.id chat) →
     d_status <$> supportChats (db σ'.2) !! SupportChat.id chat = Some Status.read)
  ∧ (SupportChat.status chat = Status.read → σ'.2 = w)
  ∧ (requests σ'.2 ≠ requests w ↔ SupportChat.status chat = Status.new)
  ∧ (∀ c doc', supportChats (db σ'.2) !! c = Some doc' →
       d_status doc' = Status.new →
       ∃ doc, supportChats (db w) !! c = Some doc ∧ d_status doc = Status.new).
Proof.
  destruct w as [d clk fs reqs ts nw].
  unfold handleSelectChat, bind, setSelectedChat, setState, updateChat, send, ret.
  destruct (SupportChat.status chat) eqn:Hst; simpl.
  - (* new *)
    assert (Hlog : reqs ++
       [ReqUpdateChat (SupportChat.id chat)
          {| p_lastMessage := None; p_timestamp := false;
             p_status := Some Status.read |}] ≠ reqs).
    { intros H. apply (f_equal length) in H. rewrite length_app in H.
      simpl in H. lia. }
    assert (Hone : ∀ doc c doc',
      <[SupportChat.id chat := apply_patch clk
          {| p_lastMessage := None; p_timestamp := false;
             p_status := Some Status.read |} doc]> (supportChats d) !! c = Some doc' →
      d_status doc' = Status.new →
      ∃ doc0, supportChats d !! c = Some doc0 ∧ d_status doc0 = Status.new).
    { intros doc c doc' Hc Hn.
      destruct (decide (SupportChat.id chat = c)) as [<-|Hne].
      - rewrite lookup_insert_eq in Hc. by simplify_eq.
      - rewrite lookup_insert_ne in Hc by done. eauto. }
    destruct (head fs) as [[]|] eqn:Hf; simpl;
      destruct (supportChats d !! SupportChat.id chat) as [doc|] eqn:Hd; simpl;
      split_and!; try done; eauto.
    all: try (intros _ -> _; simpl in Hf; try done).
    all: try (intros _ _ [? [=]]).
    all: by rewrite lookup_insert_eq.
  - (* read *)
    split_and!; try done; eauto.
Qed.

(** C9. A reply that is empty or white space only, or a reply typed
    while no conversation is selected, is dropped: the handler resolves
    and the console state, the store, the request log and the toasts are
    what they were. *)
Theorem handleSendReply_ignores_blank (s : State) (w : World) :
  whitespace_only (reply s) ∨ selectedChat s = None →
  handleSendReply (s, w) = (Resolved (), (s, w)).
Proof.
  intros H. unfold handleSendReply, bind, getState, ret; simpl.
  destruct H as [H|H].
  - apply truthy_trim_false in H. by rewrite H.
  - rewrite H; simpl. by rewrite orb_true_r.
Qed.

(** C7. A reply whose trimmed text is not empty, sent with a
    conversation selected, issues the message insert (sender admin) and
    then at most the update of the conversation, which names the last
    message and the timestamp and not the status; whatever fails, no
    stored status changes.  When nothing fails and the conversation
    exists, exactly one message is added, and the conversation record
    differs from the old one in the last message, the trimmed reply
    after [Admin: ], and the timestamp only. *)
Theorem handleSendReply_frame (s : State) (w : World) (chat : SupportChat.t) :
  selectedChat s = Some chat →
  trim (reply s) ≠ [] →
  let replyText := trim (reply s) in
  let c := SupportChat.id chat in
  let insertion := ReqAddMessage c replyText Sender.admin in
  let update :=
    ReqUpdateChat c {| p_lastMessage := Some (lit "Admin: " ++ replyText);
                       p_timestamp := true; p_status := None |} in
  let σ' := (handleSendReply (s, w)).2 in
  (requests σ'.2 = requests w ++ [insertion]
   ∨ requests σ'.2 = requests w ++ [insertion; update])
  ∧ (∀ k, d_status <$> supportChats (db σ'.2) !! k
          = d_status <$> supportChats (db w) !! k)
  ∧ (faults w = [] →
     ∀ doc, supportChats (db w) !! c = Some doc →
       let mid := autoId (dom (messages_of (db w) c)) in
       requests σ'.2 = requests w ++ [insertion; update]
       ∧ messages_of (db w) c !! mid = None
       ∧ messages_of (db σ'.2) c
         = <[mid := {| m_text := replyText; m_sender := Sender.admin;
                       m_timestamp := serverClock w |}]> (messages_of (db w) c)
       ∧ size (messages_of (db σ'.2) c) = S (size (messages_of (db w) c))
       ∧ supportChats (db σ'.2)
         = <[c := {| d_userId := d_userId doc; d_userEmail := d_userEmail doc;
                     d_lastMessage := lit "Admin: " ++ replyText;
                     d_timestamp := serverClock w + 1;
                     d_status := d_status doc |}]> (supportChats (db w))
       ∧ toasts σ'.2 = toasts w).
Proof.
  intros Hsel Hne. destruct w as [d clk fs reqs ts nw].
  assert (Htr : truthy (trim (reply s)) = true) by by destruct (trim (reply s)).
  assert (Hfresh : messages_of d (SupportChat.id chat)
                     !! autoId (dom (messages_of d (SupportChat.id chat))) = None).
  { apply not_elem_of_dom, autoId_fresh. }
  unfold handleSendReply, bind, getState, ret, setReply, setState, try_catch,
    addMessage, updateChat, send, toast, setWorld; simpl.
  rewrite Hsel, Htr; simpl.
  destruct fs as [|[] fs]; simpl.
  - (* no injected failure *)
    destruct (supportChats d !! SupportChat.id chat) as [doc|] eqn:Hd; simpl.
    + split_and!.
      * right. by rewrite <- app_assoc.
      * intros k. destruct (decide (SupportChat.id chat = k)) as [<-|Hk].
        -- by rewrite lookup_insert_eq, Hd.
        -- by rewrite lookup_insert_ne.
      * intros _ doc0 [= <-]. split_and!; try done.
        -- by rewrite <- app_assoc.
        -- rewrite messages_of_insert. by rewrite decide_True.
        -- rewrite messages_of_insert, decide_True by done.
           by apply map_size_insert_None.
    + split_and!; [right; by rewrite <- app_assoc | done | done].
  - split_and!; [by left | done | done].
  - destruct fs as [|[] fs]; simpl;
      destruct (supportChats d !! SupportChat.id chat) as [doc|] eqn:Hd; simpl;
      (split_and!; [right; by rewrite <- app_assoc | | done]);
      intros k; try done.
    all: destruct (decide (SupportChat.id chat = k)) as [<-|Hk];
      [ by rewrite lookup_insert_eq, Hd | by rewrite lookup_insert_ne ].
Qed.

Lemma suspended_ret {S A} (request : Async S A) (σ : S * World) :
  suspended (ret ()) request σ = request σ.
Proof. unfold suspended, ret; simpl. by destruct (request σ). Qed.

(** The batch deletes what the enumeration found: a message that is
    stored after the enumeration is still there after the batch. *)
Lemma delete_found_keeps_new {V} (m : gmap jsstring V) (k : jsstring) (v : V) :
  m !! k = None →
  foldr delete (<[k := v]> m) (elements (dom m)) = {[k := v]}.
Proof.
  intros Hk. apply map_eq; intros j. rewrite lookup_foldr_delete.
  destruct (decide (j = k)) as [->|Hne].
  - rewrite lookup_singleton_eq, lookup_insert_eq.
    destruct (decide (k ∈ elements (dom m))) as [Hin|]; [| done].
    apply elem_of_elements, elem_of_dom in Hin. rewrite Hk in Hin. by destruct Hin.
  - rewrite lookup_singleton_ne, lookup_insert_ne by done.
    destruct (decide (j ∈ elements (dom m))) as [|Hn]; [done |].
    rewrite elem_of_elements, elem_of_dom in Hn. by apply eq_None_not_Some.
Qed.

(** C1, as the code has it.  The eraser issues three requests in order:
    the enumeration of the messages of the selected conversation, one
    batch that deletes the messages found (no request when none was
    found), and the delete of the conversation record.  With the store to
    itself, the request that fails decides the outcome: a failed
    enumeration or a failed batch leaves the store as it was; a failed
    record delete leaves the conversation without messages and with its
    record; no failure removes the record and the messages.  A failure
    keeps the selection, raises one error notice and ends the requests;
    messages of other conversations are never touched.  On a store
    shared with other clients the batch still deletes only what the
    enumeration found: a message stored in between is left behind under
    the removed record. *)
Theorem handleDeleteChat_two_phase (s : State) (w : World) (chat : SupportChat.t) :
  selectedChat s = Some chat →
  let c := SupportChat.id chat in
  let ids := elements (dom (messages_of (db w) c)) in
  let σ' := (handleDeleteChat (s, w)).2 in
  let enumeration := ReqGetMessages c in
  let batch := if decide (ids = []) then [] else [ReqBatchDeleteMessages c ids] in
  let failed issued :=
    σ'.1 = s
    ∧ toasts σ'.2 = toasts w ++ [ToastError (lit "Failed to delete chat.")]
    ∧ requests σ'.2 = requests w ++ issued in
  let others_kept :=
    ∀ c', c' ≠ c → messages_of (db σ'.2) c' = messages_of (db w) c' in
  let enumFails := head (faults w) = Some true in
  let batchFails := ids ≠ [] ∧ faults w !! 1%nat = Some true in
  let recordFails :=
    faults w !! (if decide (ids = []) then 1 else 2)%nat = Some true in
  (enumFails → db σ'.2 = db w ∧ failed [enumeration])
  ∧ (¬ enumFails → batchFails → db σ'.2 = db w ∧ failed (enumeration :: batch))
  ∧ (¬ enumFails → ¬ batchFails → recordFails →
     supportChats (db σ'.2) = supportChats (db w)
     ∧ messages_of (db σ'.2) c = ∅
     ∧ others_kept
     ∧ failed (enumeration :: batch ++ [ReqDeleteChat c]))
  ∧ (¬ enumFails → ¬ batchFails → ¬ recordFails →
     supportChats (db σ'.2) = delete c (supportChats (db w))
     ∧ messages_of (db σ'.2) c = ∅
     ∧ others_kept
     ∧ selectedChat σ'.1 = None
     ∧ toasts σ'.2 = toasts w ++ [ToastSuccess (lit "Chat deleted successfully.")]
     ∧ requests σ'.2 = requests w ++ enumeration :: batch ++ [ReqDeleteChat c])
  ∧ (∀ σ, handleDeleteChat_among (ret ()) (ret ()) (ret ()) σ = handleDeleteChat σ)
  ∧ (∀ mid m,
       messages_of (db w) c !! mid = None →
       faults w = [] →
       let σ'' := (handleDeleteChat_among (messageArrives c mid m) (ret ()) (ret ())
                     (s, w)).2 in
       supportChats (db σ''.2) = delete c (supportChats (db w))
       ∧ messages_of (db σ''.2) c = {[mid := m]}
       ∧ selectedChat σ''.1 = None
       ∧ toasts σ''.2 = toasts w ++ [ToastSuccess (lit "Chat deleted successfully.")]).
Proof.
  intros Hsel. destruct w as [d clk fs reqs ts nw].
  set (c := SupportChat.id chat).
  assert (Hnil : elements (dom (messages_of d c)) = [] → messages_of d c = ∅).
  { intros H. apply elements_empty_inv in H. apply dom_empty_iff_L.
    by apply leibniz_equiv. }
  assert (Hall : ∀ supp,
    messages_of {| supportChats := supp;
                   messagesCol := <[c := foldr delete (messages_of d c)
                                           (elements (dom (messages_of d c)))]>
                                    (messagesCol d) |} c = ∅).
  { intros supp. rewrite messages_of_insert, decide_True by done.
    apply delete_all_found. }
  assert (Hother : ∀ supp m c', c' ≠ c →
    messages_of {| supportChats := supp; messagesCol := <[c := m]> (messagesCol d) |} c'
    = messages_of d c').
  { intros supp m c' Hc. rewrite messages_of_insert. by rewrite decide_False. }
  assert (Hlog : ∀ (a b e : Request), ((reqs ++ [a]) ++ [b]) ++ [e] = reqs ++ [a; b; e]).
  { intros. by rewrite <- !app_assoc. }
  assert (Hlog2 : ∀ (a b : Request), (reqs ++ [a]) ++ [b] = reqs ++ [a; b]).
  { intros. by rewrite <- !app_assoc. }
  split_and!.
  1-4: unfold handleDeleteChat, bind, getState, ret, try_catch, getMessages,
         commitDeleteBatch, deleteChat, setSelectedChat, setState, toast, setWorld, send;
       simpl; rewrite Hsel; simpl; fold c;
       destruct (elements (dom (messages_of d c))) as [|i ids] eqn:Hids;
       destruct fs as [|[] [|[] [|[] fs]]]; simpl;
       rewrite ?Hlog, ?Hlog2;
       try (by (intros; exfalso; intuition congruence));
       intros; split_and!; try done; try (by apply Hnil); try apply Hall;
       try (intros c' Hc; by apply Hother).
  - intros [s0 w0].
    cbv beta iota zeta delta [handleDeleteChat_among handleDeleteChat bind getState
                                try_catch fst snd].
    destruct (selectedChat s0) as [ch|]; [| done].
    rewrite suspended_ret.
    destruct (getMessages (SupportChat.id ch) (s0, w0)) as [[snap|] σ1]; [| done].
    rewrite suspended_ret.
    destruct (commitDeleteBatch (SupportChat.id ch) snap σ1) as [[[]|] σ2]; [| done].
    by rewrite suspended_ret.
  - simpl. intros mid m Hmid ->.
    unfold handleDeleteChat_among, suspended, messageArrives, bind, getState, ret,
      try_catch, getMessages, commitDeleteBatch, deleteChat, setSelectedChat, setState,
      toast, setWorld, send; simpl.
    rewrite Hsel; simpl; fold c.
    destruct (elements (dom (messages_of d c))) as [|i ids] eqn:Hids; simpl.
    + split_and!; try done.
      rewrite messages_of_insert, decide_True by done.
      rewrite (Hnil eq_refl). apply insert_empty.
    + split_and!; try done.
      match goal with
      | |- context [delete i (foldr delete ?M ids)] =>
          change (delete i (foldr delete M ids)) with (foldr delete M (i :: ids))
      end.
      rewrite <- Hids.
      rewrite messages_of_insert, decide_True by done.
      unfold messages_of at 1. cbn [messagesCol]. rewrite lookup_insert_eq. simpl.
      by apply delete_found_keeps_new.
Qed.

(** C1 as the claim states it fails: the store commits the batch that
    deletes the messages and then refuses the delete of the record; the
    message of the conversation is gone and the record is still there. *)
Lemma handleDeleteChat_not_atomic :
  let w := world1 [false; false; true] in
  let σ' := (handleDeleteChat (console1 [], w)).2 in
  messages_of (db w) (lit "c1") ≠ ∅
  ∧ messages_of (db σ'.2) (lit "c1") = ∅
  ∧ supportChats (db σ'.2) !! lit "c1" = Some chatdoc1.
Proof.
  split_and!.
  - intros H. apply (f_equal (λ m, m !! lit "m1")) in H. vm_compute in H. discriminate.
  - vm_compute. reflexivity.
  - vm_compute. reflexivity.
Qed.

(** Selecting the sample conversation, once listed as unread and once as
    read. *)
Lemma handleSelectChat_marks_read_witness :
  SupportChat.status chat_unread = Status.new
  ∧ requests (handleSelectChat chat_unread (console1 [], world1 [])).2.2
    = [ReqUpdateChat (lit "c1")
         {| p_lastMessage := None; p_timestamp := false;
            p_status := Some Status.read |}]
  ∧ SupportChat.status chat1 = Status.read
  ∧ (handleSelectChat chat1 (console1 [], world1 [])).2.2 = world1 [].
Proof.
  pose proof (handleSelectChat_marks_read chat_unread (console1 []) (world1 []))
    as (_ & Hnew & _).
  pose proof (handleSelectChat_marks_read chat1 (console1 []) (world1 []))
    as (_ & _ & _ & Hread & _).
  split_and!; [reflexivity | apply Hnew; reflexivity | reflexivity
              | apply Hread; reflexivity].
Defined.

(** Two blanks typed as a reply. *)
Lemma handleSendReply_ignores_blank_witness :
  whitespace_only (lit "  ")
  ∧ handleSendReply (console1 (lit "  "), world1 [])
    = (Resolved (), (console1 (lit "  "), world1 [])).
Proof.
  assert (H : whitespace_only (lit "  ")) by (repeat constructor).
  split; [exact H |].
  apply (handleSendReply_ignores_blank (console1 (lit "  ")) (world1 [])).
  left. exact H.
Defined.

(** The operator answers the sample conversation, which is read and stays
    read. *)
Lemma handleSendReply_frame_witness :
  let s := console1 (lit " Hello, how can I help? ") in
  let σ' := (handleSendReply (s, world1 [])).2 in
  selectedChat s = Some chat1
  ∧ trim (reply s) ≠ []
  ∧ requests σ'.2
    = [ ReqAddMessage (lit "c1") (lit "Hello, how can I help?") Sender.admin;
        ReqUpdateChat (lit "c1")
          {| p_lastMessage := Some (lit "Admin: Hello, how can I help?");
             p_timestamp := true; p_status := None |} ]
  ∧ d_status <$> supportChats (db σ'.2) !! lit "c1" = Some Status.read
  ∧ size (messages_of (db σ'.2) (lit "c1")) = 2%nat.
Proof.
  intros s σ'.
  assert (H1 : selectedChat s = Some chat1) by reflexivity.
  assert (H2 : trim (reply s) ≠ []) by (vm_compute; discriminate).
  pose proof (handleSendReply_frame s (world1 []) chat1 H1 H2) as (_ & Hst & Hok).
  specialize (Hok eq_refl chatdoc1 eq_refl) as (Hreq & _ & _ & Hsize & _).
  split_and!; [exact H1 | exact H2 | exact Hreq | | exact Hsize].
  etrans; [apply (Hst (lit "c1")) | reflexivity].
Defined.

(** Deleting the sample conversation when the store fails nothing: with
    the store to the operator alone, and while the owner of the
    conversation sends one more message. *)
Lemma handleDeleteChat_two_phase_witness :
  let s := console1 [] in
  let σ' := (handleDeleteChat (s, world1 [])).2 in
  let σ'' := (handleDeleteChat_among
                (messageArrives (lit "c1") (lit "m2") own_message) (ret ()) (ret ())
                (s, world1 [])).2 in
  selectedChat s = Some chat1
  ∧ faults (world1 []) = []
  ∧ supportChats (db σ'.2) = delete (lit "c1") (supportChats store1)
  ∧ messages_of (db σ'.2) (lit "c1") = ∅
  ∧ selectedChat σ'.1 = None
  ∧ messages_of store1 (lit "c1") !! lit "m2" = None
  ∧ supportChats (db σ''.2) = delete (lit "c1") (supportChats store1)
  ∧ messages_of (db σ''.2) (lit "c1") = {[ lit "m2" := own_message ]}.
Proof.
  intros s σ' σ''.
  pose proof (handleDeleteChat_two_phase s (world1 []) chat1 eq_refl)
    as (_ & _ & _ & Hok & _ & Hshared).
  assert (H1 : ¬ head (faults (world1 [])) = Some true) by (simpl; discriminate).
  assert (H2 : ¬ (elements (dom (messages_of (db (world1 [])) (SupportChat.id chat1))) ≠ []
                  ∧ faults (world1 []) !! 1%nat = Some true))
    by (intros [_ H]; simpl in H; discriminate).
  assert (H3 : ¬ faults (world1 []) !!
                   (if decide (elements (dom (messages_of (db (world1 []))
                                                (SupportChat.id chat1))) = [])
                    then 1 else 2)%nat = Some true)
    by (simpl; rewrite lookup_nil; discriminate).
  assert (H4 : messages_of store1 (lit "c1") !! lit "m2" = None)
    by (vm_compute; reflexivity).
  destruct (Hok H1 H2 H3) as (Hc & Hm & _ & Hs & _).
  destruct (Hshared (lit "m2") own_message H4 eq_refl) as (Hc' & Hm' & _).
  split_and!; [reflexivity | reflexivity | exact Hc | exact Hm | exact Hs | exact H4
              | exact Hc' | exact Hm'].
Defined.
End Console.

(** ** Frame conditions of the computations *)

Section Keeps.
Context {S B : Type} (f : S * World → B).

Lemma keeps_ret {A} (a : A) : keeps f (ret a).
Proof. by intros σ. Qed.

Lemma keeps_throw {A} : keeps f (@throw S A).
Proof. by intros σ. Qed.

Lemma keeps_bind {A C} (m : Async S A) (k : A → Async S C) :
  keeps f m → (∀ a, keeps f (k a)) → keeps f (bind m k).
Proof.
  intros Hm Hk σ. unfold bind. specialize (Hm σ).
  destruct (m σ) as [[a|] σ'] eqn:E; simpl in *; [| done].
  by rewrite Hk.
Qed.

Lemma keeps_try_catch (body handler : Async S unit) :
  keeps f body → keeps f handler → keeps f (try_catch body handler).
Proof.
  intros Hb Hh σ. unfold try_catch. specialize (Hb σ).
  destruct (body σ) as [[a|] σ'] eqn:E; simpl in *; [done |].
  by rewrite Hh.
Qed.

Lemma keeps_promise_all (promises : list (Async S unit)) :
  Forall (keeps f) promises → keeps f (promise_all promises).
Proof.
  induction 1 as [|p ps Hp _ IH]; intros σ; simpl; [done |].
  specialize (Hp σ). destruct (p σ) as [[a|] σ'] eqn:E; simpl in *.
  - by rewrite IH.
  - by rewrite IH.
Qed.

Lemma keeps_getState : keeps f (@getState S).
Proof. by intros σ. Qed.

Lemma keeps_setState (g : S → S) :
  (∀ s w, f (g s, w) = f (s, w)) → keeps f (setState g).
Proof. intros Hg [s w]. apply Hg. Qed.

Lemma keeps_DateNow : keeps f (@DateNow S).
Proof. by intros σ. Qed.

Lemma keeps_toast (t : Toast) :
  (∀ s w, f (s, {| db := db w; serverClock := serverClock w; faults := faults w;
                   requests := requests w; toasts := toasts w ++ [t];
                   now := now w |}) = f (s, w)) →
  keeps f (@toast S t).
Proof. intros Ht [s w]. apply Ht. Qed.

Lemma keeps_send {A} (r : Request) (commit : Firestore → Z → option (A * Firestore)) :
  store_blind f → keeps f (@send S A r commit).
Proof.
  intros Hf [s w]. unfold send; simpl.
  destruct (head (faults w)) as [[]|]; simpl; try apply Hf;
    destruct (commit (db w) (serverClock w)) as [[a d']|]; simpl; apply Hf.
Qed.
End Keeps.

Create HintDb keeps.
#[local] Hint Resolve keeps_ret keeps_throw keeps_getState keeps_DateNow : keeps.

(** Splits a computation along its structure and closes the parts that
    cannot touch the observation. *)
Ltac frame :=
  repeat first
    [ progress intros
    | apply keeps_bind
    | apply keeps_try_catch
    | apply keeps_promise_all
    | apply Forall_app_2
    | apply Forall_cons_2
    | apply Forall_nil_2
    | solve [ auto with keeps ]
    | match goal with
      | |- keeps _ (if ?b then _ else _) => destruct b
      | |- keeps _ (match ?o with _ => _ end) => destruct o
      | |- Forall _ (if ?b then _ else _) => destruct b
      | |- keeps _ (setState _) => apply keeps_setState; intros; reflexivity
      | |- keeps _ (send _ _) => apply keeps_send; intros ? ? ? ? ? ?; reflexivity
      | |- keeps _ (toast _) => apply keeps_toast; intros; reflexivity
      end ].

(** ** The end-user widget *)

Section Widget.
Import SupportWidget.

Ltac unfold_setters :=
  unfold setIsOpen, setNewMessage, setIsLoginPromptOpen, setChatId, setMessages,
    setUnreadCount, setLastCheckedTimestamp, setUser.

Lemma durableSend_keeps_messages u c text isNew :
  keeps (λ σ, messages σ.1) (durableSend u c text isNew).
Proof. unfold durableSend, addChat, addMessage, updateChat. unfold_setters. frame. Qed.

Lemma handleSubmit_keeps_unreadCount : keeps (λ σ, unreadCount σ.1) handleSubmit.
Proof.
  unfold handleSubmit, durableSend, addChat, addMessage, updateChat.
  unfold_setters. frame.
Qed.

Lemma handleSubmit_keeps_isOpen : keeps (λ σ, isOpen σ.1) handleSubmit.
Proof.
  unfold handleSubmit, durableSend, addChat, addMessage, updateChat.
  unfold_setters. frame.
Qed.

Lemma onChatsSnapshot_keeps_unreadCount captured docs :
  keeps (λ σ, unreadCount σ.1) (onChatsSnapshot captured docs).
Proof. unfold onChatsSnapshot. unfold_setters. frame. Qed.

Lemma onChatsSnapshot_keeps_isOpen captured docs :
  keeps (λ σ, isOpen σ.1) (onChatsSnapshot captured docs).
Proof. unfold onChatsSnapshot. unfold_setters. frame. Qed.

Lemma onMessagesSnapshot_keeps_unreadCount docs :
  keeps (λ σ, unreadCount σ.1) (onMessagesSnapshot docs).
Proof. unfold onMessagesSnapshot. unfold_setters. frame. Qed.

Lemma onMessagesSnapshot_keeps_isOpen docs :
  keeps (λ σ, isOpen σ.1) (onMessagesSnapshot docs).
Proof. unfold onMessagesSnapshot. unfold_setters. frame. Qed.

Lemma auth_change_keeps_unreadCount u :
  keeps (λ σ, unreadCount σ.1) (setUser u ;;; effect1)%async.
Proof. unfold effect1. unfold_setters. frame. Qed.

Lemma auth_change_keeps_isOpen u :
  keeps (λ σ, isOpen σ.1) (setUser u ;;; effect1)%async.
Proof. unfold effect1. unfold_setters. frame. Qed.

Lemma onNotificationSnapshot_keeps_isOpen changes :
  keeps (λ σ, isOpen σ.1) (onNotificationSnapshot changes).
Proof.
  induction changes as [|c cs IH]; simpl; [apply keeps_ret |].
  apply keeps_bind; [| done]. unfold onChange. unfold_setters. frame.
Qed.

(** What one snapshot of the watcher does: each counted change adds one
    to the counter and raises one notice; nothing else changes. *)
Lemma onNotificationSnapshot_counts (changes : list DocumentChange) s w :
  let n := length (List.filter is_agent_reply changes) in
  onNotificationSnapshot changes (s, w)
  = (Resolved (),
     ({| isOpen := isOpen s; newMessage := newMessage s; user := user s;
         isLoginPromptOpen := isLoginPromptOpen s; chatId := chatId s;
         messages := messages s; unreadCount := unreadCount s + Z.of_nat n;
         lastCheckedTimestamp := lastCheckedTimestamp s |},
      {| db := db w; serverClock := serverClock w; faults := faults w;
         requests := requests w; toasts := toasts w ++ replicate n agentReplied;
         now := now w |})).
Proof.
  revert s w. induction changes as [|c cs IH]; intros s w; simpl.
  - unfold ret. destruct s, w; simpl. by rewrite Z.add_0_r, app_nil_r.
  - unfold bind, onChange, is_agent_reply.
    destruct (change_type c); simpl; try apply IH.
    destruct (decide (m_sender (change_doc c) = Sender.admin)) as [Ha|Ha].
    + rewrite bool_decide_true by done. unfold toast, setWorld, setUnreadCount, setState.
      simpl. rewrite IH; simpl. f_equal. f_equal.
      * f_equal. unfold is_agent_reply. lia.
      * f_equal. unfold is_agent_reply. by rewrite <- app_assoc.
    + rewrite bool_decide_false by done. apply IH.
Qed.

Lemma effect3_Some (s : State) (sub : Subscription) :
  effect3 s = Some sub ↔
  isOpen s = false
  ∧ ∃ c, chatId s = Some c ∧ c ≠ []
         ∧ sub = {| sub_chat := c; sub_after := lastCheckedTimestamp s |}.
Proof.
  unfold effect3. destruct (isOpen s); simpl.
  - split; [done | by intros [? _]].
  - destruct (chatId s) as [[|a c]|]; simpl.
    + split; [done | by intros [_ (c & [= <-] & ? & _)]].
    + split.
      * intros [= <-]. split; [done |]. by exists (a :: c).
      * intros [_ (c' & [= <-] & _ & ->)]. done.
    + split; [done | by intros [_ (c & ? & _)]].
Qed.

(** C4. While the widget is closed and a conversation is resolved, a
    message delivered as added by the watcher's query adds exactly one
    to the unread counter and raises the notice when its sender is the
    operator, and changes nothing when its sender is the end user or the
    system; a whole snapshot adds as many as it has added operator
    messages. *)
Theorem onChange_counts_operator_only (s : State) (w : World)
    (sub : Subscription) (m : MessageDoc) (changes : list DocumentChange) :
  effect3 s = Some sub →
  in_query sub m = true →
  Forall (λ c, in_query sub (change_doc c) = true) changes →
  let σ' := (onChange {| change_type := added; change_doc := m |} (s, w)).2 in
  let τ := (onNotificationSnapshot changes (s, w)).2 in
  (m_sender m = Sender.admin →
     unreadCount σ'.1 = unreadCount s + 1
     ∧ toasts σ'.2 = toasts w ++ [agentReplied])
  ∧ (m_sender m ≠ Sender.admin → σ' = (s, w))
  ∧ (unreadCount σ'.1 ≠ unreadCount s ↔ m_sender m = Sender.admin)
  ∧ (toasts σ'.2 ≠ toasts w ↔ m_sender m = Sender.admin)
  ∧ unreadCount τ.1
    = unreadCount s + Z.of_nat (length (List.filter is_agent_reply changes))
  ∧ toasts τ.2
    = toasts w ++ replicate (length (List.filter is_agent_reply changes)) agentReplied.
Proof.
  intros _ _ _. rewrite onNotificationSnapshot_counts. unfold onChange; simpl.
  destruct (decide (m_sender m = Sender.admin)) as [Ha|Ha]; simpl.
  - assert (Ht : toasts w ++ [agentReplied] ≠ toasts w).
    { intros H. apply (f_equal length) in H. rewrite length_app in H. simpl in H. lia. }
    split_and!; try done.
    split; [done | lia].
  - split_and!; try done.
Qed.

(** C8. A submission whose text is empty or white space only, or made
    while nobody is signed in, is dropped: the handler resolves and the
    widget state (the input included), the store, the request log and
    the toasts are what they were. *)
Theorem handleSubmit_ignores_invalid (s : State) (w : World) :
  whitespace_only (newMessage s) ∨ user s = None →
  handleSubmit (s, w) = (Resolved (), (s, w)).
Proof.
  intros H. unfold handleSubmit, bind, getState, ret; simpl.
  destruct H as [H|H].
  - apply truthy_trim_false in H. by rewrite H.
  - rewrite H; simpl. by rewrite orb_true_r.
Qed.

(** C10. With nobody signed in, a click on the toggle opens the login
    prompt and changes nothing else: the widget stays as it was (closed
    stays closed), and the unread counter and the cursor keep their
    values.  A click that changes the visibility, the counter or the
    cursor is a click of a signed-in user. *)
Theorem handleSupportIconClick_signed_out (s : State) (w : World) :
  let σ' := (handleSupportIconClick (s, w)).2 in
  (user s = None →
     σ' = ({| isOpen := isOpen s; newMessage := newMessage s; user := user s;
              isLoginPromptOpen := true; chatId := chatId s;
              messages := messages s; unreadCount := unreadCount s;
              lastCheckedTimestamp := lastCheckedTimestamp s |}, w)
     ∧ (isOpen s = false → isOpen σ'.1 = false))
  ∧ (isOpen σ'.1 ≠ isOpen s ∨ unreadCount σ'.1 ≠ unreadCount s
     ∨ lastCheckedTimestamp σ'.1 ≠ lastCheckedTimestamp s →
     user s ≠ None).
Proof.
  unfold handleSupportIconClick, bind, getState; simpl.
  split.
  - intros Hu. rewrite Hu; simpl. rewrite Hu.
    split; [reflexivity | intros H; exact H].
  - intros H Hu. rewrite Hu in H; simpl in H.
    destruct H as [H|[H|H]]; by destruct H.
Qed.

Lemma handleSupportIconClick_signed_in (s : State) (w : World) :
  isNull (user s) = false →
  (handleSupportIconClick (s, w)).2
  = if isOpen s
    then ({| isOpen := false; newMessage := newMessage s; user := user s;
             isLoginPromptOpen := isLoginPromptOpen s; chatId := chatId s;
             messages := messages s; unreadCount := unreadCount s;
             lastCheckedTimestamp := lastCheckedTimestamp s |}, w)
    else ({| isOpen := true; newMessage := newMessage s; user := user s;
             isLoginPromptOpen := isLoginPromptOpen s; chatId := chatId s;
             messages := messages s; unreadCount := 0;
             lastCheckedTimestamp := now w |}, w).
Proof.
  intros Hu. unfold handleSupportIconClick, bind, getState; simpl.
  rewrite Hu. by destruct (isOpen s).
Qed.

(** Every step leaves the counter alone, sets it to zero, or adds to it. *)
Lemma step_unreadCount σ σ' :
  step σ σ' → ∃ n : nat, unreadCount σ'.1 = 0 ∨ unreadCount σ'.1 = unreadCount σ.1 + Z.of_nat n.
Proof.
  assert (Hkeep : ∀ a b : Z, a = b → ∃ n : nat, a = 0 ∨ a = b + Z.of_nat n).
  { intros a b ->. exists 0%nat. right. lia. }
  destruct 1 as [[s w]|σ|v σ|σ|σ|u σ|captured docs σ Hu|docs σ Ha
                 |sub changes [s w] Hs Hq|σ w'].
  - destruct (isNull (user s)) eqn:Hu.
    + apply Hkeep. unfold handleSupportIconClick, bind, getState; simpl. by rewrite Hu.
    + rewrite handleSupportIconClick_signed_in by done.
      destruct (isOpen s); simpl; [by apply Hkeep | exists 0%nat; by left].
  - by apply Hkeep.
  - by apply Hkeep.
  - apply Hkeep, (handleSubmit_keeps_unreadCount σ).
  - by apply Hkeep.
  - apply Hkeep, (auth_change_keeps_unreadCount u σ).
  - apply Hkeep, (onChatsSnapshot_keeps_unreadCount captured docs σ).
  - apply Hkeep, (onMessagesSnapshot_keeps_unreadCount docs σ).
  - rewrite onNotificationSnapshot_counts; simpl. eauto.
  - by apply Hkeep.
Qed.

(** Only the toggle opens the widget, and it resets as it opens. *)
Lemma step_opens σ σ' :
  step σ σ' → isOpen σ.1 = false → isOpen σ'.1 = true →
  unreadCount σ'.1 = 0 ∧ lastCheckedTimestamp σ'.1 = now σ.2.
Proof.
  assert (Hkeep : ∀ a : bool, a = false → a = true → ∀ P : Prop, P) by by intros [].
  destruct 1 as [[s w]|σ|v σ|σ|σ|u σ|captured docs σ Hu|docs σ Ha
                 |sub changes σ Hs Hq|σ w']; intros Hc Ho.
  - simpl in Hc. destruct (isNull (user s)) eqn:Hu.
    + revert Ho. unfold handleSupportIconClick, bind, getState; simpl.
      rewrite Hu; simpl. congruence.
    + revert Ho. rewrite handleSupportIconClick_signed_in by done.
      rewrite Hc. done.
  - done.
  - simpl in Ho. congruence.
  - pose proof (handleSubmit_keeps_isOpen σ) as E. simpl in E. congruence.
  - simpl in Ho. congruence.
  - pose proof (auth_change_keeps_isOpen u σ) as E. simpl in E. congruence.
  - pose proof (onChatsSnapshot_keeps_isOpen captured docs σ) as E. simpl in E.
    congruence.
  - pose proof (onMessagesSnapshot_keeps_isOpen docs σ) as E. simpl in E. congruence.
  - pose proof (onNotificationSnapshot_keeps_isOpen changes σ) as E. simpl in E.
    congruence.
  - simpl in Ho. congruence.
Qed.

(** C5. A signed-in click on the toggle of a closed widget sets the
    unread counter to 0 and the cursor to the current time in the step
    that opens the widget; whatever step takes the widget from closed to
    open, the counter is 0 right after it; and the counter is never
    negative in a state the widget can reach. *)
Theorem unread_counter_reset_on_open :
  (∀ s w, isNull (user s) = false → isOpen s = false →
     let s' := (handleSupportIconClick (s, w)).2.1 in
     unreadCount s' = 0 ∧ lastCheckedTimestamp s' = now w ∧ isOpen s' = true)
  ∧ (∀ σ σ', step σ σ' → isOpen σ.1 = false → isOpen σ'.1 = true →
       unreadCount σ'.1 = 0 ∧ lastCheckedTimestamp σ'.1 = now σ.2)
  ∧ (∀ σ, reachable σ → 0 ≤ unreadCount σ.1).
Proof.
  split_and!.
  - intros s w Hu Hc. simpl. rewrite handleSupportIconClick_signed_in by done.
    by rewrite Hc.
  - apply step_opens.
  - intros σ (u & w & Hr).
    apply (rtc_ind_r (R := step) (λ σ, 0 ≤ unreadCount σ.1) (initial u (now w), w));
      [done | | exact Hr].
    intros σ1 σ2 _ Hs IH.
    apply step_unreadCount in Hs as [n [->| ->]]; lia.
Qed.

(** C3. A first message, sent by a signed-in user with no conversation
    resolved and a store that fails nothing, issues four requests in
    this order: create the conversation (status new, last message the
    trimmed text), insert the end-user message, update the conversation,
    insert the auto-reply.  Afterwards the store has exactly one more
    conversation, under a new id, with status new and the sent text as
    last message, and under it exactly two messages: the end-user
    message with the sent text, and the system auto-reply, created
    later. *)
Theorem handleSubmit_first_contact (s : State) (w : World) (u : FirebaseUser) :
  user s = Some u →
  chatId s = None →
  trim (newMessage s) ≠ [] →
  faults w = [] →
  let text := trim (newMessage s) in
  let label := match email u with
               | Some e => if truthy e then e else lit "anonymous"
               | None => lit "anonymous"
               end in
  let t := serverClock w in
  let r := handleSubmit (s, w) in
  ∃ cid m1 m2,
    r.1 = Resolved ()
    ∧ requests r.2.2 = requests w ++
        [ ReqAddChat (uid u) label text Status.new;
          ReqAddMessage cid text Sender.user;
          ReqUpdateChat cid {| p_lastMessage := Some text; p_timestamp := true;
                               p_status := Some Status.new |};
          ReqAddMessage cid autoReplyText Sender.system ]
    ∧ supportChats (db w) !! cid = None
    ∧ messages_of (db w) cid = ∅
    ∧ supportChats (db r.2.2)
      = <[cid := {| d_userId := uid u; d_userEmail := label; d_lastMessage := text;
                    d_timestamp := t + 2; d_status := Status.new |}]>
          (supportChats (db w))
    ∧ size (supportChats (db r.2.2)) = S (size (supportChats (db w)))
    ∧ m1 ≠ m2
    ∧ messages_of (db r.2.2) cid
      = <[m2 := {| m_text := autoReplyText; m_sender := Sender.system;
                   m_timestamp := t + 3 |}]>
          {[ m1 := {| m_text := text; m_sender := Sender.user;
                      m_timestamp := t + 1 |} ]}
    ∧ size (messages_of (db r.2.2) cid) = 2%nat
    ∧ (∀ c, c ≠ cid → messages_of (db r.2.2) c = messages_of (db w) c)
    ∧ chatId r.2.1 = Some cid
    ∧ toasts r.2.2 = toasts w.
Proof.
  intros Hu Hc Hne Hf. destruct w as [d clk fs reqs ts nw]. simpl in Hf. subst fs.
  assert (Htr : truthy (trim (newMessage s)) = true) by by destruct (trim (newMessage s)).
  set (cid := autoId (dom (supportChats d) ∪ dom (messagesCol d))).
  assert (Hnew : cid ∉ dom (supportChats d) ∪ dom (messagesCol d)) by apply autoId_fresh.
  assert (Hfc : supportChats d !! cid = None).
  { apply not_elem_of_dom. intros H. apply Hnew, elem_of_union. by left. }
  assert (Hfm : ∀ supp,
    messages_of {| supportChats := supp; messagesCol := messagesCol d |} cid = ∅).
  { intros supp. unfold messages_of; simpl.
    assert (Hn : messagesCol d !! cid = None).
    { apply not_elem_of_dom. intros H. apply Hnew, elem_of_union. by right. }
    by rewrite Hn. }
  unfold handleSubmit, durableSend. unfold_setters.
  unfold addChat, addMessage, updateChat, send, DateNow, toast, setWorld, setState,
    try_catch, getState, throw, ret, bind; simpl.
  rewrite Htr, Hu, Hc; simpl.
  fold cid. rewrite (autoId_truthy _ : truthy cid = true); simpl.
  rewrite lookup_insert_eq; simpl.
  rewrite !Hfm. rewrite !messages_of_insert, !decide_True by done.
  rewrite insert_empty.
  set (usr := {| m_text := trim (newMessage s); m_sender := Sender.user;
                 m_timestamp := clk + 1 |}).
  set (m1 := autoId (dom (∅ : gmap jsstring MessageDoc))).
  set (m2 := autoId (dom ({[ m1 := usr ]} : gmap jsstring MessageDoc))).
  assert (Hm2 : ({[ m1 := usr ]} : gmap jsstring MessageDoc) !! m2 = None).
  { apply not_elem_of_dom, autoId_fresh. }
  exists cid, m1, m2. split_and!.
  - done.
  - by rewrite <- !app_assoc.
  - done.
  - apply (Hfm (supportChats d)).
  - rewrite insert_insert_eq. unfold apply_patch; simpl.
    by replace (clk + 1 + 1) with (clk + 2) by lia.
  - rewrite insert_insert_eq. by apply map_size_insert_None.
  - intros Heq. rewrite <- Heq in Hm2. by rewrite lookup_singleton_eq in Hm2.
  - unfold messages_of; simpl. rewrite lookup_insert_eq; simpl.
    by replace (clk + 1 + 1 + 1) with (clk + 3) by lia.
  - unfold messages_of; simpl. rewrite lookup_insert_eq; simpl.
    rewrite map_size_insert_None by done. by rewrite map_size_singleton.
  - intros c Hne'. unfold messages_of; simpl.
    by rewrite !lookup_insert_ne.
  - done.
  - done.
Qed.

Lemma durableSend_keeps_toasts u c text isNew :
  keeps (λ σ, toasts σ.2) (durableSend u c text isNew).
Proof. unfold durableSend, addChat, addMessage, updateChat. unfold_setters. frame. Qed.

Lemma revert_first_contact (tu sys : ChatMessage.t) :
  revert tu (Some sys) [tu; sys] = [].
Proof.
  unfold revert; simpl. rewrite decide_True by done.
  destruct (decide (ChatMessage.id sys = ChatMessage.id tu)); [done |].
  by rewrite decide_True.
Qed.

Lemma revert_appended (tu : ChatMessage.t) (L : list ChatMessage.t) :
  Forall (λ m, ChatMessage.id m ≠ ChatMessage.id tu) L →
  revert tu None (L ++ [tu]) = L.
Proof.
  intros HL. unfold revert. rewrite List.filter_app; simpl.
  rewrite decide_True by done. rewrite app_nil_r.
  induction HL as [|m L Hm _ IH]; simpl; [done |].
  rewrite decide_False by done. by rewrite IH.
Qed.

(** A valid submission is the optimistic update followed by the guarded
    durable part. *)
Lemma handleSubmit_valid (s : State) (w : World) (u : FirebaseUser) :
  user s = Some u →
  trim (newMessage s) ≠ [] →
  let isNewChat := negb (truthy_opt (chatId s)) in
  let tempUserMessage :=
    ChatMessage.mk (lit "temp-" ++ decimal (now w)) (trim (newMessage s))
      Sender.user (now w) in
  let sys :=
    ChatMessage.mk (lit "temp-" ++ decimal (now w + 1)) autoReplyText
      Sender.system (now w) in
  handleSubmit (s, w)
  = try_catch
      (durableSend u (chatId s) (trim (newMessage s)) isNewChat)
      (toast (ToastError (lit "Failed to send message.")) ;;;
       setMessages (revert tempUserMessage (if isNewChat then Some sys else None)))%async
      ({| isOpen := isOpen s; newMessage := []; user := user s;
          isLoginPromptOpen := isLoginPromptOpen s; chatId := chatId s;
          messages := if isNewChat then [tempUserMessage; sys]
                      else messages s ++ [tempUserMessage];
          unreadCount := unreadCount s;
          lastCheckedTimestamp := lastCheckedTimestamp s |}, w).
Proof.
  intros Hu Htxt isNewChat tempUserMessage sys.
  assert (Htr : truthy (trim (newMessage s)) = true) by by destruct (trim (newMessage s)).
  match goal with |- _ = ?R => set (rhs := R) end.
  unfold handleSubmit. unfold bind at 1. unfold getState at 1.
  cbv beta iota zeta. cbn [fst snd]. rewrite Htr, Hu. cbn [negb orb isNull].
  subst rhs isNewChat. destruct (truthy_opt (chatId s)); reflexivity.
Qed.

(** The send of a user who has a conversation: either the durable part
    goes through and the new entry stays at the end of the list, or the
    failure notice is raised and the list is the one before the send,
    provided no entry of it carries the temporary id. *)
Lemma handleSubmit_rollback_existing_chat (s : State) (w : World)
    (u : FirebaseUser) (c : jsstring) :
  user s = Some u →
  chatId s = Some c → c ≠ [] →
  trim (newMessage s) ≠ [] →
  Forall (λ m, ChatMessage.id m ≠ lit "temp-" ++ decimal (now w)) (messages s) →
  let r := handleSubmit (s, w) in
  let tempUserMessage :=
    ChatMessage.mk (lit "temp-" ++ decimal (now w)) (trim (newMessage s))
      Sender.user (now w) in
  (messages r.2.1 = messages s ++ [tempUserMessage] ∧ toasts r.2.2 = toasts w)
  ∨ (messages r.2.1 = messages s
     ∧ toasts r.2.2 = toasts w ++ [ToastError (lit "Failed to send message.")]).
Proof.
  intros Hu Hc Hne Htxt HL r tu. subst r.
  assert (Hcid : truthy_opt (chatId s) = true) by (rewrite Hc; by destruct c).
  rewrite (handleSubmit_valid s w u) by done. rewrite Hcid. cbn [negb].
  unfold try_catch.
  match goal with
  | |- context [durableSend ?a ?b ?t ?n ?σ] =>
      pose proof (durableSend_keeps_messages a b t n σ) as Hm;
      pose proof (durableSend_keeps_toasts a b t n σ) as Ht;
      destruct (durableSend a b t n σ) as [[[]|] [s2 w2]]
  end; cbn [fst snd messages toasts] in Hm, Ht.
  - left. split; [exact Hm | exact Ht].
  - right. unfold bind, toast, setWorld, setMessages, setState.
    cbn [fst snd messages toasts]. rewrite Hm, Ht. split; [| done].
    by apply revert_appended.
Qed.

(** The first-contact send: the two optimistic entries replace the list,
    whatever it held; when the durable part fails the revert removes
    both and the list is left empty. *)
Lemma handleSubmit_rollback_first_contact (s : State) (w : World) (u : FirebaseUser) :
  user s = Some u →
  chatId s = None →
  trim (newMessage s) ≠ [] →
  let r := handleSubmit (s, w) in
  let tempUserMessage :=
    ChatMessage.mk (lit "temp-" ++ decimal (now w)) (trim (newMessage s))
      Sender.user (now w) in
  let tempSystemMessage :=
    ChatMessage.mk (lit "temp-" ++ decimal (now w + 1)) autoReplyText
      Sender.system (now w) in
  (messages r.2.1 = [tempUserMessage; tempSystemMessage] ∧ toasts r.2.2 = toasts w)
  ∨ (messages r.2.1 = []
     ∧ toasts r.2.2 = toasts w ++ [ToastError (lit "Failed to send message.")]).
Proof.
  intros Hu Hc Htxt r tu sys. subst r.
  rewrite (handleSubmit_valid s w u) by done. rewrite Hc. cbn [negb truthy_opt].
  unfold try_catch.
  match goal with
  | |- context [durableSend ?a ?b ?t ?n ?σ] =>
      pose proof (durableSend_keeps_messages a b t n σ) as Hm;
      pose proof (durableSend_keeps_toasts a b t n σ) as Ht;
      destruct (durableSend a b t n σ) as [[[]|] [s2 w2]]
  end; cbn [fst snd messages toasts] in Hm, Ht.
  - left. split; [exact Hm | exact Ht].
  - right. unfold bind, toast, setWorld, setMessages, setState.
    cbn [fst snd messages toasts]. rewrite Hm, Ht. split; [| done].
    apply revert_first_contact.
Qed.

(** C2, where the code departs from it.  The greeting is on display, no
    conversation exists, the user sends [Hi] and the store rejects the
    creation of the conversation: the failure notice is raised, nothing
    was written, and the list is empty, not the greeting it held before
    the send. *)
Theorem handleSubmit_rollback_drops_greeting :
  let s := widget0 (lit "Hi") in
  let w := world0 [true] in
  let r := handleSubmit (s, w) in
  messages s = [welcomeMsg 900]
  ∧ toasts r.2.2 = [ToastError (lit "Failed to send message.")]
  ∧ db r.2.2 = db w
  ∧ messages r.2.1 = []
  ∧ messages r.2.1 ≠ messages s.
Proof. vm_compute. by split_and!. Qed.

(** The closed sample widget receives the owner's own message and an
    operator reply: the counter goes from 2 to 3. *)
Lemma onChange_counts_operator_only_witness :
  let s := widget1 [] in
  let sub := {| sub_chat := lit "c1"; sub_after := 900 |} in
  let changes := [ {| change_type := added; change_doc := own_message |};
                   {| change_type := added; change_doc := agent_reply |} ] in
  effect3 s = Some sub
  ∧ in_query sub agent_reply = true
  ∧ unreadCount
      (onChange {| change_type := added; change_doc := agent_reply |} (s, world1 [])).2.1
    = 3
  ∧ unreadCount (onNotificationSnapshot changes (s, world1 [])).2.1 = 3.
Proof.
  intros s sub changes.
  assert (H1 : effect3 s = Some sub) by reflexivity.
  assert (H2 : in_query sub agent_reply = true) by reflexivity.
  assert (H3 : Forall (λ c, in_query sub (change_doc c) = true) changes)
    by (repeat constructor).
  pose proof (onChange_counts_operator_only s (world1 []) sub agent_reply changes
                H1 H2 H3) as (Hadmin & _ & _ & _ & Hsnap & _).
  split_and!; [exact H1 | exact H2 | apply Hadmin; reflexivity | exact Hsnap].
Defined.

(** Three blanks submitted by a signed-in user, and a text submitted with
    nobody signed in. *)
Lemma handleSubmit_ignores_invalid_witness :
  whitespace_only (lit "   ")
  ∧ handleSubmit (widget0 (lit "   "), world0 [])
    = (Resolved (), (widget0 (lit "   "), world0 []))
  ∧ user widget_open_signed_out = None
  ∧ handleSubmit (widget_open_signed_out, world0 [])
    = (Resolved (), (widget_open_signed_out, world0 [])).
Proof.
  assert (H : whitespace_only (lit "   ")) by (repeat constructor).
  split_and!; [exact H | | reflexivity | ].
  - apply (handleSubmit_ignores_invalid (widget0 (lit "   ")) (world0 [])).
    left. exact H.
  - apply (handleSubmit_ignores_invalid widget_open_signed_out (world0 [])).
    right. reflexivity.
Defined.

(** A click on the toggle of the closed widget with nobody signed in. *)
Lemma handleSupportIconClick_signed_out_witness :
  let σ' := (handleSupportIconClick (widget_signed_out, world0 [])).2 in
  user widget_signed_out = None
  ∧ isLoginPromptOpen σ'.1 = true
  ∧ isOpen σ'.1 = false
  ∧ unreadCount σ'.1 = 2
  ∧ lastCheckedTimestamp σ'.1 = 900.
Proof.
  intros σ'.
  pose proof (handleSupportIconClick_signed_out widget_signed_out (world0 []))
    as (Hout & _).
  destruct (Hout eq_refl) as (Heq & Hclosed).
  split_and!; [reflexivity | | apply Hclosed; reflexivity | | ];
    subst σ'; rewrite Heq; reflexivity.
Defined.

(** The owner of the sample conversation opens the widget with two unread
    replies. *)
Lemma unread_counter_reset_on_open_witness :
  let σ := (widget1 [], world1 []) in
  let σ' := (handleSupportIconClick σ).2 in
  isNull (user σ.1) = false
  ∧ isOpen σ.1 = false
  ∧ step σ σ'
  ∧ isOpen σ'.1 = true
  ∧ unreadCount σ'.1 = 0
  ∧ lastCheckedTimestamp σ'.1 = 1000
  ∧ reachable (handleSupportIconClick (initial (Some ann) 1000, world1 [])).2
  ∧ 0 ≤ unreadCount (handleSupportIconClick (initial (Some ann) 1000, world1 [])).2.1.
Proof.
  intros σ σ'.
  pose proof unread_counter_reset_on_open as (Hclick & Hstep & Hreach).
  assert (Hs : step σ σ') by apply step_icon.
  assert (Hr : reachable (handleSupportIconClick (initial (Some ann) 1000, world1 [])).2).
  { exists (Some ann), (world1 []). eapply rtc_l; [apply step_icon | apply rtc_refl]. }
  destruct (Hclick (widget1 []) (world1 []) eq_refl eq_refl) as (Hc0 & Hcur & Hopen).
  destruct (Hstep σ σ' Hs eq_refl Hopen) as (Hzero & _).
  split_and!; [reflexivity | reflexivity | exact Hs | exact Hopen | exact Hzero
              | exact Hcur | exact Hr | exact (Hreach _ Hr)].
Defined.

(** The scenario of the first contact: [Hi], typed with blanks around it,
    sent into an empty store. *)
Lemma handleSubmit_first_contact_witness :
  let s := widget0 (lit " Hi ") in
  let r := handleSubmit (s, world0 []) in
  user s = Some ann
  ∧ chatId s = None
  ∧ trim (newMessage s) ≠ []
  ∧ faults (world0 []) = []
  ∧ ∃ cid m1 m2,
      requests r.2.2
      = [ ReqAddChat (lit "u1") (lit "ann@example.org") (lit "Hi") Status.new;
          ReqAddMessage cid (lit "Hi") Sender.user;
          ReqUpdateChat cid {| p_lastMessage := Some (lit "Hi"); p_timestamp := true;
                               p_status := Some Status.new |};
          ReqAddMessage cid autoReplyText Sender.system ]
      ∧ size (supportChats (db r.2.2)) = 1%nat
      ∧ m1 ≠ m2
      ∧ messages_of (db r.2.2) cid
        = <[m2 := {| m_text := autoReplyText; m_sender := Sender.system;
                     m_timestamp := 4 |}]>
            {[ m1 := {| m_text := lit "Hi"; m_sender := Sender.user;
                        m_timestamp := 2 |} ]}.
Proof.
  intros s r.
  assert (H3 : trim (newMessage s) ≠ []) by (vm_compute; discriminate).
  destruct (handleSubmit_first_contact s (world0 []) ann eq_refl eq_refl H3 eq_refl)
    as (cid & m1 & m2 & _ & Hreq & _ & _ & _ & Hsize & Hne & Hmsgs & _).
  split_and!; [reflexivity | reflexivity | exact H3 | reflexivity |].
  exists cid, m1, m2. split_and!; [exact Hreq | exact Hsize | exact Hne | exact Hmsgs].
Defined.
End Widget.

(** ** The widget over its life *)

Section WidgetLife.
Import SupportWidget.




End WidgetLife.

(** ** The send pipeline beyond the first contact *)

Section SendPipeline.
Import SupportWidget.

Ltac run_submit :=
  unfold handleSubmit, durableSend;
  unfold setIsOpen, setNewMessage, setIsLoginPromptOpen, setChatId, setMessages,
    setUnreadCount, setLastCheckedTimestamp, setUser;
  unfold addChat, addMessage, updateChat, send, DateNow, toast, setWorld, setState,
    try_catch, getState, throw, ret, bind; simpl.

(** X4. A message sent into an existing conversation, with a store that
    fails nothing, issues the insert of the end-user message and the
    update of the conversation and nothing else (no conversation is
    created, no auto-reply is written); afterwards the conversation holds
    one more message, its last message is the trimmed text and its status
    is new again, whatever it was. *)
Theorem handleSubmit_existing_chat (s : State) (w : World) (u : FirebaseUser)
    (c : jsstring) (doc : ChatDoc) :
  user s = Some u →
  chatId s = Some c → c ≠ [] →
  trim (newMessage s) ≠ [] →
  faults w = [] →
  supportChats (db w) !! c = Some doc →
  let text := trim (newMessage s) in
  let r := handleSubmit (s, w) in
  let mid := autoId (dom (messages_of (db w) c)) in
  r.1 = Resolved ()
  ∧ requests r.2.2 = requests w ++
      [ ReqAddMessage c text Sender.user;
        ReqUpdateChat c {| p_lastMessage := Some text; p_timestamp := true;
                           p_status := Some Status.new |} ]
  ∧ messages_of (db w) c !! mid = None
  ∧ messages_of (db r.2.2) c
    = <[mid := {| m_text := text; m_sender := Sender.user;
                  m_timestamp := serverClock w |}]> (messages_of (db w) c)
  ∧ supportChats (db r.2.2)
    = <[c := {| d_userId := d_userId doc; d_userEmail := d_userEmail doc;
                d_lastMessage := text; d_timestamp := serverClock w + 1;
                d_status := Status.new |}]> (supportChats (db w))
  ∧ chatId r.2.1 = Some c
  ∧ toasts r.2.2 = toasts w.
Proof.
  intros Hu Hc Hne Htxt Hf Hd. destruct w as [d clk fs reqs ts nw].
  simpl in Hf, Hd. subst fs.
  assert (Htr : truthy (trim (newMessage s)) = true) by by destruct (trim (newMessage s)).
  assert (Hcid : truthy c = true) by by destruct c.
  assert (Hfresh : messages_of d c !! autoId (dom (messages_of d c)) = None).
  { apply not_elem_of_dom, autoId_fresh. }
  run_submit. rewrite Htr, Hu, Hc; simpl. repeat (rewrite Hcid; simpl).
  rewrite Hd; simpl.
  split_and!; try done.
  - by rewrite <- app_assoc.
  - unfold messages_of at 1; simpl. by rewrite lookup_insert_eq.
Qed.

(** X5. The requests of one send are all issued before any of them is
    awaited: a send into an existing conversation always issues both the
    message insert and the conversation update.  So when the store
    rejects the insert and accepts the update, no message is stored, yet
    the conversation record carries the unsent text as last message and
    status new, and the user sees the failure notice. *)
Theorem handleSubmit_update_survives_failed_insert (s : State) (w : World)
    (u : FirebaseUser) (c : jsstring) :
  user s = Some u →
  chatId s = Some c → c ≠ [] →
  trim (newMessage s) ≠ [] →
  let text := trim (newMessage s) in
  let r := handleSubmit (s, w) in
  requests r.2.2 = requests w ++
    [ ReqAddMessage c text Sender.user;
      ReqUpdateChat c {| p_lastMessage := Some text; p_timestamp := true;
                         p_status := Some Status.new |} ]
  ∧ (∀ fs doc, faults w = true :: false :: fs →
       supportChats (db w) !! c = Some doc →
       messagesCol (db r.2.2) = messagesCol (db w)
       ∧ supportChats (db r.2.2) !! c
         = Some {| d_userId := d_userId doc; d_userEmail := d_userEmail doc;
                   d_lastMessage := text; d_timestamp := serverClock w;
                   d_status := Status.new |}
       ∧ toasts r.2.2 = toasts w ++ [ToastError (lit "Failed to send message.")]).
Proof.
  intros Hu Hc Hne Htxt. destruct w as [d clk fs reqs ts nw].
  assert (Htr : truthy (trim (newMessage s)) = true) by by destruct (trim (newMessage s)).
  assert (Hcid : truthy c = true) by by destruct c.
  run_submit. rewrite Htr, Hu, Hc; simpl. repeat (rewrite Hcid; simpl).
  split.
  - destruct fs as [|[] [|[] fs]]; simpl;
      destruct (supportChats d !! c) as [doc|]; simpl; by rewrite <- app_assoc.
  - intros fs' doc -> Hd; simpl. rewrite Hd; simpl.
    split_and!; [done | by rewrite lookup_insert_eq | done].
Qed.

(** X6. The conversation id adopted on first contact is not rolled back.
    When the store rejects the creation of the conversation, nothing is
    written and no id is resolved; once the creation went through, the
    widget holds the new id and the conversation record exists, also when
    every later write of the same send is rejected (the record then has
    no message under it while the list shown is empty). *)
Theorem handleSubmit_adopts_created_chat (s : State) (w : World) (u : FirebaseUser) :
  user s = Some u →
  chatId s = None →
  trim (newMessage s) ≠ [] →
  let r := handleSubmit (s, w) in
  let cid := autoId (dom (supportChats (db w)) ∪ dom (messagesCol (db w))) in
  (head (faults w) = Some true →
     chatId r.2.1 = None ∧ db r.2.2 = db w ∧ length (requests r.2.2) = S (length (requests w)))
  ∧ (head (faults w) ≠ Some true →
     chatId r.2.1 = Some cid
     ∧ is_Some (supportChats (db r.2.2) !! cid)
     ∧ length (requests r.2.2) = (length (requests w) + 4)%nat)
  ∧ (∀ fs, faults w = false :: true :: true :: true :: fs →
     messages_of (db r.2.2) cid = ∅
     ∧ messages r.2.1 = []
     ∧ toasts r.2.2 = toasts w ++ [ToastError (lit "Failed to send message.")]).
Proof.
  intros Hu Hc Htxt. destruct w as [d clk fs reqs ts nw].
  assert (Htr : truthy (trim (newMessage s)) = true) by by destruct (trim (newMessage s)).
  set (cid := autoId (dom (supportChats d) ∪ dom (messagesCol d))).
  assert (Hnew : cid ∉ dom (supportChats d) ∪ dom (messagesCol d)) by apply autoId_fresh.
  assert (Hfm : ∀ supp,
    messages_of {| supportChats := supp; messagesCol := messagesCol d |} cid = ∅).
  { intros supp. unfold messages_of; simpl.
    assert (Hn : messagesCol d !! cid = None).
    { apply not_elem_of_dom. intros H. apply Hnew, elem_of_union. by right. }
    by rewrite Hn. }
  run_submit. rewrite Htr, Hu, Hc; simpl. fold cid.
  split_and!.
  - destruct fs as [|[] fs]; simpl; [done | | done]. intros _.
    split_and!; [done | done |]. rewrite length_app; simpl. lia.
  - intros Hok.
    assert (Hlen : ∀ (a b e f : Request),
      length ((((reqs ++ [a]) ++ [b]) ++ [e]) ++ [f]) = (length reqs + 4)%nat).
    { intros. rewrite !length_app; simpl. lia. }
    destruct fs as [|[] fs]; simpl; [| done |];
      rewrite (autoId_truthy _ : truthy cid = true); simpl;
      try (destruct fs as [|[] fs]; simpl);
      rewrite ?lookup_insert_eq; simpl;
      try (destruct fs as [|[] fs]; simpl);
      rewrite ?lookup_insert_eq; simpl;
      try (destruct fs as [|[] fs]; simpl);
      rewrite ?lookup_insert_eq; simpl;
      (split_and!; [done | rewrite ?lookup_insert_eq; by eexists | apply Hlen]).
  - intros fs' ->; simpl. rewrite (autoId_truthy _ : truthy cid = true); simpl.
    split_and!; [apply Hfm | | done].
    exact (revert_first_contact
             (ChatMessage.mk (lit "temp-" ++ decimal nw) (trim (newMessage s))
                Sender.user nw)
             (ChatMessage.mk (lit "temp-" ++ decimal (nw + 1)) autoReplyText
                Sender.system nw)).
Qed.
Lemma durableSend_among_alone (u : FirebaseUser) (c : option jsstring) (text : jsstring)
    (isNewChat : bool) (σ : State * World) :
  durableSend_among (ret ()) (ret ()) u c text isNewChat σ
  = durableSend u c text isNewChat σ.
Proof.
  cbv beta iota zeta delta [durableSend_among durableSend bind suspended ret fst snd].
  destruct (negb (truthy_opt c)).
  - match goal with |- context [addChat ?a ?b ?e ?f σ] =>
      destruct (addChat a b e f σ) as [[cid|] σ1]; [| done] end.
    destruct (setChatId (Some cid) σ1) as [[[]|] σ2]; [| done].
    destruct (negb (truthy_opt (Some cid))); [done |].
    match goal with |- context [promise_all ?l σ2] =>
      by destruct (promise_all l σ2) end.
  - destruct (negb (truthy_opt c)); [done |].
    destruct c as [c|]; [| done].
    match goal with |- context [promise_all ?l σ] =>
      by destruct (promise_all l σ) end.
Qed.

(** X1. A sign-out that lands while the first message of a user is
    still creating the conversation does not stop the send.  The
    sign-out itself leaves the widget without a conversation id and
    without messages; but the handler, once the creation has gone
    through, adopts the id of the new conversation without looking at the
    user again and issues the remaining writes.  The widget ends with
    nobody signed in and the id of the conversation of the user who left,
    an empty list of messages, and the message stream subscribed if it is
    open, the notification watcher if it is closed. *)
Theorem sign_out_during_first_send (s : State) (w : World) (u : FirebaseUser) :
  user s = Some u →
  chatId s = None →
  trim (newMessage s) ≠ [] →
  head (faults w) ≠ Some true →
  let signOut := (setUser None ;;; effect1)%async in
  let r := handleSubmit_among signOut (ret ()) (s, w) in
  let cid := autoId (dom (supportChats (db w)) ∪ dom (messagesCol (db w))) in
  (∀ σ, user (signOut σ).2.1 = None
        ∧ chatId (signOut σ).2.1 = None ∧ messages (signOut σ).2.1 = [])
  ∧ user r.2.1 = None
  ∧ chatId r.2.1 = Some cid
  ∧ messages r.2.1 = []
  ∧ effect2_active r.2.1 = isOpen s
  ∧ (isOpen s = false →
     effect3 r.2.1 = Some {| sub_chat := cid; sub_after := lastCheckedTimestamp s |})
  ∧ (∃ doc, supportChats (db r.2.2) !! cid = Some doc ∧ d_userId doc = uid u)
  ∧ length (requests r.2.2) = (length (requests w) + 4)%nat
  ∧ (∀ σ, handleSubmit_among (ret ()) (ret ()) σ = handleSubmit σ).
Proof.
  intros Hu Hc Htxt Hok. destruct w as [d clk fs reqs ts nw].
  assert (Htr : truthy (trim (newMessage s)) = true) by by destruct (trim (newMessage s)).
  set (cid := autoId (dom (supportChats d) ∪ dom (messagesCol d))).
  assert (Hcid : truthy cid = true) by apply autoId_truthy.
  assert (Hlen : ∀ (a b e f : Request),
    length ((((reqs ++ [a]) ++ [b]) ++ [e]) ++ [f]) = (length reqs + 4)%nat).
  { intros. rewrite !length_app; simpl. lia. }
  split_and!.
  1: { intros [s0 w0]. by unfold bind, setUser, setState, effect1, getState, setChatId,
         setMessages; simpl. }
  8: { intros [s0 w0].
       cbv beta iota zeta delta [handleSubmit_among handleSubmit bind try_catch].
       repeat first [ reflexivity
                    | rewrite durableSend_among_alone
                    | case_match ]. }
  all: unfold handleSubmit_among, durableSend_among, suspended, effect1;
    unfold setIsOpen, setNewMessage, setIsLoginPromptOpen, setChatId, setMessages,
      setUnreadCount, setLastCheckedTimestamp, setUser;
    unfold addChat, addMessage, updateChat, send, DateNow, toast, setWorld, setState,
      try_catch, getState, throw, ret, bind; simpl;
    rewrite Htr, Hu, Hc; simpl; fold cid;
    (destruct fs as [|[] fs]; simpl; [| by destruct Hok |]);
    rewrite Hcid; simpl;
    try (destruct fs as [|[] fs]; simpl);
    rewrite ?lookup_insert_eq; simpl;
    try (destruct fs as [|[] fs]; simpl);
    rewrite ?lookup_insert_eq; simpl;
    try (destruct fs as [|[] fs]; simpl);
    rewrite ?lookup_insert_eq; simpl.
  all: try done.
  all: try (unfold effect2_active; simpl; rewrite Hcid; simpl; by destruct (isOpen s)).
  all: try (intros Ho; unfold effect3; simpl; rewrite Ho, Hcid; done).
  all: try (by eexists).
  all: apply Hlen.
Qed.
End SendPipeline.

(** ** Strings, continued *)

Lemma trimStart_idem (s : jsstring) : trimStart (trimStart s) = trimStart s.
Proof.
  induction s as [|c s IH]; simpl; [done |].
  destruct (isWhiteSpace c) eqn:Hc; [done |]. simpl. by rewrite Hc.
Qed.

Lemma trimStart_snoc (l : jsstring) (c : N) :
  isWhiteSpace c = false → trimStart (l ++ [c]) = trimStart l ++ [c].
Proof.
  intros Hc. induction l as [|a l IH]; simpl; [by rewrite Hc |].
  by destruct (isWhiteSpace a).
Qed.

Lemma trimEnd_cons (c : N) (r : jsstring) :
  isWhiteSpace c = false → trimEnd (c :: r) = c :: trimEnd r.
Proof.
  intros Hc. unfold trimEnd; simpl. rewrite trimStart_snoc by done.
  by rewrite rev_unit.
Qed.

Lemma trimEnd_idem (r : jsstring) : trimEnd (trimEnd r) = trimEnd r.
Proof. unfold trimEnd. by rewrite rev_involutive, trimStart_idem. Qed.

(** Trimming twice is trimming once. *)
Lemma trim_idem (s : jsstring) : trim (trim s) = trim s.
Proof.
  unfold trim at 2 3. destruct (trimStart s) as [|c r] eqn:E; [reflexivity |].
  apply trimStart_head in E. rewrite trimEnd_cons by done.
  unfold trim. cbn [trimStart]. rewrite E.
  rewrite trimEnd_cons by done. by rewrite trimEnd_idem.
Qed.

Lemma includes_nil (s : jsstring) : includes s [] = true.
Proof. by destruct s. Qed.

(** ** Course management *)

Section Courses.
Import CourseManagement.

Ltac run_courses :=
  unfold handleSaveCourse, handleEdit, resetForm, deleteAction, setFormData,
    setEditingCourse, addCourse, updateCourse, deleteCourse, call, setUI, getUI;
  unfold toast, setWorld, setState, try_catch, getState, throw, ret, bind; simpl.

(** X7. A course form whose title or video URL is empty or white space
    only is not saved: the only effect is the notice that both are
    required; no request reaches the store and the form, the course being
    edited and the collections stay as they are. *)
Theorem handleSaveCourse_requires_title_and_video (s : State) (b : Backend) (w : World) :
  whitespace_only (title (formData s)) ∨ whitespace_only (videoUrl (formData s)) →
  handleSaveCourse ((s, b), w)
  = (Resolved (),
     ((s, b),
      {| db := db w; serverClock := serverClock w; faults := faults w;
         requests := requests w;
         toasts := toasts w ++
           [ToastError (lit "Course Title and YouTube Video URL are required.")];
         now := now w |})).
Proof.
  intros H. run_courses.
  destruct H as [H|H]; apply truthy_trim_false in H; rewrite H; simpl;
    [by rewrite orb_true_r | done].
Qed.

(** X8. Adding a course with a store that accepts the write stores
    exactly one new document, under an id not in use before, with the
    title, video URL and notes URL trimmed (trimming them again changes
    nothing), the category as chosen and the server time as creation
    time; the form is reset to its defaults and success is reported. *)
Theorem handleSaveCourse_adds_trimmed (s : State) (b : Backend) (w : World) :
  editingCourse s = None →
  trim (title (formData s)) ≠ [] →
  trim (videoUrl (formData s)) ≠ [] →
  head (faults w) ≠ Some true →
  let r := handleSaveCourse ((s, b), w) in
  let id := autoId (dom (coursesCol b)) in
  let doc := {| c_title := trim (title (formData s));
                c_category := category (formData s);
                c_videoUrl := trim (videoUrl (formData s));
                c_notesUrl := trim (notesUrl (formData s));
                c_createdAt := serverClock w |} in
  coursesCol b !! id = None
  ∧ coursesCol r.2.1.2 = <[id := doc]> (coursesCol b)
  ∧ size (coursesCol r.2.1.2) = S (size (coursesCol b))
  ∧ (trim (c_title doc) = c_title doc ∧ trim (c_videoUrl doc) = c_videoUrl doc
     ∧ trim (c_notesUrl doc) = c_notesUrl doc)
  ∧ siteContent r.2.1.2 = siteContent b
  ∧ formData r.2.1.1 = emptyForm
  ∧ editingCourse r.2.1.1 = None
  ∧ toasts r.2.2 = toasts w ++ [ToastSuccess (lit "Course added successfully")].
Proof.
  intros He Ht Hv Hf. destruct w as [d clk fs reqs ts nw].
  assert (Htt : truthy (trim (title (formData s))) = true)
    by by destruct (trim (title (formData s))).
  assert (Htv : truthy (trim (videoUrl (formData s))) = true)
    by by destruct (trim (videoUrl (formData s))).
  assert (Hfresh : coursesCol b !! autoId (dom (coursesCol b)) = None).
  { apply not_elem_of_dom, autoId_fresh. }
  run_courses. rewrite Htt, Htv, He; simpl.
  destruct fs as [|[] fs]; simpl; try (by destruct Hf);
    (split_and!; try done; try apply trim_idem; by apply map_size_insert_None).
Qed.

(** X9. Saving the form while a course is being edited rewrites that
    course and no other: title, category, video URL and notes URL come
    from the form, the creation time is the one stored before, and the
    set of course ids does not change.  If the course no longer exists,
    or the store rejects the write, nothing is stored, the failure is
    reported and the form keeps what was typed and stays in edit mode. *)
Theorem handleSaveCourse_updates_in_place (s : State) (b : Backend) (w : World)
    (editing : Course.t) :
  editingCourse s = Some editing →
  trim (title (formData s)) ≠ [] →
  trim (videoUrl (formData s)) ≠ [] →
  let r := handleSaveCourse ((s, b), w) in
  let id := Course.id editing in
  (∀ old, head (faults w) ≠ Some true → coursesCol b !! id = Some old →
     coursesCol r.2.1.2
     = <[id := {| c_title := trim (title (formData s));
                  c_category := category (formData s);
                  c_videoUrl := trim (videoUrl (formData s));
                  c_notesUrl := trim (notesUrl (formData s));
                  c_createdAt := c_createdAt old |}]> (coursesCol b)
     ∧ dom (coursesCol r.2.1.2) = dom (coursesCol b)
     ∧ formData r.2.1.1 = emptyForm
     ∧ editingCourse r.2.1.1 = None
     ∧ toasts r.2.2 = toasts w ++ [ToastSuccess (lit "Course updated successfully")])
  ∧ (head (faults w) = Some true ∨ coursesCol b !! id = None →
     r.2.1 = (s, b)
     ∧ toasts r.2.2 = toasts w ++ [ToastError (lit "Failed to save course data.")]).
Proof.
  intros He Ht Hv. destruct w as [d clk fs reqs ts nw].
  assert (Htt : truthy (trim (title (formData s))) = true)
    by by destruct (trim (title (formData s))).
  assert (Htv : truthy (trim (videoUrl (formData s))) = true)
    by by destruct (trim (videoUrl (formData s))).
  run_courses. rewrite Htt, Htv, He; simpl. split.
  - intros old Hf Hold. rewrite Hold.
    destruct fs as [|[] fs]; simpl; try (by destruct Hf);
      (split_and!; try done; apply dom_insert_lookup_L; by eexists).
  - intros H. destruct fs as [|[] fs]; simpl; try done;
      destruct H as [H|H]; try done; by rewrite H.
Qed.

(** X10. Opening a listed course for editing and saving it unchanged
    leaves the collection as it was, provided the stored title, video URL
    and notes URL carry no white space around them (as every course saved
    through the form does) and title and video URL are not empty. *)
Theorem edit_then_save_is_identity (s : State) (b : Backend) (w : World)
    (id : jsstring) (d : CourseDoc) :
  coursesCol b !! id = Some d →
  trim (c_title d) = c_title d →
  trim (c_videoUrl d) = c_videoUrl d →
  trim (c_notesUrl d) = c_notesUrl d →
  c_title d ≠ [] → c_videoUrl d ≠ [] →
  head (faults w) ≠ Some true →
  let r := (handleEdit (listedCourse id d) ;;; handleSaveCourse)%async ((s, b), w) in
  r.2.1.2 = b
  ∧ formData r.2.1.1 = emptyForm
  ∧ editingCourse r.2.1.1 = None
  ∧ toasts r.2.2 = toasts w ++ [ToastSuccess (lit "Course updated successfully")].
Proof.
  intros Hd Ht Hv Hn Hte Hve Hf. destruct w as [dd clk fs reqs ts nw].
  assert (Hnotes : (if truthy (c_notesUrl d) then c_notesUrl d else []) = c_notesUrl d)
    by by destruct (c_notesUrl d).
  assert (Htt : truthy (trim (c_title d)) = true) by (rewrite Ht; by destruct (c_title d)).
  assert (Htv : truthy (trim (c_videoUrl d)) = true)
    by (rewrite Hv; by destruct (c_videoUrl d)).
  run_courses. rewrite Hnotes, Htt, Htv; simpl. rewrite Hd, Ht, Hv, Hn.
  assert (Hid : {| coursesCol :=
                     <[id := {| c_title := c_title d; c_category := c_category d;
                                c_videoUrl := c_videoUrl d; c_notesUrl := c_notesUrl d;
                                c_createdAt := c_createdAt d |}]> (coursesCol b);
                   siteContent := siteContent b |} = b).
  { destruct b as [cc sc]; simpl in *. f_equal. apply insert_id.
    rewrite Hd. by destruct d. }
  destruct fs as [|[] fs]; simpl; try (by destruct Hf); by rewrite Hid.
Qed.
(** X27. Deleting a course removes that course and no other, and
    succeeds whether or not the course exists; a rejected delete changes
    nothing and reports the failure.  The form and the site content are
    not touched.  So a course added through the form and deleted again
    leaves the collection as it was. *)
Theorem deleteAction_removes_one (id : jsstring) (s : State) (b : Backend) (w : World) :
  let r := deleteAction id ((s, b), w) in
  (head (faults w) ≠ Some true →
     coursesCol r.2.1.2 = delete id (coursesCol b)
     ∧ toasts r.2.2 = toasts w ++ [ToastSuccess (lit "Course deleted")])
  ∧ (head (faults w) = Some true →
     r.2.1.2 = b
     ∧ toasts r.2.2 = toasts w ++ [ToastError (lit "Failed to delete course")])
  ∧ (∀ id', id' ≠ id → coursesCol r.2.1.2 !! id' = coursesCol b !! id')
  ∧ siteContent r.2.1.2 = siteContent b
  ∧ r.2.1.1 = s
  ∧ (editingCourse s = None →
     trim (title (formData s)) ≠ [] →
     trim (videoUrl (formData s)) ≠ [] →
     faults w = [] →
     coursesCol
       ((handleSaveCourse ;;; deleteAction (autoId (dom (coursesCol b))))%async
          ((s, b), w)).2.1.2
     = coursesCol b).
Proof.
  destruct w as [d clk fs reqs ts nw]. split_and!.
  - intros Hf. run_courses. destruct fs as [|[] fs]; simpl; try (by destruct Hf); done.
  - run_courses. by destruct fs as [|[] fs]; simpl; try done; intros _; destruct b.
  - intros id' Hne. run_courses.
    destruct fs as [|[] fs]; simpl; try done; by rewrite lookup_delete_ne.
  - run_courses. by destruct fs as [|[] fs].
  - run_courses. by destruct fs as [|[] fs].
  - simpl. intros He Ht Hv ->.
    assert (Htt : truthy (trim (title (formData s))) = true)
      by by destruct (trim (title (formData s))).
    assert (Htv : truthy (trim (videoUrl (formData s))) = true)
      by by destruct (trim (videoUrl (formData s))).
    run_courses. rewrite Htt, Htv, He; simpl.
    apply delete_insert_id || apply delete_insert.
    apply not_elem_of_dom, autoId_fresh.
Qed.
End Courses.

(** ** Site content and the static pages *)

Section SiteContent.
Import ContentManagement.

Ltac run_content :=
  unfold handleSave, setSiteContent, call, setAbout, setTerms, setSupport, setUI, getUI;
  unfold toast, setWorld, setState, try_catch, getState, throw, ret, bind; simpl.

Lemma Page_id_inj (p q : Page.t) : Page.id p = Page.id q → p = q.
Proof. destruct p, q; first [done | intros H; vm_compute in H; discriminate]. Qed.

(** X11. What the admin saves for a page is what the static page of that
    name shows: after [handleSave] went through, [fetchContent] for the
    page's name, answered by the store, ends with the page's title, the
    text of the editor and the spinner off; the documents of the other
    pages are not touched. *)
Theorem saved_content_is_shown (page : Page.t) (s : State) (b : Backend) (w : World)
    (toLowerCase : jsstring → jsstring) (st : StaticPage.State) :
  head (faults w) ≠ Some true →
  let r := handleSave page ((s, b), w) in
  let edited := match page with
                | Page.about => about s
                | Page.terms => terms s
                | Page.support => support s
                end in
  let pageTitle := match page with
                   | Page.about => lit "About Us"
                   | Page.terms => lit "Terms of Service"
                   | Page.support => lit "Customer Support"
                   end in
  StaticPage.fetchContent toLowerCase (Some (Page.id page)) (StaticPage.answer r.2.1.2) st
  = {| StaticPage.title := pageTitle; StaticPage.content := edited;
       StaticPage.loading := false |}
  ∧ (∀ q, q ≠ page → siteContent r.2.1.2 !! Page.id q = siteContent b !! Page.id q)
  ∧ coursesCol r.2.1.2 = coursesCol b
  ∧ r.2.1.1 = s
  ∧ toasts r.2.2 = toasts w ++ [ToastSuccess (pageTitle ++ lit " page updated!")].
Proof.
  intros Hf. destruct w as [d clk fs reqs ts nw]. run_content.
  destruct fs as [|[] fs]; simpl; try (by destruct Hf);
    (split_and!; try done;
     [ destruct page; unfold StaticPage.fetchContent, StaticPage.answer; simpl;
       by rewrite lookup_insert_eq
     | intros q Hq; apply lookup_insert_ne; intros E; by apply Page_id_inj in E ]).
Qed.

(** X12. [fetchContent] always ends with the spinner off, whatever the
    page name and whatever the store answers; and for a missing name or a
    name other than about, terms and support it reads nothing and shows
    the not-found page. *)
Theorem fetchContent_settles (toLowerCase : jsstring → jsstring)
    (pageName : option jsstring) (getDoc : jsstring → StaticPage.GetDoc)
    (st : StaticPage.State) :
  StaticPage.loading (StaticPage.fetchContent toLowerCase pageName getDoc st) = false
  ∧ (pageName = None ∨ pageName = Some []
     ∨ (∀ p, pageName ≠ Some (Page.id p)) →
     StaticPage.fetchContent toLowerCase pageName getDoc st
     = {| StaticPage.title := lit "Page Not Found";
          StaticPage.content := StaticPage.notFoundText;
          StaticPage.loading := false |}).
Proof.
  unfold StaticPage.fetchContent. split.
  - destruct pageName as [[|c name]|]; simpl; try done.
    repeat case_decide; simpl; try done;
      destruct (getDoc _) as [?| |code text]; simpl; try done;
      repeat case_decide; try done;
      by destruct (_ || _).
  - intros [->|[->|H]]; [done | done |].
    destruct pageName as [[|c name]|]; simpl; try done.
    pose proof (H Page.about) as Ha. pose proof (H Page.terms) as Ht.
    pose proof (H Page.support) as Hs. simpl in Ha, Ht, Hs.
    rewrite !decide_False by congruence. done.
Qed.

(** The field of the editor that belongs to a page is untouched by a
    snapshot without a document of that page. *)
Lemma onContentSnapshot_other (docs : list (jsstring * jsstring)) (p : Page.t)
    (s : State) (b : Backend) (w : World) :
  Page.id p ∉ docs.*1 →
  let field s := match p with
                 | Page.about => about s
                 | Page.terms => terms s
                 | Page.support => support s
                 end in
  field (onContentSnapshot docs ((s, b), w)).2.1.1 = field s.
Proof.
  revert s. induction docs as [|[i c] docs IH]; intros s Hn; simpl; [done |].
  apply not_elem_of_cons in Hn as [Hi Hn]. simpl in Hi.
  unfold bind, setAbout, setTerms, setSupport, setUI, setState, ret; simpl.
  repeat case_decide; simpl; subst; rewrite IH by done;
    destruct p; simpl; try done; by destruct Hi.
Qed.

(** X13. A snapshot of the [siteContent] collection (each id at most
    once) puts into each editor field the content of the document of its
    page, and leaves a field alone when the snapshot has no document for
    it; documents with other ids are ignored. *)
Theorem onContentSnapshot_loads_editor (docs : list (jsstring * jsstring)) (p : Page.t)
    (s : State) (b : Backend) (w : World) :
  NoDup docs.*1 →
  let field s := match p with
                 | Page.about => about s
                 | Page.terms => terms s
                 | Page.support => support s
                 end in
  let s' := (onContentSnapshot docs ((s, b), w)).2.1.1 in
  (∀ c, (Page.id p, c) ∈ docs → field s' = c)
  ∧ (Page.id p ∉ docs.*1 → field s' = field s)
  ∧ (onContentSnapshot docs ((s, b), w)).2.1.2 = b
  ∧ (onContentSnapshot docs ((s, b), w)).2.2 = w.
Proof.
  intros Hnd field s'. split_and!.
  - subst s'. revert s Hnd. induction docs as [|[i c'] docs IH]; intros s Hnd c Hin.
    + by apply elem_of_nil in Hin.
    + apply NoDup_cons in Hnd as [Hi Hnd]. simpl in Hi.
      apply elem_of_cons in Hin as [[= <- <-]|Hin].
      * simpl. unfold bind, setAbout, setTerms, setSupport, setUI, setState, ret; simpl.
        pose proof (onContentSnapshot_other docs p) as Ho. simpl in Ho.
        destruct p; simpl in *;
          repeat (rewrite decide_True by done || rewrite decide_False by done);
          simpl; by rewrite Ho.
      * assert (i ≠ Page.id p).
        { intros ->. apply Hi. apply list_elem_of_fmap. by exists (Page.id p, c). }
        simpl. unfold bind, setAbout, setTerms, setSupport, setUI, setState, ret; simpl.
        repeat case_decide; simpl; subst; try (by eapply IH);
          destruct p; simpl in *; try done; by eapply IH.
  - intros Hn. by apply onContentSnapshot_other.
  - clear. revert s. induction docs as [|[i c'] docs IH]; intros s; simpl; [done |].
    unfold bind, setAbout, setTerms, setSupport, setUI, setState, ret; simpl.
    repeat case_decide; simpl; apply IH.
  - clear. revert s. induction docs as [|[i c'] docs IH]; intros s; simpl; [done |].
    unfold bind, setAbout, setTerms, setSupport, setUI, setState, ret; simpl.
    repeat case_decide; simpl; apply IH.
Qed.
End SiteContent.

(** ** Guarded routes, the header and the Telegram prompt *)

Section Shell.

Lemma notAdmin_false (appUser : option AppUser.t) :
  notAdmin appUser = false ↔ ∃ a, appUser = Some a ∧ AppUser.role a = Role.admin.
Proof.
  unfold notAdmin. destruct appUser as [a|]; simpl.
  - destruct (decide (AppUser.role a = Role.admin)) as [Hr|Hr].
    + rewrite bool_decide_true by done. simpl. split; [by exists a | done].
    + rewrite bool_decide_false by done. simpl.
      split; [done | intros (a' & [= <-] & Hr'); done].
  - split; [done | intros (a & [=] & _)].
Qed.

Lemma navLinks_admin (ctx : AuthContext.t) :
  Header.navLinks ctx
  = if notAdmin (AuthContext.appUser ctx) then Header.baseNavLinks
    else Header.baseNavLinks
           ++ [ {| Header.name := lit "Admin Panel"; Header.path := lit "/admin" |} ].
Proof.
  unfold Header.navLinks, notAdmin. destruct (AuthContext.appUser ctx) as [a|]; simpl.
  - by destruct (bool_decide (AppUser.role a = Role.admin)).
  - done.
Qed.

(** X14. The admin route shows the dashboard exactly when loading is
    over and the signed-in profile has role admin; in every other loaded
    context it shows the placeholder and redirects to [/] with the access
    notice, and while loading it does neither.  The header offers the
    [/admin] link to exactly the profiles the route admits.  The
    protected route does the same on the presence of a signed-in user,
    redirecting to [/auth]. *)
Theorem guarded_routes (ctx : AuthContext.t) :
  let isAdmin := ∃ a, AuthContext.appUser ctx = Some a ∧ AppUser.role a = Role.admin in
  (AdminRoute.render ctx = Children ↔ AuthContext.loading ctx = false ∧ isAdmin)
  ∧ (AdminRoute.effect ctx
     = Some {| notice := ToastError (lit "Access Denied. Admins only.");
               target := lit "/" |}
     ↔ AuthContext.loading ctx = false ∧ ¬ isAdmin)
  ∧ (AdminRoute.effect ctx = None
     ↔ AuthContext.loading ctx = true ∨ AdminRoute.render ctx = Children)
  ∧ ({| Header.name := lit "Admin Panel"; Header.path := lit "/admin" |}
       ∈ Header.navLinks ctx ↔ isAdmin)
  ∧ (ProtectedRoute.render ctx = Children
     ↔ AuthContext.loading ctx = false ∧ AuthContext.user ctx ≠ None)
  ∧ (ProtectedRoute.effect ctx
     = Some {| notice := ToastError (lit "You must be logged in to view this page.");
               target := lit "/auth" |}
     ↔ AuthContext.loading ctx = false ∧ AuthContext.user ctx = None)
  ∧ (ProtectedRoute.effect ctx = None
     ↔ AuthContext.loading ctx = true ∨ ProtectedRoute.render ctx = Children).
Proof.
  intros isAdmin.
  assert (Hbase : {| Header.name := lit "Admin Panel"; Header.path := lit "/admin" |}
                    ∉ Header.baseNavLinks).
  { unfold Header.baseNavLinks. rewrite !not_elem_of_cons.
    split_and!; try (intros H; vm_compute in H; discriminate).
    apply not_elem_of_nil. }
  pose proof (notAdmin_false (AuthContext.appUser ctx)) as Hna. fold isAdmin in Hna.
  assert (Hlink : {| Header.name := lit "Admin Panel"; Header.path := lit "/admin" |}
                    ∈ Header.baseNavLinks
                        ++ [ {| Header.name := lit "Admin Panel";
                                Header.path := lit "/admin" |} ]).
  { apply elem_of_app. right. by apply list_elem_of_singleton. }
  rewrite navLinks_admin.
  unfold AdminRoute.render, AdminRoute.effect, ProtectedRoute.render,
    ProtectedRoute.effect.
  destruct (notAdmin (AuthContext.appUser ctx)).
  - assert (Hn : ¬ isAdmin) by (intros H; apply Hna in H; discriminate).
    destruct (AuthContext.loading ctx), (AuthContext.user ctx) as [u|];
      cbn [negb orb andb isNull];
      (split_and!; split;
       repeat match goal with
              | |- _ → _ => intros ?
              | H : _ ∧ _ |- _ => destruct H
              | H : _ ∨ _ |- _ => destruct H
              end;
       try discriminate; try contradiction; try done;
       try (by left); try (by right); try (by split)).
  - assert (Hy : isAdmin) by (by apply Hna).
    destruct (AuthContext.loading ctx), (AuthContext.user ctx) as [u|];
      cbn [negb orb andb isNull];
      (split_and!; split;
       repeat match goal with
              | |- _ → _ => intros ?
              | H : _ ∧ _ |- _ => destruct H
              | H : _ ∨ _ |- _ => destruct H
              end;
       try discriminate; try contradiction; try done;
       try (by left); try (by right); try (by split)).
Qed.

(** X15. Once the Telegram prompt has been closed it does not come back:
    whatever changes of the auth state and further closings follow, the
    prompt stays closed and the stored flag stays set.  Before that, the
    effect opens the prompt only when loading is over, nobody is signed
    in and no flag is stored. *)
Theorem telegram_prompt_shown_once (events : list TelegramModalManager.Event)
    (σ : gmap jsstring jsstring * TelegramModalManager.State)
    (user : option FirebaseUser) (loading : bool) :
  let after := foldl (λ σ e, TelegramModalManager.fire e σ)
                 (TelegramModalManager.fire TelegramModalManager.Closed σ) events in
  TelegramModalManager.isTelegramModalOpen after.2 = false
  ∧ after.1 !! TelegramModalManager.promptKey = Some (lit "true")
  ∧ (TelegramModalManager.isTelegramModalOpen σ.2 = false →
     TelegramModalManager.isTelegramModalOpen
       (TelegramModalManager.effect user loading σ.1 σ.2) = true →
     loading = false ∧ user = None
     ∧ truthy_opt (σ.1 !! TelegramModalManager.promptKey) = false).
Proof.
  split_and!.
  - cut (∀ τ : gmap jsstring jsstring * TelegramModalManager.State,
           TelegramModalManager.isTelegramModalOpen τ.2 = false
           ∧ τ.1 !! TelegramModalManager.promptKey = Some (lit "true") →
           TelegramModalManager.isTelegramModalOpen
             (foldl (λ σ e, TelegramModalManager.fire e σ) τ events).2 = false).
    { intros H. apply H. simpl. split; [done | apply lookup_insert_eq]. }
    induction events as [|e events IH]; intros [ls [o]] [Ho Hk]; simpl in *; [done |].
    apply IH. destruct e as [u l|]; simpl.
    + unfold TelegramModalManager.effect. rewrite Hk. simpl.
      subst o. by destruct l, u.
    + split; [done | apply lookup_insert_eq].
  - cut (∀ τ : gmap jsstring jsstring * TelegramModalManager.State,
           τ.1 !! TelegramModalManager.promptKey = Some (lit "true") →
           (foldl (λ σ e, TelegramModalManager.fire e σ) τ events).1
             !! TelegramModalManager.promptKey = Some (lit "true")).
    { intros H. apply H. simpl. apply lookup_insert_eq. }
    induction events as [|e events IH]; intros [ls o] Hk; simpl in *; [done |].
    apply IH. destruct e as [u l|]; simpl; [done | apply lookup_insert_eq].
  - destruct σ as [ls [o]]; simpl. intros ->.
    unfold TelegramModalManager.effect.
    destruct loading; simpl; [done |]. destruct user; simpl; [done |].
    by destruct (truthy_opt (ls !! TelegramModalManager.promptKey)).
Qed.
End Shell.

(** ** The platform overview and the user list *)

Section Overview.
Import DashboardOverview.

Lemma run_snoc (events : list Snapshot) (e : Snapshot) (s : Stats) :
  run (events ++ [e]) s = onSnapshot e (run events s).
Proof. unfold run. by rewrite foldl_app. Qed.

(** X16. Whatever the order in which the three subscriptions report,
    each counter ends with the size of the last snapshot of its own
    subscription (or its initial value if there was none): no snapshot of
    one subscription overwrites the counter of another. *)
Theorem overview_counters_independent (events : list Snapshot) (s : Stats) :
  users (run events s) = default (users s) (last (usersSizes events))
  ∧ courses (run events s) = default (courses s) (last (coursesSizes events))
  ∧ newChats (run events s) = default (newChats s) (last (newChatsSizes events)).
Proof.
  induction events as [|e events IH] using rev_ind; [done |].
  rewrite run_snoc. unfold usersSizes, coursesSizes, newChatsSizes in *.
  rewrite !omap_app. destruct IH as (Hu & Hc & Hn).
  destruct e as [n|n|n]; simpl; rewrite ?app_nil_r, ?last_snoc; simpl; done.
Qed.
End Overview.

Section Users.
Import UserManagement.

Lemma insertUser_perm (a : AppUser.t) (l : list AppUser.t) : insertUser a l ≡ₚ a :: l.
Proof.
  induction l as [|b l IH]; simpl; [done |].
  destruct (createdTime b - createdTime a <=? 0); [done |].
  rewrite IH. apply Permutation_swap.
Qed.

Lemma insertUser_sorted (a : AppUser.t) (l : list AppUser.t) :
  StronglySorted (λ x y, createdTime y ≤ createdTime x) l →
  StronglySorted (λ x y, createdTime y ≤ createdTime x) (insertUser a l).
Proof.
  induction 1 as [|b l Hs IH Hb]; simpl.
  - repeat constructor.
  - destruct (createdTime b - createdTime a <=? 0) eqn:E.
    + apply Z.leb_le in E. constructor; [by constructor |].
      constructor; [lia |]. eapply Forall_impl; [exact Hb |]. simpl. lia.
    + apply Z.leb_gt in E. constructor; [done |].
      rewrite insertUser_perm. constructor; [lia | done].
Qed.

Lemma insertUser_filter (P : AppUser.t → bool) (a : AppUser.t) (l : list AppUser.t) :
  (∀ b, P a = true → P b = true → createdTime b = createdTime a) →
  List.filter P (insertUser a l) = List.filter P (a :: l).
Proof.
  intros HP. induction l as [|b l IH]; simpl; [done |].
  destruct (createdTime b - createdTime a <=? 0) eqn:E; [done |].
  apply Z.leb_gt in E. simpl. simpl in IH. rewrite IH.
  destruct (P a) eqn:Ha, (P b) eqn:Hb; try done.
  specialize (HP b eq_refl Hb). lia.
Qed.

(** X17. The user list is shown newest first: sorting keeps exactly the
    users of the snapshot, orders them by creation time descending (a
    user without a creation time counts as time 0), and keeps users with
    the same creation time in the order of the snapshot. *)
Theorem sortUsers_newest_first (usersData : list AppUser.t) :
  sortUsers usersData ≡ₚ usersData
  ∧ StronglySorted (λ x y, createdTime y ≤ createdTime x) (sortUsers usersData)
  ∧ (∀ t, List.filter (λ a, createdTime a =? t) (sortUsers usersData)
          = List.filter (λ a, createdTime a =? t) usersData).
Proof.
  unfold sortUsers. split_and!.
  - induction usersData as [|a l IH]; simpl; [done |].
    by rewrite insertUser_perm, IH.
  - induction usersData as [|a l IH]; simpl; [constructor |].
    by apply insertUser_sorted.
  - intros t. induction usersData as [|a l IH]; simpl; [done |].
    rewrite insertUser_filter; simpl; [by rewrite IH |].
    intros b Ha Hb. apply Z.eqb_eq in Ha, Hb. lia.
Qed.

(** X18. With an empty search term the list shows exactly the users that
    have an email or a nickname; a user with neither is shown for no
    search term at all; and a search never shows a user that is not in
    the list. *)
Theorem filteredUsers_empty_search (toLowerCase : jsstring → jsstring)
    (users : list AppUser.t) (searchTerm : jsstring) :
  toLowerCase [] = [] →
  filteredUsers toLowerCase users []
  = List.filter (λ u, negb (isNull (AppUser.email u) && isNull (AppUser.nickname u))) users
  ∧ (∀ u, u ∈ filteredUsers toLowerCase users searchTerm →
          u ∈ users ∧ ¬ (AppUser.email u = None ∧ AppUser.nickname u = None)).
Proof.
  intros Hl. unfold filteredUsers. split.
  - induction users as [|u users IH]; simpl; [done |]. rewrite IH.
    unfold matchesSearch. rewrite Hl.
    by destruct (AppUser.email u), (AppUser.nickname u); rewrite ?includes_nil.
  - intros u Hu. apply list_elem_of_In, filter_In in Hu as [Hin Hm].
    split; [by apply list_elem_of_In |].
    intros [He Hn]. unfold matchesSearch in Hm. by rewrite He, Hn in Hm.
Qed.
End Users.

(** ** The course catalogue *)

Section Catalogue.
Import Home.

(** X19. The catalogue shows the last snapshot that had courses in it:
    after any sequence of snapshots and subscription errors, the list is
    the last non-empty snapshot (or what was shown before, if there was
    none), so an empty snapshot or an error never clears courses already
    shown; the cache equals the list, and loading is over once anything
    arrived. *)
Theorem catalogue_keeps_last_courses (events : list Event) (s : State) :
  courses s = coursesCache s →
  let s' := foldl (λ s e, fire e s) s events in
  courses s' = default (courses s) (last (nonEmptySnapshots events))
  ∧ coursesCache s' = courses s'
  ∧ (events ≠ [] → loading s' = false).
Proof.
  intros Hc. induction events as [|e events IH] using rev_ind; [done |].
  rewrite foldl_app. simpl. destruct IH as (Hl & Hcache & _).
  unfold nonEmptySnapshots in *. rewrite omap_app. simpl.
  set (t := foldl (λ s e, fire e s) s events) in *.
  destruct e as [[|c cs]|]; simpl.
  - rewrite app_nil_r. unfold onCoursesSnapshot. simpl.
    destruct (decide (length (coursesCache t) = 0%nat)) as [E|E]; simpl.
    + apply length_zero_iff_nil in E. split_and!; [| done | done].
      rewrite <- Hl. by rewrite <- Hcache, E.
    + by split_and!.
  - rewrite last_snoc. by split_and!.
  - rewrite app_nil_r. split_and!; [| done | done]. by rewrite <- Hl.
Qed.

Ltac run_home :=
  unfold handleWatchClick, handleNotesClick, handleCompleteClick, setIsLoginPromptOpen,
    updateUser, call, setUI, getUI;
  unfold toast, setWorld, setState, try_catch, getState, throw, ret, bind; simpl.

(** X20. With nobody signed in, watching a video, opening the notes and
    marking a course complete all do the same thing and nothing more:
    the login prompt opens.  No video is selected, no window is opened,
    no user document is written, no request is sent and no notice is
    raised. *)
Theorem catalogue_actions_need_sign_in (ctx : AuthContext.t) (s : State)
    (users : gmap jsstring UserDoc) (w : World) (url title notesUrl courseId : jsstring) :
  AuthContext.user ctx = None →
  let prompted :=
    (Resolved (),
     (({| courses := courses s; coursesCache := coursesCache s; loading := loading s;
          selectedVideo := selectedVideo s; isLoginPromptOpen := true;
          opened := opened s |}, users), w)) in
  handleWatchClick ctx url title ((s, users), w) = prompted
  ∧ handleNotesClick ctx notesUrl ((s, users), w) = prompted
  ∧ handleCompleteClick ctx courseId ((s, users), w) = prompted.
Proof. intros H. run_home. rewrite H. simpl. done. Qed.

Lemma arrayUnion_spec (x : jsstring) (field : option (list jsstring)) :
  let old := default [] field in
  (∀ y, y ∈ arrayUnion x field ↔ y = x ∨ y ∈ old)
  ∧ (NoDup old → NoDup (arrayUnion x field)).
Proof.
  destruct field as [l|]; simpl.
  - destruct (decide (x ∈ l)) as [Hx|Hx].
    + rewrite bool_decide_true by done. split; [| done].
      intros y. split; [by right | intros [->|H]; done].
    + rewrite bool_decide_false by done. split.
      * intros y. rewrite elem_of_app, list_elem_of_singleton. tauto.
      * intros Hnd. apply NoDup_app. split_and!; [done | | apply NoDup_singleton].
        intros y Hy ->%list_elem_of_singleton. done.
  - split; [| intros _; apply NoDup_singleton].
    intros y. rewrite list_elem_of_singleton. split; [by left | intros [H|H]; [done |]].
    by apply elem_of_nil in H.
Qed.

Lemma arrayRemove_spec (x : jsstring) (field : option (list jsstring)) :
  let old := default [] field in
  (∀ y, y ∈ arrayRemove x field ↔ y ≠ x ∧ y ∈ old)
  ∧ (NoDup old → NoDup (arrayRemove x field)).
Proof.
  destruct field as [l|]; simpl.
  - split.
    + intros y. rewrite list_elem_of_In, filter_In, <- list_elem_of_In.
      destruct (decide (y = x)) as [->|Hy].
      * rewrite bool_decide_true by done. simpl. split; [by intros [_ ?] | by intros [? _]].
      * rewrite bool_decide_false by done. simpl. tauto.
    + intros Hnd. apply NoDup_ListNoDup. apply List.NoDup_filter.
      by apply NoDup_ListNoDup.
  - split; [| intros _; apply NoDup_nil_2].
    intros y. split; [by intros H%elem_of_nil | by intros [_ H%elem_of_nil]].
Qed.

(** X21. Marking a course toggles it in the user's stored list of
    completed courses.  With the profile in step with the stored
    document and a store that accepts the write, the course is in the
    list afterwards exactly when it was not before, every other course
    is in it exactly when it was before, the other fields of the
    document and the documents of other users are as before; and whether
    or not the profile is in step, a list without repetitions stays
    without repetitions. *)
Theorem handleCompleteClick_toggles (ctx : AuthContext.t) (s : State)
    (users : gmap jsstring UserDoc) (w : World) (courseId : jsstring)
    (user : FirebaseUser) (appUser : AppUser.t) (d : UserDoc) :
  AuthContext.user ctx = Some user →
  AuthContext.appUser ctx = Some appUser →
  users !! uid user = Some d →
  head (faults w) ≠ Some true →
  let r := handleCompleteClick ctx courseId ((s, users), w) in
  let old := default [] (ud_completedCourses d) in
  ∃ new,
    r.2.1.2
    = <[uid user := {| ud_email := ud_email d; ud_role := ud_role d;
                       ud_nickname := ud_nickname d; ud_emoji := ud_emoji d;
                       ud_createdAt := ud_createdAt d;
                       ud_completedCourses := Some new |}]> users
    ∧ (NoDup old → NoDup new)
    ∧ (∀ y, y ≠ courseId → (y ∈ new ↔ y ∈ old))
    ∧ (AppUser.completedCourses appUser = ud_completedCourses d →
       (courseId ∈ new ↔ courseId ∉ old))
    ∧ r.2.1.1 = s.
Proof.
  intros Hu Ha Hd Hf. destruct w as [dd clk fs reqs ts nw].
  pose proof (arrayUnion_spec courseId (ud_completedCourses d)) as [Hum Hun].
  pose proof (arrayRemove_spec courseId (ud_completedCourses d)) as [Hrm Hrn].
  run_home. rewrite Hu, Ha. simpl.
  destruct (match AppUser.completedCourses appUser with
            | Some l => bool_decide (courseId ∈ l)
            | None => false
            end) eqn:Hdone; simpl; rewrite Hd.
  - exists (arrayRemove courseId (ud_completedCourses d)).
    destruct fs as [|[] fs]; simpl; try (by destruct Hf);
      (split_and!; [done | done | | | by destruct s]).
    all: try (intros y Hy; rewrite Hrm; tauto).
    all: intros Hsync; rewrite Hsync in Hdone; rewrite Hrm;
      destruct (ud_completedCourses d) as [l|]; simpl in *; try done;
      apply bool_decide_eq_true in Hdone; tauto.
  - exists (arrayUnion courseId (ud_completedCourses d)).
    destruct fs as [|[] fs]; simpl; try (by destruct Hf);
      (split_and!; [done | done | | | by destruct s]).
    all: try (intros y Hy; rewrite Hum; tauto).
    all: intros Hsync; rewrite Hsync in Hdone; rewrite Hum;
      destruct (ud_completedCourses d) as [l|]; simpl in *;
      [ apply bool_decide_eq_false in Hdone; tauto
      | split; [intros _; apply not_elem_of_nil | by left] ].
Qed.
End Catalogue.

(** ** Sign-in, sign-up and the profile *)

Section Accounts.

Ltac run_auth :=
  unfold AuthPage.handleSubmit, AuthPage.onError, AuthPage.setIsLoading,
    AuthPage.setPassword, AuthPage.navigate, setUser, call, setUI, getUI;
  unfold toast, setWorld, setState, try_catch, getState, throw, ret, bind; simpl.

(** X22. When the auth service refuses, in sign-in and in sign-up alike,
    the form shows exactly one error notice (the message of the code),
    is enabled again, keeps the email, navigates nowhere and writes no
    user document; the password field is emptied exactly when the code is
    [auth/invalid-credential]. *)
Theorem auth_refusal_is_reported (toLowerCase : jsstring → jsstring)
    (code storeErrorCode : option jsstring) (s : AuthPage.State)
    (users : gmap jsstring UserDoc) (w : World) :
  let r := AuthPage.handleSubmit toLowerCase (AuthPage.Refused code) storeErrorCode
             ((s, users), w) in
  r.2.1.2 = users
  ∧ toasts r.2.2 = toasts w ++ [ToastError (AuthPage.errorMessage code)]
  ∧ faults r.2.2 = faults w
  ∧ AuthPage.isLoading r.2.1.1 = false
  ∧ AuthPage.navigated r.2.1.1 = AuthPage.navigated s
  ∧ AuthPage.email r.2.1.1 = AuthPage.email s
  ∧ AuthPage.isLogin r.2.1.1 = AuthPage.isLogin s
  ∧ AuthPage.password r.2.1.1
    = (if bool_decide (code = Some (lit "auth/invalid-credential")) then []
       else AuthPage.password s)
  ∧ (AuthPage.password r.2.1.1 ≠ AuthPage.password s →
     code = Some (lit "auth/invalid-credential")).
Proof.
  run_auth.
  destruct (bool_decide (code = Some (lit "auth/invalid-credential"))) eqn:E; simpl;
    split_and!; try done.
  by apply bool_decide_eq_true in E.
Qed.

Lemma beforeAt_nickname (e : jsstring) :
  (if truthy (AuthPage.beforeAt e) then AuthPage.beforeAt e else lit "New User") ≠ [].
Proof. destruct (AuthPage.beforeAt e); [by vm_compute | done]. Qed.

(** X23. A sign-up that the auth service grants and the store accepts
    creates the document of the new user under the user's id: the role
    is admin exactly when the typed email, in lower case, is the owner's
    address, and user otherwise; the nickname is the part of the account
    email before the first [@] and never empty ([New User] stands in);
    the creation time is the server's, and no course is completed.  The
    user is sent to [/] and the form stays disabled.  A sign-in that is
    granted writes no document. *)
Theorem sign_up_creates_profile (toLowerCase : jsstring → jsstring)
    (user : FirebaseUser) (storeErrorCode : option jsstring) (s : AuthPage.State)
    (users : gmap jsstring UserDoc) (w : World) :
  head (faults w) ≠ Some true →
  let r := AuthPage.handleSubmit toLowerCase (AuthPage.Granted user) storeErrorCode
             ((s, users), w) in
  (AuthPage.isLogin s = false →
     ∃ d, r.2.1.2 = <[uid user := d]> users
          ∧ (ud_role d = Role.admin ↔ toLowerCase (AuthPage.email s) = AuthPage.adminEmail)
          ∧ (∃ n, ud_nickname d = Some n ∧ n ≠ []
                  ∧ (∀ e, emailOf user = Some e → AuthPage.beforeAt e ≠ [] →
                          n = AuthPage.beforeAt e))
          ∧ ud_email d = emailOf user
          ∧ ud_createdAt d = Some (serverClock w)
          ∧ ud_completedCourses d = None
          ∧ toasts r.2.2 = toasts w ++ [ToastSuccess (lit "Account created successfully!")])
  ∧ (AuthPage.isLogin s = true →
     r.2.1.2 = users
     ∧ toasts r.2.2 = toasts w ++ [ToastSuccess (lit "Logged in successfully!")])
  ∧ AuthPage.navigated r.2.1.1 = AuthPage.navigated s ++ [lit "/"]
  ∧ AuthPage.isLoading r.2.1.1 = true.
Proof.
  intros Hf. destruct w as [dd clk fs reqs ts nw]. run_auth.
  destruct (AuthPage.isLogin s) eqn:Hl; simpl.
  - split_and!; try done.
  - destruct fs as [|[] fs]; simpl; try (by destruct Hf);
      (split_and!; try done; intros _; eexists; split_and!; try done;
       [ simpl; destruct (decide (toLowerCase (AuthPage.email s) = AuthPage.adminEmail));
         [ rewrite bool_decide_true by done; done
         | rewrite bool_decide_false by done; split; done ]
       | simpl; eexists; split_and!; [done | |];
         [ destruct (emailOf user) as [e|]; [apply beforeAt_nickname | by vm_compute]
         | intros e -> He; by destruct (AuthPage.beforeAt e) ] ]).
Qed.

Ltac run_profile :=
  unfold ProfilePage.handleSubmit, ProfilePage.setSaveState, ProfilePage.setTimer,
    updateUser, call, setUI, getUI;
  unfold toast, setWorld, setState, try_catch, getState, throw, ret, bind; simpl.

Lemma length_trim_zero (t : jsstring) : (length (trim t) =? 0)%nat = true ↔ whitespace_only t.
Proof.
  rewrite <- trim_nil_iff, Nat.eqb_eq. split; [apply length_zero_iff_nil | by intros ->].
Qed.

(** X24. A profile whose nickname or emoji is empty or white space only
    is not saved: the only effect is the notice that neither may be
    empty; and with nobody signed in the submission does nothing at
    all. *)
Theorem profile_requires_nickname_and_emoji (user : option FirebaseUser)
    (s : ProfilePage.State) (users : gmap jsstring UserDoc) (w : World) :
  (user = None →
     ProfilePage.handleSubmit user ((s, users), w) = (Resolved (), ((s, users), w)))
  ∧ (user ≠ None →
     whitespace_only (ProfilePage.nickname s) ∨ whitespace_only (ProfilePage.emoji s) →
     ProfilePage.handleSubmit user ((s, users), w)
     = (Resolved (),
        ((s, users),
         {| db := db w; serverClock := serverClock w; faults := faults w;
            requests := requests w;
            toasts := toasts w ++ [ToastError (lit "Nickname and Emoji cannot be empty.")];
            now := now w |}))).
Proof.
  split.
  - intros ->. by run_profile.
  - intros Hu H. destruct user as [u|]; [| done]. run_profile.
    destruct H as [H|H]; apply length_trim_zero in H; rewrite H;
      [by rewrite orb_true_r | done].
Qed.

(** X25. Saving a valid profile with a store that accepts the write
    stores the nickname trimmed and the emoji exactly as typed, and
    leaves the email, the role, the creation time and the completed
    courses of the document and all other documents as they were; the
    page then shows the saved state until the timer puts it back to idle
    and out of edit mode.  When the write is rejected or the document is
    missing, nothing is stored, the failure is reported, the state is
    idle again and what was typed is kept. *)
Theorem profile_save_stores_trimmed_nickname (user : FirebaseUser)
    (s : ProfilePage.State) (users : gmap jsstring UserDoc) (w : World) :
  trim (ProfilePage.nickname s) ≠ [] →
  trim (ProfilePage.emoji s) ≠ [] →
  let r := ProfilePage.handleSubmit (Some user) ((s, users), w) in
  (∀ d, head (faults w) ≠ Some true → users !! uid user = Some d →
     r.2.1.2
     = <[uid user := {| ud_email := ud_email d; ud_role := ud_role d;
                        ud_nickname := Some (trim (ProfilePage.nickname s));
                        ud_emoji := Some (ProfilePage.emoji s);
                        ud_createdAt := ud_createdAt d;
                        ud_completedCourses := ud_completedCourses d |}]> users
     ∧ ProfilePage.saveState r.2.1.1 = ProfilePage.saved
     ∧ ProfilePage.timerPending r.2.1.1 = true
     ∧ ProfilePage.isEditing r.2.1.1 = ProfilePage.isEditing s
     ∧ ProfilePage.saveState (ProfilePage.onTimer r.2.1.1) = ProfilePage.idle
     ∧ ProfilePage.isEditing (ProfilePage.onTimer r.2.1.1) = false
     ∧ toasts r.2.2 = toasts w ++ [ToastSuccess (lit "Profile updated successfully!")])
  ∧ (head (faults w) = Some true ∨ users !! uid user = None →
     r.2.1.2 = users
     ∧ ProfilePage.saveState r.2.1.1 = ProfilePage.idle
     ∧ ProfilePage.timerPending r.2.1.1 = ProfilePage.timerPending s
     ∧ ProfilePage.nickname r.2.1.1 = ProfilePage.nickname s
     ∧ ProfilePage.emoji r.2.1.1 = ProfilePage.emoji s
     ∧ ProfilePage.isEditing r.2.1.1 = ProfilePage.isEditing s
     ∧ toasts r.2.2 = toasts w ++ [ToastError (lit "Failed to update profile.")]).
Proof.
  intros Hn He. destruct w as [dd clk fs reqs ts nw].
  assert (Hn' : (length (trim (ProfilePage.nickname s)) =? 0)%nat = false).
  { apply Nat.eqb_neq. by destruct (trim (ProfilePage.nickname s)). }
  assert (He' : (length (trim (ProfilePage.emoji s)) =? 0)%nat = false).
  { apply Nat.eqb_neq. by destruct (trim (ProfilePage.emoji s)). }
  run_profile. rewrite Hn', He'. simpl. split.
  - intros d Hf Hd. rewrite Hd.
    destruct fs as [|[] fs]; simpl; try (by destruct Hf); by split_and!.
  - intros H. destruct fs as [|[] fs]; simpl; try (by split_and!);
      destruct H as [H|H]; try done; rewrite H; by split_and!.
Qed.
End Accounts.

(** ** What is typed is not given back *)

Section Inputs.

(** X26. A valid message or reply leaves its input field empty whatever
    the store does: the field is cleared before the first request, and
    the failure path does not put the text back.  Visibility, the
    signed-in user and the operator's selection are not touched. *)
Theorem typed_text_is_not_restored :
  (∀ (s : SupportWidget.State) (w : World) (u : FirebaseUser),
     SupportWidget.user s = Some u →
     trim (SupportWidget.newMessage s) ≠ [] →
     let s' := (SupportWidget.handleSubmit (s, w)).2.1 in
     SupportWidget.newMessage s' = []
     ∧ SupportWidget.isOpen s' = SupportWidget.isOpen s
     ∧ SupportWidget.user s' = SupportWidget.user s)
  ∧ (∀ (s : SupportManagement.State) (w : World) (chat : SupportChat.t),
       SupportManagement.selectedChat s = Some chat →
       trim (SupportManagement.reply s) ≠ [] →
       let s' := (SupportManagement.handleSendReply (s, w)).2.1 in
       SupportManagement.reply s' = []
       ∧ SupportManagement.selectedChat s' = Some chat
       ∧ SupportManagement.messages s' = SupportManagement.messages s
       ∧ SupportManagement.chats s' = SupportManagement.chats s).
Proof.
  split.
  - intros s w u Hu Ht s'. subst s'.
    rewrite (handleSubmit_valid s w u) by done.
    match goal with
    | |- context [try_catch ?b ?h ?st] =>
        assert (K : keeps (λ x, (SupportWidget.newMessage x.1, SupportWidget.isOpen x.1,
                                 SupportWidget.user x.1)) (try_catch b h));
        [| pose proof (K st) as E; split_and!;
           [ exact (f_equal (λ p, p.1.1) E) | exact (f_equal (λ p, p.1.2) E)
           | exact (f_equal snd E) ] ]
    end.
    unfold SupportWidget.durableSend, addChat, addMessage, updateChat,
      SupportWidget.setChatId, SupportWidget.setMessages. frame.
  - intros s w chat Hs Ht s'. subst s'.
    assert (Htr : truthy (trim (SupportManagement.reply s)) = true)
      by by destruct (trim (SupportManagement.reply s)).
    destruct w as [d clk fs reqs ts nw].
    unfold SupportManagement.handleSendReply, SupportManagement.setReply, addMessage,
      updateChat, send, toast, setWorld, setState, try_catch, getState, ret, bind; simpl.
    rewrite Hs, Htr; simpl.
    destruct fs as [|[] [|[] fs]]; simpl;
      destruct (supportChats d !! SupportChat.id chat); simpl; by split_and!.
Qed.
End Inputs.

(** ** Scenarios

    The theorems above, taken at the sample states. *)

Section WidgetScenarios.
Import SupportWidget.

(** The sample user signs out while their first message is creating the
    conversation. *)
Lemma sign_out_during_first_send_witness :
  let s := widget0 (lit " Hi ") in
  let r := handleSubmit_among (setUser None ;;; effect1)%async (ret ()) (s, world0 []) in
  let cid := autoId (dom (supportChats empty_store) ∪ dom (messagesCol empty_store)) in
  user s = Some ann
  ∧ chatId s = None
  ∧ trim (newMessage s) ≠ []
  ∧ user r.2.1 = None
  ∧ chatId r.2.1 = Some cid
  ∧ effect2_active r.2.1 = true
  ∧ ∃ doc, supportChats (db r.2.2) !! cid = Some doc ∧ d_userId doc = lit "u1".
Proof.
  intros s r cid.
  assert (H3 : trim (newMessage s) ≠ []) by (vm_compute; discriminate).
  assert (H4 : head (faults (world0 [])) ≠ Some true) by (simpl; discriminate).
  pose proof (sign_out_during_first_send s (world0 []) ann eq_refl eq_refl H3 H4)
    as (_ & Hu & Hc & _ & Ha & _ & Hd & _).
  split_and!; [reflexivity | reflexivity | exact H3 | exact Hu | exact Hc | exact Ha
              | exact Hd].
Defined.


(** The owner of the sample conversation, which the operator has read,
    writes again. *)
Lemma handleSubmit_existing_chat_witness :
  let s := widget1 (lit " Thanks ") in
  let r := handleSubmit (s, world1 []) in
  trim (newMessage s) ≠ []
  ∧ supportChats (db (world1 [])) !! lit "c1" = Some chatdoc1
  ∧ requests r.2.2
    = [ ReqAddMessage (lit "c1") (lit "Thanks") Sender.user;
        ReqUpdateChat (lit "c1")
          {| p_lastMessage := Some (lit "Thanks"); p_timestamp := true;
             p_status := Some Status.new |} ]
  ∧ supportChats (db r.2.2)
    = <[lit "c1" := {| d_userId := lit "u1"; d_userEmail := lit "ann@example.org";
                       d_lastMessage := lit "Thanks"; d_timestamp := 12;
                       d_status := Status.new |}]> (supportChats store1)
  ∧ toasts r.2.2 = [].
Proof.
  intros s r.
  assert (H1 : lit "c1" ≠ []) by (vm_compute; discriminate).
  assert (H2 : trim (newMessage s) ≠ []) by (vm_compute; discriminate).
  pose proof (handleSubmit_existing_chat s (world1 []) ann (lit "c1") chatdoc1
                eq_refl eq_refl H1 H2 eq_refl eq_refl)
    as (_ & Hreq & _ & _ & Hchats & _ & Hto).
  split_and!; [exact H2 | reflexivity | exact Hreq | exact Hchats | exact Hto].
Defined.

(** The same send when the store rejects the insert and accepts the
    update. *)
Lemma handleSubmit_update_survives_failed_insert_witness :
  let s := widget1 (lit " Thanks ") in
  let r := handleSubmit (s, world1 [true; false]) in
  messagesCol (db r.2.2) = messagesCol store1
  ∧ supportChats (db r.2.2) !! lit "c1"
    = Some {| d_userId := lit "u1"; d_userEmail := lit "ann@example.org";
              d_lastMessage := lit "Thanks"; d_timestamp := 11;
              d_status := Status.new |}
  ∧ toasts r.2.2 = [ToastError (lit "Failed to send message.")].
Proof.
  intros s r.
  assert (H1 : lit "c1" ≠ []) by (vm_compute; discriminate).
  assert (H2 : trim (newMessage s) ≠ []) by (vm_compute; discriminate).
  pose proof (handleSubmit_update_survives_failed_insert s (world1 [true; false]) ann
                (lit "c1") eq_refl eq_refl H1 H2) as (_ & Hfail).
  exact (Hfail [] chatdoc1 eq_refl eq_refl).
Defined.

(** A first contact where the store creates the conversation and then
    rejects the three writes that follow. *)
Lemma handleSubmit_adopts_created_chat_witness :
  let s := widget0 (lit " Hi ") in
  let w := world0 [false; true; true; true] in
  let r := handleSubmit (s, w) in
  let cid := autoId (dom (supportChats (db w)) ∪ dom (messagesCol (db w))) in
  chatId r.2.1 = Some cid
  ∧ is_Some (supportChats (db r.2.2) !! cid)
  ∧ messages_of (db r.2.2) cid = ∅
  ∧ messages r.2.1 = []
  ∧ toasts r.2.2 = [ToastError (lit "Failed to send message.")].
Proof.
  intros s w r cid.
  assert (H2 : trim (newMessage s) ≠ []) by (vm_compute; discriminate).
  assert (H3 : head (faults w) ≠ Some true) by (simpl; discriminate).
  pose proof (handleSubmit_adopts_created_chat s w ann eq_refl eq_refl H2)
    as (_ & Hok & Hlater).
  destruct (Hok H3) as (Hid & Hdoc & _).
  destruct (Hlater [] eq_refl) as (Hm & Hl & Ht).
  split_and!; [exact Hid | exact Hdoc | exact Hm | exact Hl | exact Ht].
Defined.

(** One message typed and sent by the sample user, and a reply of the
    operator to the sample conversation. *)
Lemma typed_text_is_not_restored_witness :
  SupportWidget.newMessage (handleSubmit (widget1 (lit " Thanks "), world1 [true])).2.1 = []
  ∧ SupportManagement.reply
      (SupportManagement.handleSendReply (console1 (lit "Hello"), world1 [true])).2.1 = [].
Proof.
  pose proof typed_text_is_not_restored as (Hw & Hc).
  assert (H1 : trim (newMessage (widget1 (lit " Thanks "))) ≠ [])
    by (vm_compute; discriminate).
  assert (H2 : trim (SupportManagement.reply (console1 (lit "Hello"))) ≠ [])
    by (vm_compute; discriminate).
  split.
  - apply (Hw (widget1 (lit " Thanks ")) (world1 [true]) ann eq_refl H1).
  - apply (Hc (console1 (lit "Hello")) (world1 [true]) chat1 eq_refl H2).
Defined.
End WidgetScenarios.

Section DashboardScenarios.
Import CourseManagement.

(** A blank typed as title. *)
Lemma handleSaveCourse_requires_title_and_video_witness :
  let s := courseForm (lit " ") (lit "https://youtu.be/xyz") None in
  whitespace_only (title (formData s))
  ∧ handleSaveCourse ((s, backend1), world1 [])
    = (Resolved (),
       ((s, backend1),
        {| db := store1; serverClock := 11; faults := []; requests := [];
           toasts := [ToastError (lit "Course Title and YouTube Video URL are required.")];
           now := 1000 |})).
Proof.
  intros s.
  assert (H : whitespace_only (title (formData s))) by (repeat constructor).
  split; [exact H |].
  apply (handleSaveCourse_requires_title_and_video s backend1 (world1 [])).
  left. exact H.
Defined.

(** A second course is added, typed with blanks around title and URL. *)
Lemma handleSaveCourse_adds_trimmed_witness :
  let s := courseForm (lit " Limits ") (lit "https://youtu.be/xyz ") None in
  let r := handleSaveCourse ((s, backend1), world1 []) in
  let id := autoId (dom (coursesCol backend1)) in
  coursesCol backend1 !! id = None
  ∧ coursesCol r.2.1.2
    = <[id := {| c_title := lit "Limits"; c_category := lit "JEE";
                 c_videoUrl := lit "https://youtu.be/xyz"; c_notesUrl := [];
                 c_createdAt := 11 |}]> (coursesCol backend1)
  ∧ formData r.2.1.1 = emptyForm
  ∧ toasts r.2.2 = [ToastSuccess (lit "Course added successfully")].
Proof.
  intros s r id.
  assert (H2 : trim (title (formData s)) ≠ []) by (vm_compute; discriminate).
  assert (H3 : trim (videoUrl (formData s)) ≠ []) by (vm_compute; discriminate).
  assert (H4 : head (faults (world1 [])) ≠ Some true) by (simpl; discriminate).
  pose proof (handleSaveCourse_adds_trimmed s backend1 (world1 []) eq_refl H2 H3 H4)
    as (Hf & Hc & _ & _ & _ & Hform & _ & Ht).
  split_and!; [exact Hf | exact Hc | exact Hform | exact Ht].
Defined.

(** The sample course is renamed. *)
Lemma handleSaveCourse_updates_in_place_witness :
  let editing := listedCourse (lit "k1") coursedoc1 in
  let s := courseForm (lit "Vectors 2") (lit "https://youtu.be/abc") (Some editing) in
  let r := handleSaveCourse ((s, backend1), world1 []) in
  coursesCol r.2.1.2
  = <[lit "k1" := {| c_title := lit "Vectors 2"; c_category := lit "JEE";
                     c_videoUrl := lit "https://youtu.be/abc"; c_notesUrl := [];
                     c_createdAt := 5 |}]> (coursesCol backend1)
  ∧ dom (coursesCol r.2.1.2) = dom (coursesCol backend1)
  ∧ editingCourse r.2.1.1 = None.
Proof.
  intros editing s r.
  assert (H2 : trim (title (formData s)) ≠ []) by (vm_compute; discriminate).
  assert (H3 : trim (videoUrl (formData s)) ≠ []) by (vm_compute; discriminate).
  assert (H4 : head (faults (world1 [])) ≠ Some true) by (simpl; discriminate).
  pose proof (handleSaveCourse_updates_in_place s backend1 (world1 []) editing
                eq_refl H2 H3) as (Hok & _).
  destruct (Hok coursedoc1 H4 eq_refl) as (Hc & Hd & _ & He & _).
  split_and!; [exact Hc | exact Hd | exact He].
Defined.

(** The sample course is opened for editing and saved as it is. *)
Lemma edit_then_save_is_identity_witness :
  let s := courseForm [] [] None in
  let r := (handleEdit (listedCourse (lit "k1") coursedoc1) ;;; handleSaveCourse)%async
             ((s, backend1), world1 []) in
  r.2.1.2 = backend1
  ∧ formData r.2.1.1 = emptyForm
  ∧ toasts r.2.2 = [ToastSuccess (lit "Course updated successfully")].
Proof.
  intros s r.
  assert (H5 : c_title coursedoc1 ≠ []) by (vm_compute; discriminate).
  assert (H6 : c_videoUrl coursedoc1 ≠ []) by (vm_compute; discriminate).
  assert (H7 : head (faults (world1 [])) ≠ Some true) by (simpl; discriminate).
  pose proof (edit_then_save_is_identity s backend1 (world1 []) (lit "k1") coursedoc1
                eq_refl eq_refl eq_refl eq_refl H5 H6 H7) as (Hb & Hf & _ & Ht).
  split_and!; [exact Hb | exact Hf | exact Ht].
Defined.

(** A course is added and deleted again; and the sample course is
    deleted. *)
Lemma deleteAction_removes_one_witness :
  let s := courseForm (lit " Limits ") (lit "https://youtu.be/xyz ") None in
  coursesCol
    ((handleSaveCourse ;;; deleteAction (autoId (dom (coursesCol backend1))))%async
       ((s, backend1), world1 [])).2.1.2
  = coursesCol backend1
  ∧ coursesCol (deleteAction (lit "k1") ((s, backend1), world1 [])).2.1.2
    = delete (lit "k1") (coursesCol backend1).
Proof.
  intros s.
  assert (H2 : trim (title (formData s)) ≠ []) by (vm_compute; discriminate).
  assert (H3 : trim (videoUrl (formData s)) ≠ []) by (vm_compute; discriminate).
  assert (H4 : head (faults (world1 [])) ≠ Some true) by (simpl; discriminate).
  split.
  - pose proof (deleteAction_removes_one [] s backend1 (world1 []))
      as (_ & _ & _ & _ & _ & Hround).
    exact (Hround eq_refl H2 H3 eq_refl).
  - pose proof (deleteAction_removes_one (lit "k1") s backend1 (world1 []))
      as (Hok & _).
    exact (proj1 (Hok H4)).
Defined.
End DashboardScenarios.

Section ContentScenarios.
Import ContentManagement.

(** The admin saves the about page, and a visitor opens it. *)
Lemma saved_content_is_shown_witness :
  let r := handleSave Page.about ((editor1, backend1), world1 []) in
  StaticPage.fetchContent asciiLower (Some (lit "about")) (StaticPage.answer r.2.1.2)
    page_loading
  = {| StaticPage.title := lit "About Us"; StaticPage.content := lit "We teach.";
       StaticPage.loading := false |}
  ∧ toasts r.2.2 = [ToastSuccess (lit "About Us page updated!")].
Proof.
  intros r.
  assert (H : head (faults (world1 [])) ≠ Some true) by (simpl; discriminate).
  pose proof (saved_content_is_shown Page.about editor1 backend1 (world1 []) asciiLower
                page_loading H) as (Hshown & _ & _ & _ & Ht).
  split; [exact Hshown | exact Ht].
Defined.

(** A visitor opens [/pricing]. *)
Lemma fetchContent_settles_witness :
  StaticPage.fetchContent asciiLower (Some (lit "pricing")) (StaticPage.answer backend1)
    page_loading
  = {| StaticPage.title := lit "Page Not Found";
       StaticPage.content := StaticPage.notFoundText;
       StaticPage.loading := false |}.
Proof.
  pose proof (fetchContent_settles asciiLower (Some (lit "pricing"))
                (StaticPage.answer backend1) page_loading) as (_ & H).
  apply H. right; right. intros p; destruct p; vm_compute; discriminate.
Defined.

(** A snapshot with the about page and a document of another id. *)
Lemma onContentSnapshot_loads_editor_witness :
  let docs := [(lit "about", lit "Welcome."); (lit "faq", lit "None yet.")] in
  let s' := (onContentSnapshot docs ((editor1, backend1), world1 [])).2.1.1 in
  NoDup docs.*1 ∧ about s' = lit "Welcome.".
Proof.
  intros docs s'.
  assert (H : NoDup docs.*1).
  { apply (bool_decide_unpack _). vm_compute. exact I. }
  split; [exact H |].
  pose proof (onContentSnapshot_loads_editor docs Page.about editor1 backend1 (world1 []) H)
    as (Hin & _).
  apply Hin. apply list_elem_of_here.
Defined.
End ContentScenarios.

Section ShellScenarios.
Import TelegramModalManager.

(** A visitor is shown the prompt, closes it, signs in and signs out. *)
Lemma telegram_prompt_shown_once_witness :
  let σ := (∅, {| isTelegramModalOpen := false |}) in
  let after := foldl (λ σ e, fire e σ) (fire Closed σ)
                 [AuthChanged None false; AuthChanged (Some ann) false;
                  AuthChanged None false] in
  isTelegramModalOpen after.2 = false
  ∧ isTelegramModalOpen (effect None false σ.1 σ.2) = true
  ∧ truthy_opt (σ.1 !! promptKey) = false.
Proof.
  intros σ after.
  pose proof (telegram_prompt_shown_once
                [AuthChanged None false; AuthChanged (Some ann) false;
                 AuthChanged None false] σ None false) as (Hclosed & _ & Hopen).
  split_and!; [exact Hclosed | reflexivity | apply (Hopen eq_refl eq_refl)].
Defined.
End ShellScenarios.

Section UserScenarios.
Import UserManagement.

(** The sample user and a user without email and nickname. *)
Lemma filteredUsers_empty_search_witness :
  let users := [profileOf (lit "u1") userdoc_ann; nameless] in
  asciiLower [] = []
  ∧ filteredUsers asciiLower users [] = [profileOf (lit "u1") userdoc_ann]
  ∧ nameless ∉ filteredUsers asciiLower users (lit "ANN").
Proof.
  intros users.
  pose proof (filteredUsers_empty_search asciiLower users (lit "ANN") eq_refl)
    as (Hall & Hsome).
  split_and!; [reflexivity | exact Hall |].
  intros Hin. destruct (Hsome nameless Hin) as (_ & Hn). apply Hn. split; reflexivity.
Defined.
End UserScenarios.

Section CatalogueScenarios.
Import Home.

(** One course arrives, then an empty snapshot and an error. *)
Lemma catalogue_keeps_last_courses_witness :
  let c := listedCourse (lit "k1") coursedoc1 in
  let s' := foldl (λ s e, fire e s) home0
              [CoursesSnapshot [c]; CoursesSnapshot []; CoursesError] in
  courses home0 = coursesCache home0
  ∧ courses s' = [c] ∧ coursesCache s' = courses s' ∧ loading s' = false.
Proof.
  intros c s'.
  pose proof (catalogue_keeps_last_courses
                [CoursesSnapshot [c]; CoursesSnapshot []; CoursesError] home0 eq_refl)
    as (Hc & Hcache & Hl).
  split_and!; [reflexivity | exact Hc | exact Hcache | apply Hl; discriminate].
Defined.

(** A visitor clicks on a video. *)
Lemma catalogue_actions_need_sign_in_witness :
  AuthContext.user ctx_signed_out = None
  ∧ isLoginPromptOpen
      (handleWatchClick ctx_signed_out (lit "https://youtu.be/abc") (lit "Vectors")
         ((home0, users1), world1 [])).2.1.1 = true
  ∧ (handleCompleteClick ctx_signed_out (lit "k1") ((home0, users1), world1 [])).2.1.2
    = users1.
Proof.
  pose proof (catalogue_actions_need_sign_in ctx_signed_out home0 users1 (world1 [])
                (lit "https://youtu.be/abc") (lit "Vectors") [] (lit "k1") eq_refl)
    as (Hw & _ & Hc).
  split_and!; [reflexivity | by rewrite Hw | by rewrite Hc].
Defined.

(** The sample user marks the course they had completed. *)
Lemma handleCompleteClick_toggles_witness :
  let r := handleCompleteClick ctx_ann (lit "k1") ((home0, users1), world1 []) in
  ∃ new,
    r.2.1.2
    = <[lit "u1" := {| ud_email := Some (lit "ann@example.org"); ud_role := Role.user;
                       ud_nickname := Some (lit "ann"); ud_emoji := Some (lit ":)");
                       ud_createdAt := Some 7; ud_completedCourses := Some new |}]> users1
    ∧ lit "k1" ∉ new.
Proof.
  intros r.
  assert (H : head (faults (world1 [])) ≠ Some true) by (simpl; discriminate).
  destruct (handleCompleteClick_toggles ctx_ann home0 users1 (world1 []) (lit "k1") ann
              (profileOf (lit "u1") userdoc_ann) userdoc_ann eq_refl eq_refl eq_refl H)
    as (new & Hst & _ & _ & Htog & _).
  exists new. split; [exact Hst |].
  intros Hin. apply (Htog eq_refl) in Hin. apply Hin. apply list_elem_of_here.
Defined.
End CatalogueScenarios.

Section AccountScenarios.

(** A sign-in with a wrong password. *)
Lemma auth_refusal_is_reported_witness :
  let code := Some (lit "auth/invalid-credential") in
  let s := authForm true (lit "secret") in
  let r := AuthPage.handleSubmit asciiLower (AuthPage.Refused code) None
             ((s, users1), world1 []) in
  AuthPage.password r.2.1.1 ≠ AuthPage.password s
  ∧ AuthPage.password r.2.1.1 = []
  ∧ toasts r.2.2
    = [ToastError
         (lit "Invalid email or password. Please check your credentials and try again.")]
  ∧ code = Some (lit "auth/invalid-credential").
Proof.
  intros code s r.
  assert (H : AuthPage.password r.2.1.1 ≠ AuthPage.password s)
    by (vm_compute; discriminate).
  pose proof (auth_refusal_is_reported asciiLower code None s users1 (world1 []))
    as (_ & Ht & _ & _ & _ & _ & _ & Hp & Hc).
  split_and!; [exact H | exact Hp | exact Ht | exact (Hc H)].
Defined.

(** The sample user signs up, the form filled in with capitals. *)
Lemma sign_up_creates_profile_witness :
  let s := authForm false (lit "secret") in
  let r := AuthPage.handleSubmit asciiLower (AuthPage.Granted ann) None
             ((s, ∅), world1 []) in
  ∃ d, r.2.1.2 = <[lit "u1" := d]> ∅
       ∧ ud_role d ≠ Role.admin
       ∧ ud_nickname d = Some (lit "ann")
       ∧ ud_createdAt d = Some 11.
Proof.
  intros s r.
  assert (H : head (faults (world1 [])) ≠ Some true) by (simpl; discriminate).
  pose proof (sign_up_creates_profile asciiLower ann None s ∅ (world1 []) H)
    as (Hup & _).
  destruct (Hup eq_refl) as (d & Hd & Hrole & (n & Hn & _ & Hbefore) & _ & Hts & _).
  assert (Hne : AuthPage.beforeAt (lit "ann@example.org") ≠ [])
    by (vm_compute; discriminate).
  exists d. split_and!; [exact Hd | | | exact Hts].
  - intros Ha. apply Hrole in Ha. vm_compute in Ha. discriminate.
  - rewrite Hn, (Hbefore (lit "ann@example.org") eq_refl Hne). reflexivity.
Defined.

(** Blanks typed as nickname. *)
Lemma profile_requires_nickname_and_emoji_witness :
  let s := profileForm (lit "  ") (lit ":)") in
  whitespace_only (ProfilePage.nickname s)
  ∧ (ProfilePage.handleSubmit (Some ann) ((s, users1), world1 [])).2.1 = (s, users1)
  ∧ ProfilePage.handleSubmit None ((s, users1), world1 [])
    = (Resolved (), ((s, users1), world1 [])).
Proof.
  intros s.
  assert (H : whitespace_only (ProfilePage.nickname s)) by (repeat constructor).
  pose proof (profile_requires_nickname_and_emoji (Some ann) s users1 (world1 []))
    as (_ & Hblank).
  pose proof (profile_requires_nickname_and_emoji None s users1 (world1 []))
    as (Hnone & _).
  split_and!; [exact H | | exact (Hnone eq_refl)].
  rewrite Hblank; [reflexivity | discriminate | left; exact H].
Defined.

(** The sample user changes nickname and emoji. *)
Lemma profile_save_stores_trimmed_nickname_witness :
  let s := profileForm (lit " Annie ") (lit ":D") in
  let r := ProfilePage.handleSubmit (Some ann) ((s, users1), world1 []) in
  r.2.1.2
  = <[lit "u1" := {| ud_email := Some (lit "ann@example.org"); ud_role := Role.user;
                     ud_nickname := Some (lit "Annie"); ud_emoji := Some (lit ":D");
                     ud_createdAt := Some 7;
                     ud_completedCourses := Some [lit "k1"] |}]> users1
  ∧ ProfilePage.saveState r.2.1.1 = ProfilePage.saved
  ∧ ProfilePage.isEditing (ProfilePage.onTimer r.2.1.1) = false.
Proof.
  intros s r.
  assert (H1 : trim (ProfilePage.nickname s) ≠ []) by (vm_compute; discriminate).
  assert (H2 : trim (ProfilePage.emoji s) ≠ []) by (vm_compute; discriminate).
  assert (H3 : head (faults (world1 [])) ≠ Some true) by (simpl; discriminate).
  pose proof (profile_save_stores_trimmed_nickname ann s users1 (world1 []) H1 H2)
    as (Hok & _).
  destruct (Hok userdoc_ann H3 eq_refl) as (Hst & Hsaved & _ & _ & _ & Hedit & _).
  split_and!; [exact Hst | exact Hsaved | exact Hedit].
Defined.
End AccountScenarios.
